(** * denord: the client's event dispatcher, its intent mask and the REST
    status mapping

    A shallow embedding of [src/Client.ts] (the constructor's intent
    computation and the ["raw"] gateway-event handler) and of
    [src/rest/RestClient.ts] ([RestClient.request]).

    JavaScript values are embedded as follows.
    - Snowflakes are strings; a string is falsy exactly when it is empty.
    - [undefined] / [null] results are [option] values.
    - A [Map] whose iteration order is never observed is a [gmap]; the
      emoji map, which the handler iterates, is an insertion-ordered
      association list ([JsMap]).
    - Objects are shared by reference in the source.  A handler that fetches
      an object from a map, mutates it in place and stores it again is
      embedded as a functional update of the entry it was fetched from
      followed by the insertion the source performs ([refile]).
    - A property access on [undefined] raises a [TypeError]; a handler
      returns the store as it is at that moment together with the error. *)

From Stdlib Require Import ZArith Bool List.
From stdpp Require Import base gmap strings list fin_maps.
From stdpp Require Import pretty.
Import ListNotations.

Local Open Scope string_scope.
Local Open Scope list_scope.
Local Open Scope Z_scope.

Abbreviation Snowflake := string (only parsing).

(** ** JavaScript basics *)

(** Truthiness of a string, and of an optional string property. *)
Definition truthy_string (s : string) : bool :=
  if decide (s = "") then false else true.

Definition truthy (o : option string) : bool :=
  match o with
  | Some s => truthy_string s
  | None => false
  end.

(** [a === b] on strings. *)
Definition str_eqb (a b : string) : bool := bool_decide (a = b).

(** Wire values (parsed JSON). *)
#[warnings="-register-all"]
Inductive json : Type :=
  | JNull
  | JBool (b : bool)
  | JNum (n : Z)
  | JStr (s : string)
  | JArr (items : list json)
  | JObj (fields : list (string * json)).

(** A plain data object as it arrives from the gateway is the map of its
    own enumerable properties, [gmap string json].  Object spread
    [{...a, ...b}]: the properties of [b] override those of [a] (stdpp's
    union is left-biased). *)
Definition spread (a b : gmap string json) : gmap string json := b ∪ a.

Inductive JsError : Type :=
  | TypeError (what : string)
  | SyntaxError (what : string).

(** 32-bit integer arithmetic of the bitwise operators. *)
Definition ToInt32 (z : Z) : Z :=
  let m := z mod 2 ^ 32 in
  if 2 ^ 31 <=? m then m - 2 ^ 32 else m.

Definition js_bor (a b : Z) : Z := ToInt32 (Z.lor (ToInt32 a) (ToInt32 b)).

Definition js_shl (a n : Z) : Z := ToInt32 (Z.shiftl (ToInt32 a) (n mod 32)).

(** ** Gateway intents ([Client.ts], lines 111-159) *)

Module Intent.
Inductive key : Type :=
  | guilds | guildMembers | guildBans | guildEmojis | guildIntegrations
  | guildWebhooks | guildInvites | guildVoiceStates | guildPresences
  | guildMessages | guildMessageReactions | guildMessageTyping
  | directMessages | directMessageReactions | directMessageTyping.
End Intent.

(** [intentsMap], in property order (the order of [Object.values] and
    [Object.entries]). *)
Definition intentsMap : list (Intent.key * Z) :=
  [ (Intent.guilds, js_shl 1 0);
    (Intent.guildMembers, js_shl 1 1);
    (Intent.guildBans, js_shl 1 2);
    (Intent.guildEmojis, js_shl 1 3);
    (Intent.guildIntegrations, js_shl 1 4);
    (Intent.guildWebhooks, js_shl 1 5);
    (Intent.guildInvites, js_shl 1 6);
    (Intent.guildVoiceStates, js_shl 1 7);
    (Intent.guildPresences, js_shl 1 8);
    (Intent.guildMessages, js_shl 1 9);
    (Intent.guildMessageReactions, js_shl 1 10);
    (Intent.guildMessageTyping, js_shl 1 11);
    (Intent.directMessages, js_shl 1 12);
    (Intent.directMessageReactions, js_shl 1 13);
    (Intent.directMessageTyping, js_shl 1 14) ].

(** A number handed in as [intents]: [NaN] or an integer.  [Integer 0]
    stands for both zeros, which [===] does not tell apart.  Numbers that
    are not integral and the infinities, all truthy and assigned to
    [newIntents] like any non-zero integer, are left out: the mask is kept
    as an integer. *)
Inductive JsNumber : Type :=
  | NaN
  | Integer (n : Z).

(** [if (n)] on a number: [NaN] and [0] are falsy. *)
Definition truthy_number (n : JsNumber) : bool :=
  match n with
  | NaN => false
  | Integer z => negb (z =? 0)
  end.

(** The [intents] argument: a record of booleans over the keys of
    [intentsMap], a number, or a boolean. *)
Inductive IntentsArg : Type :=
  | IntentsRecord (entries : Intent.key -> bool)
  | IntentsNumber (n : JsNumber)
  | IntentsBoolean (b : bool).

(** [if (intents)]: objects are truthy, [0], [NaN] and [false] are not. *)
Definition truthy_intents (i : IntentsArg) : bool :=
  match i with
  | IntentsRecord _ => true
  | IntentsNumber n => truthy_number n
  | IntentsBoolean b => b
  end.

(** The value of [newIntents] handed to [new ShardManager(shardAmount,
    newIntents)]; [None] is an omitted argument, which takes the default
    [true].  [newIntents = intents] is reached by truthy numbers only:
    [NaN] fails [if (intents)] and leaves the initial [0], so its case of
    the [match] is never taken. *)
Definition newIntents (arg : option IntentsArg) : Z :=
  let intents := default (IntentsBoolean true) arg in
  if truthy_intents intents then
    match intents with
    | IntentsBoolean _ =>
        fold_left (fun prev curr => js_bor prev curr) (map snd intentsMap) 0
    | IntentsNumber (Integer n) => n
    | IntentsNumber NaN => 0
    | IntentsRecord entries =>
        fold_left
          (fun acc kv => if entries (fst kv) then js_bor acc (snd kv) else acc)
          intentsMap 0
    end
  else 0.

(** ** [RestClient.request] ([rest/RestClient.ts], lines 17-89) *)

Module Rest.

Inductive Method : Type := GET | POST | PUT | PATCH | DELETE.

(** A [data] object: the name of the [File] under [data.file] when that
    property is set, and the JSON payload, which is [data] itself when there
    is no file and the rest of its properties ([otherData]) when there is
    one. *)
Record Data : Type := {
  file : option string;
  payload : json
}.

(** The [data] argument ([data?: any]): left out, [null], or an object. *)
Inductive Argument : Type :=
  | Omitted
  | Null
  | Object (d : Data).

(** The request body: a [FormData] of the two entries [request] appends
    (the file under its name, and the string stored as [payload_json]), or
    a JSON text. *)
Inductive Body : Type :=
  | FormBody (file_name : string) (payload_json : string)
  | JsonBody (text : string).

(** [data.append("payload_json", otherData)]: [FormData] stores a value that
    is not a [Blob] as the string [String(otherData)].  [otherData] is the
    plain object built by the rest pattern [{ file, ...otherData }]; the
    payload has no property named [toString], so the conversion is that of
    [Object.prototype.toString], which does not read the properties. *)
Definition String_of_object (otherData : json) : string := "[object Object]".

Record FetchCall : Type := {
  url : string;
  method : Method;
  headers : list (string * string);
  body : option Body
}.

(** What [fetch] resolves to: the status, and the result of [res.json()]
    ([None] when the body is not JSON and [res.json()] rejects). *)
Record Response : Type := {
  status : Z;
  parsed : option json
}.

Inductive Thrown : Type :=
  | DiscordJSONError (status : Z) (body : json)
  | HTTPError (status : Z) (message : string)
  | Rejected (e : JsError).

(** A computation that performs outbound calls: the log of the calls made
    so far is threaded through, and the computation ends with a value or
    with a thrown error. *)
Definition Http (A : Type) : Type :=
  list FetchCall -> list FetchCall * (Thrown + A).

Definition ret {A} (a : A) : Http A := fun log => (log, inr a).

Definition throw {A} (t : Thrown) : Http A := fun log => (log, inl t).

Definition bind {A B} (m : Http A) (k : A -> Http B) : Http B :=
  fun log =>
    match m log with
    | (log', inl t) => (log', inl t)
    | (log', inr a) => k a log'
    end.

Notation "x <- m ;; k" := (bind m (fun x => k))
  (at level 100, m at next level, right associativity).

Section Request.

(** The network: what [fetch] answers to a call ([None]: the promise
    rejects), the REST base URL and [JSON.stringify]. *)
Variable network : FetchCall -> option Response.
Variable REST : string.
Variable stringify : json -> string.

Definition fetch (call : FetchCall) : Http Response :=
  fun log =>
    match network call with
    | Some res => (log ++ [call], inr res)
    | None => (log ++ [call], inl (Rejected (TypeError "fetch failed")))
    end.

Definition res_json (res : Response) : Http json :=
  match parsed res with
  | Some j => ret j
  | None => throw (Rejected (SyntaxError "res.json()"))
  end.

(** The [switch (res.status)] that ends [request]. *)
Definition respond (res : Response) : Http (option json) :=
  match status res with
  | 200 | 201 => j <- res_json res ;; ret (Some j)
  | 204 => ret None
  | 400 | 404 =>
      j <- res_json res ;; throw (DiscordJSONError (status res) j)
  | 401 => throw (HTTPError (status res) "You supplied an invalid token")
  | 403 =>
      throw (HTTPError (status res) "You don't have permission to do this")
  | 429 => throw (HTTPError (status res) "You are getting rate-limited")
  | 502 =>
      throw (HTTPError (status res) "Gateway unavailable. Wait and retry")
  | 500 | 503 | 504 | 507 | 508 =>
      throw (HTTPError (status res) "Discord internal error")
  | _ => throw (HTTPError (status res) "Unexpected response")
  end.

(** [request].  With [data] equal to [null] the test [data !== undefined]
    passes and reading [data.file] throws, before [fetch] is reached. *)
Definition request (token endpoint : string) (method : Method)
    (data : Argument) : Http (option json) :=
  let headers0 :=
    [("User-Agent",
      "DiscordBot (https://github.com/DenordTS/denord, 0.0.1)")] in
  let headers1 :=
    if truthy_string token
    then headers0 ++ [("Authorization", ("Bot " ++ token)%string)]
    else headers0 in
  prepared <-
    match data with
    | Omitted => ret (headers1, None)
    | Null => throw (Rejected (TypeError "data.file"))
    | Object d =>
        match file d with
        | Some f =>
            ret (headers1, Some (FormBody f (String_of_object (payload d))))
        | None =>
            ret (headers1 ++ [("Content-Type", "application/json")],
                 Some (JsonBody (stringify (payload d))))
        end
    end ;;
  res <- fetch {| url := (REST ++ endpoint)%string; method := method;
                  headers := fst prepared; body := snd prepared |} ;;
  respond res.

(** One invocation as the endpoint methods of [RestClient] make it, without
    [data] or with a [data] object, run from an empty log. *)
Definition run_request (token endpoint : string) (method : Method)
    (data : option Data) : list FetchCall * (Thrown + option json) :=
  request token endpoint method
    match data with
    | Some d => Object d
    | None => Omitted
    end [].

End Request.

End Rest.

(** ** The entity store ([Client.ts], lines 133-138) *)

(** An insertion-ordered [Map] with string keys, for the maps the handler
    iterates with [for ... of]. *)
Module JsMap.
Section Ordered.
Context {V : Type}.

Fixpoint get (m : list (string * V)) (k : string) : option V :=
  match m with
  | [] => None
  | (k', v) :: rest => if decide (k' = k) then Some v else get rest k
  end.

Definition has (m : list (string * V)) (k : string) : bool :=
  match get m k with Some _ => true | None => false end.

(** [set] keeps the position of a key that is already present. *)
Fixpoint set (m : list (string * V)) (k : string) (v : V)
    : list (string * V) :=
  match m with
  | [] => [(k, v)]
  | (k', v') :: rest =>
      if decide (k' = k) then (k, v) :: rest else (k', v') :: set rest k v
  end.

Definition size (m : list (string * V)) : Z := Z.of_nat (length m).

(** [new Map(entries)]. *)
Definition of_entries (entries : list (string * V)) : list (string * V) :=
  fold_left (fun m kv => set m (fst kv) (snd kv)) entries [].
End Ordered.
End JsMap.

(** [new Map(entries)] for a map whose order is not observed: a later entry
    with the same key replaces an earlier one. *)
Definition Map_of_entries {V : Type} (entries : list (string * V))
    : gmap string V :=
  fold_left (fun m kv => <[fst kv := snd kv]> m) entries ∅.

(** An object fetched from [m] under [k] has been mutated in place into [v]
    and is then stored with [m.set(id, v)]. *)
Definition refile {V : Type} (k id : string) (v : V) (m : gmap string V)
    : gmap string V :=
  <[id := v]> (<[k := v]> m).

(** The emoji of a reaction event ([e.data.emoji]). *)
Module Emoji.
Record t : Type := { id : option Snowflake; name : option string }.
End Emoji.

(** [e.data.emoji.id ?? e.data.emoji.name!]; [None] is a [null] key. *)
Definition reaction_key (emoji : Emoji.t) : option string :=
  match Emoji.id emoji with
  | Some i => Some i
  | None => Emoji.name emoji
  end.

Module Reaction.
Record t : Type := { count : Z; emoji : Emoji.t; me : bool }.
End Reaction.

Module User.
Record t : Type := { id : Snowflake; username : string }.
End User.

Module PrivateUser.
Record t : Type := { id : Snowflake }.
End PrivateUser.

Module Message.
Record t : Type := {
  id : Snowflake;
  channelId : Snowflake;
  guildId : option Snowflake;
  content : option string;
  reactions : gmap (option string) Reaction.t
}.

Definition set_reactions (m : t) (r : gmap (option string) Reaction.t) : t :=
  {| id := id m; channelId := channelId m; guildId := guildId m;
     content := content m; reactions := r |}.
End Message.

(** [Pick<Message, "id" | "channelId" | "guildId">]. *)
Module UnknownMessage.
Record t : Type := {
  id : Snowflake;
  channelId : Snowflake;
  guildId : option Snowflake
}.
End UnknownMessage.

Inductive ChannelType : Type :=
  | text | DM | voice | groupDM | category | news | store.

Module Channel.
Record t : Type := {
  id : Snowflake;
  type : ChannelType;
  messages : gmap Snowflake Message.t
}.

Definition set_messages (c : t) (ms : gmap Snowflake Message.t) : t :=
  {| id := id c; type := type c; messages := ms |}.
End Channel.

Module GuildEmoji.
Record t : Type := { id : Snowflake; name : option string }.
End GuildEmoji.

Module GuildMember.
Record t : Type := {
  raw : gmap string json;
  guildId : Snowflake;
  nickname : option json;
  roles : option json;
  joinedAt : option json
}.
End GuildMember.

Module GatewayGuild.
Record t : Type := {
  id : Snowflake;
  members : gmap Snowflake GuildMember.t;
  roles : gmap Snowflake json;
  presences : gmap Snowflake json;
  emojis : list (Snowflake * GuildEmoji.t)
}.

Definition set_members (g : t) (ms : gmap Snowflake GuildMember.t) : t :=
  {| id := id g; members := ms; roles := roles g;
     presences := presences g; emojis := emojis g |}.

Definition set_emojis (g : t) (es : list (Snowflake * GuildEmoji.t)) : t :=
  {| id := id g; members := members g; roles := roles g;
     presences := presences g; emojis := es |}.
End GatewayGuild.

Module Client.
Record t : Type := {
  guildChannels : gmap Snowflake Channel.t;
  dmChannels : gmap Snowflake Channel.t;
  guilds : gmap Snowflake GatewayGuild.t;
  users : gmap Snowflake User.t;
  user : option PrivateUser.t
}.

Definition set_guildChannels (c : t) (m : gmap Snowflake Channel.t) : t :=
  {| guildChannels := m; dmChannels := dmChannels c; guilds := guilds c;
     users := users c; user := user c |}.

Definition set_dmChannels (c : t) (m : gmap Snowflake Channel.t) : t :=
  {| guildChannels := guildChannels c; dmChannels := m; guilds := guilds c;
     users := users c; user := user c |}.

Definition set_guilds (c : t) (m : gmap Snowflake GatewayGuild.t) : t :=
  {| guildChannels := guildChannels c; dmChannels := dmChannels c;
     guilds := m; users := users c; user := user c |}.
End Client.

(** ** Gateway payloads and the entity constructors *)

Module Wire.
(** [channel.Channel]: the properties the dispatcher reads. *)
Record Channel : Type := { channel_id : Snowflake; channel_type : Z }.

(** An entry of [e.data.emojis]. *)
Record GuildEmoji : Type := {
  emoji_id : Snowflake;
  emoji_name : option string
}.

(** A member object: [member.user.id] and the object's properties. *)
Record Member : Type := {
  member_user_id : Snowflake;
  member_fields : gmap string json
}.

(** [GUILD_MEMBER_UPDATE]: [e.data.guild_id], [e.data.user.id], and the
    properties of [e.data] that [{...e.data}] copies. *)
Record MemberUpdate : Type := {
  mu_guild_id : Snowflake;
  mu_user_id : Snowflake;
  mu_fields : gmap string json
}.

Record Reaction : Type := {
  reaction_count : Z;
  reaction_me : bool;
  reaction_emoji : Emoji.t
}.

Record Message : Type := {
  message_id : Snowflake;
  message_channel_id : Snowflake;
  message_guild_id : option Snowflake;
  message_content : option string;
  message_reactions : list Reaction
}.

(** [MESSAGE_DELETE]. *)
Record MessageDelete : Type := {
  md_id : Snowflake;
  md_channel_id : Snowflake;
  md_guild_id : option Snowflake
}.

(** [MESSAGE_REACTION_ADD] and [MESSAGE_REACTION_REMOVE]. *)
Record ReactionEvent : Type := {
  re_user_id : Snowflake;
  re_channel_id : Snowflake;
  re_message_id : Snowflake;
  re_guild_id : option Snowflake;
  re_emoji : Emoji.t
}.
End Wire.

(** Modelled from the spec: the channel classes of [structures/*Channel.ts]
    are not among the sources.  Per the spec a channel is a tagged variant
    that owns its message cache, and the constructors are pure
    payload-to-object functions; a freshly built channel has an empty
    cache. *)
Definition new_Channel (kind : ChannelType) (data : Wire.Channel) : Channel.t :=
  {| Channel.id := Wire.channel_id data; Channel.type := kind;
     Channel.messages := ∅ |}.

(** [newChannelSwitch]; a [type] outside [0..6] falls out of the [switch]
    and yields [undefined]. *)
Definition newChannelSwitch (data : Wire.Channel) : option Channel.t :=
  match Wire.channel_type data with
  | 0 => Some (new_Channel text data)
  | 1 => Some (new_Channel DM data)
  | 2 => Some (new_Channel voice data)
  | 3 => Some (new_Channel groupDM data)
  | 4 => Some (new_Channel category data)
  | 5 => Some (new_Channel news data)
  | 6 => Some (new_Channel store data)
  | _ => None
  end.

(** Modelled from the spec: [parseEmoji] of [structures/Emoji.ts] is not
    among the sources; a pure payload-to-object constructor. *)
Definition parseEmoji (data : Wire.GuildEmoji) : GuildEmoji.t :=
  {| GuildEmoji.id := Wire.emoji_id data;
     GuildEmoji.name := Wire.emoji_name data |}.

(** Modelled from the spec: the [GuildMember] class of
    [structures/GuildMember.ts] is not among the sources.  Per the spec a
    member carries the server-scoped attributes nickname, roles and join
    time, built purely from the payload; the handler also reads back the
    payload it was built from ([raw]). *)
Definition new_GuildMember (data : gmap string json) (guildId : Snowflake)
    : GuildMember.t :=
  {| GuildMember.raw := data;
     GuildMember.guildId := guildId;
     GuildMember.nickname := data !! "nick";
     GuildMember.roles := data !! "roles";
     GuildMember.joinedAt := data !! "joined_at" |}.

(** Modelled from the spec: the [Message] class of [structures/Message.ts]
    is not among the sources.  Per the spec a message belongs to one
    channel, carries the server id when there is one, and maps reaction keys
    to aggregates of count, emoji and own-reaction flag. *)
Definition new_Message (data : Wire.Message) : Message.t :=
  {| Message.id := Wire.message_id data;
     Message.channelId := Wire.message_channel_id data;
     Message.guildId := Wire.message_guild_id data;
     Message.content := Wire.message_content data;
     Message.reactions :=
       fold_left
         (fun m r =>
            <[reaction_key (Wire.reaction_emoji r) :=
                {| Reaction.count := Wire.reaction_count r;
                   Reaction.emoji := Wire.reaction_emoji r;
                   Reaction.me := Wire.reaction_me r |}]> m)
         (Wire.message_reactions data) ∅ |}.

(** The raw gateway events whose handlers are embedded here. *)
Inductive GatewayEvent : Type :=
  | CHANNEL_UPDATE (data : Wire.Channel)
  | GUILD_EMOJIS_UPDATE (guild_id : Snowflake) (emojis : list Wire.GuildEmoji)
  | GUILD_MEMBER_UPDATE (data : Wire.MemberUpdate)
  | GUILD_MEMBERS_CHUNK (guild_id : Snowflake) (members : list Wire.Member)
  | MESSAGE_UPDATE (data : Wire.Message)
  | MESSAGE_DELETE (data : Wire.MessageDelete)
  | MESSAGE_REACTION_ADD (data : Wire.ReactionEvent)
  | MESSAGE_REACTION_REMOVE (data : Wire.ReactionEvent).

(** The notifications these handlers emit ([Events], lines 68-109).  The
    tuples are as the handler builds them: an absent old value is [None],
    and [guildEmojiUpdate] is emitted with the guild alone. *)
Inductive Notification : Type :=
  | channelUpdate (old : option Channel.t) (new : Channel.t)
  | guildEmojiCreate (guild : GatewayGuild.t) (added : option GuildEmoji.t)
  | guildEmojiUpdate (guild : GatewayGuild.t)
  | guildEmojiDelete (guild : GatewayGuild.t) (deleted : option GuildEmoji.t)
  | guildMemberUpdate (guild : GatewayGuild.t) (old new : GuildMember.t)
  | guildMembersChunk (guild : GatewayGuild.t)
      (members : gmap Snowflake GuildMember.t)
  | messageUpdate (channel : Channel.t) (old : option Message.t)
      (new : Message.t)
  | messageDelete (channel : Channel.t) (message : Message.t + UnknownMessage.t)
  | messageReactionAdd (channel : Channel.t) (message : Message.t + Snowflake)
      (emoji : Emoji.t) (user : option User.t)
  | messageReactionRemove (channel : Channel.t)
      (message : Message.t + Snowflake) (emoji : Emoji.t) (user : option User.t).

(** How one run of the listener ends. *)
Inductive Outcome : Type :=
  | Emitted (n : Notification)
  | Threw (e : JsError).

(** ** The raw-event listener ([Client.ts], lines 160-599) *)

(** *** Channel updates (lines 181-193) *)

Definition is_dm_type (k : ChannelType) : bool :=
  match k with
  | DM | groupDM => true
  | _ => false
  end.

Definition on_CHANNEL_UPDATE (c : Client.t) (data : Wire.Channel)
    : Client.t * Outcome :=
  match newChannelSwitch data with
  | None => (c, Threw (TypeError "newChannel.type"))
  | Some newChannel =>
      if is_dm_type (Channel.type newChannel) then
        let oldChannel := Client.dmChannels c !! Wire.channel_id data in
        (Client.set_dmChannels c
           (<[Channel.id newChannel := newChannel]> (Client.dmChannels c)),
         Emitted (channelUpdate oldChannel newChannel))
      else
        let oldChannel := Client.guildChannels c !! Wire.channel_id data in
        (Client.set_guildChannels c
           (<[Channel.id newChannel := newChannel]> (Client.guildChannels c)),
         Emitted (channelUpdate oldChannel newChannel))
  end.

(** *** Emoji list replacement (lines 251-277)

    [guild.emojis = newEmojis] runs before the sizes are compared, so every
    later read of [guild.emojis] sees the new map. *)

Definition on_GUILD_EMOJIS_UPDATE (c : Client.t) (guild_id : Snowflake)
    (emojis : list Wire.GuildEmoji) : Client.t * Outcome :=
  match Client.guilds c !! guild_id with
  | None => (c, Threw (TypeError "guild.emojis"))
  | Some guild0 =>
      let newEmojis :=
        JsMap.of_entries
          (map (fun emoji => (Wire.emoji_id emoji, parseEmoji emoji)) emojis) in
      let guild := GatewayGuild.set_emojis guild0 newEmojis in
      let c' :=
        Client.set_guilds c
          (refile guild_id (GatewayGuild.id guild) guild (Client.guilds c)) in
      if JsMap.size newEmojis >? JsMap.size (GatewayGuild.emojis guild) then
        let addedEmoji :=
          fold_left
            (fun added entry =>
               if negb (JsMap.has (GatewayGuild.emojis guild) (fst entry))
               then Some (snd entry) else added)
            newEmojis None in
        (c', Emitted (guildEmojiCreate guild addedEmoji))
      else if JsMap.size newEmojis =? JsMap.size (GatewayGuild.emojis guild)
      then (c', Emitted (guildEmojiUpdate guild))
      else
        let deletedEmoji :=
          fold_left
            (fun deleted entry =>
               if negb (JsMap.has newEmojis (fst entry))
               then Some (snd entry) else deleted)
            (GatewayGuild.emojis guild) None in
        (c', Emitted (guildEmojiDelete guild deletedEmoji))
  end.

(** *** Member update (lines 290-301) *)

Definition on_GUILD_MEMBER_UPDATE (c : Client.t) (data : Wire.MemberUpdate)
    : Client.t * Outcome :=
  match Client.guilds c !! Wire.mu_guild_id data with
  | None => (c, Threw (TypeError "guild.members"))
  | Some guild =>
      match GatewayGuild.members guild !! Wire.mu_user_id data with
      | None => (c, Threw (TypeError "oldMember.raw"))
      | Some oldMember =>
          let newMember :=
            new_GuildMember
              (spread (GuildMember.raw oldMember) (Wire.mu_fields data))
              (Wire.mu_guild_id data) in
          let guild' :=
            GatewayGuild.set_members guild
              (<[Wire.mu_user_id data := newMember]>
                 (GatewayGuild.members guild)) in
          (Client.set_guilds c
             (<[Wire.mu_guild_id data := guild']> (Client.guilds c)),
           Emitted (guildMemberUpdate guild' oldMember newMember))
      end
  end.

(** *** Member chunk (lines 310-320)

    The argument of [new Map(...)] is an object literal that spreads two
    [Map] iterators.  Spreading copies own enumerable properties, of which
    an iterator has none, and [new Map] requires an iterable. *)

Inductive JsObject (V : Type) : Type :=
  | MapIterator (entries : list (string * V))
  | ObjectLiteral (own : list (string * json)).
Arguments MapIterator {V} entries.
Arguments ObjectLiteral {V} own.

Definition own_enumerable_properties {V} (o : JsObject V)
    : list (string * json) :=
  match o with
  | MapIterator _ => []
  | ObjectLiteral own => own
  end.

(** [{...o1, ...o2}]. *)
Definition object_spread {V} (o1 o2 : JsObject V) : JsObject V :=
  ObjectLiteral (own_enumerable_properties o1 ++ own_enumerable_properties o2).

(** [m.entries()]. *)
Definition entries {V} (m : gmap string V) : JsObject V :=
  MapIterator (map_to_list m).

(** [new Map(o)]. *)
Definition new_Map {V} (o : JsObject V) : JsError + gmap string V :=
  match o with
  | MapIterator es => inr (Map_of_entries es)
  | ObjectLiteral _ => inl (TypeError "object is not iterable")
  end.

Definition on_GUILD_MEMBERS_CHUNK (c : Client.t) (guild_id : Snowflake)
    (data_members : list Wire.Member) : Client.t * Outcome :=
  let members :=
    Map_of_entries
      (map (fun member =>
              (Wire.member_user_id member,
               new_GuildMember (Wire.member_fields member) guild_id))
         data_members) in
  match Client.guilds c !! guild_id with
  | None => (c, Threw (TypeError "guild.members"))
  | Some guild =>
      match
        new_Map
          (object_spread (entries (GatewayGuild.members guild))
             (entries members))
      with
      | inl err => (c, Threw err)
      | inr merged =>
          let guild' := GatewayGuild.set_members guild merged in
          (Client.set_guilds c (<[guild_id := guild']> (Client.guilds c)),
           Emitted (guildMembersChunk guild' members))
      end
  end.

(** *** Message update and delete (lines 367-405)

    Both branches of each handler run the same statements, on
    [guildChannels] when [e.data.guild_id] is truthy and on [dmChannels]
    otherwise. *)

Definition update_message_in (channels : gmap Snowflake Channel.t)
    (channel_id : Snowflake) (newMessage : Message.t)
    : gmap Snowflake Channel.t * Outcome :=
  match channels !! channel_id with
  | None => (channels, Threw (TypeError "channel.messages"))
  | Some channel =>
      let oldMessage := Channel.messages channel !! Message.id newMessage in
      let channel' :=
        Channel.set_messages channel
          (<[Message.id newMessage := newMessage]> (Channel.messages channel)) in
      (refile channel_id (Channel.id channel') channel' channels,
       Emitted (messageUpdate channel' oldMessage newMessage))
  end.

Definition on_MESSAGE_UPDATE (c : Client.t) (data : Wire.Message)
    : Client.t * Outcome :=
  let newMessage := new_Message data in
  if truthy (Wire.message_guild_id data) then
    let '(channels, out) :=
      update_message_in (Client.guildChannels c)
        (Wire.message_channel_id data) newMessage in
    (Client.set_guildChannels c channels, out)
  else
    let '(channels, out) :=
      update_message_in (Client.dmChannels c)
        (Wire.message_channel_id data) newMessage in
    (Client.set_dmChannels c channels, out).

Definition delete_message_in (channels : gmap Snowflake Channel.t)
    (data : Wire.MessageDelete) : gmap Snowflake Channel.t * Outcome :=
  match channels !! Wire.md_channel_id data with
  | None => (channels, Threw (TypeError "channel.messages"))
  | Some channel =>
      let message := Channel.messages channel !! Wire.md_id data in
      let channel' :=
        Channel.set_messages channel
          (delete (Wire.md_id data) (Channel.messages channel)) in
      (refile (Wire.md_channel_id data) (Channel.id channel') channel' channels,
       Emitted
         (messageDelete channel'
            match message with
            | Some m => inl m
            | None =>
                inr {| UnknownMessage.id := Wire.md_id data;
                       UnknownMessage.channelId := Wire.md_channel_id data;
                       UnknownMessage.guildId := Wire.md_guild_id data |}
            end))
  end.

Definition on_MESSAGE_DELETE (c : Client.t) (data : Wire.MessageDelete)
    : Client.t * Outcome :=
  if truthy (Wire.md_guild_id data) then
    let '(channels, out) := delete_message_in (Client.guildChannels c) data in
    (Client.set_guildChannels c channels, out)
  else
    let '(channels, out) := delete_message_in (Client.dmChannels c) data in
    (Client.set_dmChannels c channels, out).

(** *** Reactions (lines 430-514)

    [++previousReaction.count] and [--previousReaction.count] update the
    stored aggregate in place before the replacement object is complete:
    its [me] property reads [this.user!.id], which throws when the session
    user is not known yet. *)

Definition bump (delta : Z) (r : Reaction.t) : Reaction.t :=
  {| Reaction.count := Reaction.count r + delta;
     Reaction.emoji := Reaction.emoji r;
     Reaction.me := Reaction.me r |}.

(** The body of [if (message) { ... }] of [MESSAGE_REACTION_ADD] up to
    [message.reactions.set]: the message as it is afterwards, and the error
    if one was thrown. *)
Definition add_reaction (self : option PrivateUser.t)
    (data : Wire.ReactionEvent) (message : Message.t)
    : Message.t * option JsError :=
  let key := reaction_key (Wire.re_emoji data) in
  match Message.reactions message !! key with
  | Some previousReaction =>
      let previousReaction := bump 1 previousReaction in
      match self with
      | None =>
          (Message.set_reactions message
             (<[key := previousReaction]> (Message.reactions message)),
           Some (TypeError "this.user.id"))
      | Some self =>
          (Message.set_reactions message
             (<[key :=
                  {| Reaction.count := Reaction.count previousReaction;
                     Reaction.emoji := Wire.re_emoji data;
                     Reaction.me :=
                       str_eqb (Wire.re_user_id data) (PrivateUser.id self)
                       || Reaction.me previousReaction |}]>
                (Message.reactions message)),
           None)
      end
  | None =>
      match self with
      | None => (message, Some (TypeError "this.user.id"))
      | Some self =>
          (Message.set_reactions message
             (<[key :=
                  {| Reaction.count := 0;
                     Reaction.emoji := Wire.re_emoji data;
                     Reaction.me :=
                       str_eqb (Wire.re_user_id data) (PrivateUser.id self) |}]>
                (Message.reactions message)),
           None)
      end
  end.

(** The same for [MESSAGE_REACTION_REMOVE], guild branch (lines 488-493). *)
Definition remove_reaction (self : option PrivateUser.t)
    (data : Wire.ReactionEvent) (message : Message.t)
    : Message.t * option JsError :=
  let key := reaction_key (Wire.re_emoji data) in
  match Message.reactions message !! key with
  | None => (message, Some (TypeError "previousReaction.count"))
  | Some previousReaction =>
      let previousReaction := bump (-1) previousReaction in
      match self with
      | None =>
          (Message.set_reactions message
             (<[key := previousReaction]> (Message.reactions message)),
           Some (TypeError "this.user.id"))
      | Some self =>
          (Message.set_reactions message
             (<[key :=
                  {| Reaction.count := Reaction.count previousReaction;
                     Reaction.emoji := Wire.re_emoji data;
                     Reaction.me :=
                       negb (str_eqb (Wire.re_user_id data)
                               (PrivateUser.id self))
                       && Reaction.me previousReaction |}]>
                (Message.reactions message)),
           None)
      end
  end.

(** DM branch (lines 501-507): the same statements, then
    [message.reactions.delete(key)]. *)
Definition remove_reaction_dm (self : option PrivateUser.t)
    (data : Wire.ReactionEvent) (message : Message.t)
    : Message.t * option JsError :=
  match remove_reaction self data message with
  | (message', Some err) => (message', Some err)
  | (message', None) =>
      (Message.set_reactions message'
         (delete (reaction_key (Wire.re_emoji data))
            (Message.reactions message')),
       None)
  end.

(** The frame shared by the four reaction branches: fetch the channel and
    the message, run [block] on a cached message, then
    [channel.messages.set(message.id, message)] and
    [channels.set(channel.id, channel)].  The result is what the
    notification carries: the channel, and [message || e.data.message_id]. *)
Definition react_in (channels : gmap Snowflake Channel.t)
    (data : Wire.ReactionEvent)
    (block : Message.t -> Message.t * option JsError)
    : gmap Snowflake Channel.t * (JsError + Channel.t * (Message.t + Snowflake)) :=
  match channels !! Wire.re_channel_id data with
  | None => (channels, inl (TypeError "channel.messages"))
  | Some channel =>
      match Channel.messages channel !! Wire.re_message_id data with
      | None => (channels, inr (channel, inr (Wire.re_message_id data)))
      | Some message =>
          match block message with
          | (message', Some err) =>
              (<[Wire.re_channel_id data :=
                   Channel.set_messages channel
                     (<[Wire.re_message_id data := message']>
                        (Channel.messages channel))]> channels,
               inl err)
          | (message', None) =>
              let channel' :=
                Channel.set_messages channel
                  (refile (Wire.re_message_id data) (Message.id message')
                     message' (Channel.messages channel)) in
              (refile (Wire.re_channel_id data) (Channel.id channel') channel'
                 channels,
               inr (channel', inl message'))
          end
      end
  end.

Definition on_MESSAGE_REACTION_ADD (c : Client.t) (data : Wire.ReactionEvent)
    : Client.t * Outcome :=
  let user := Client.users c !! Wire.re_user_id data in
  if truthy (Wire.re_guild_id data) then
    match
      react_in (Client.guildChannels c) data (add_reaction (Client.user c) data)
    with
    | (channels, inl err) => (Client.set_guildChannels c channels, Threw err)
    | (channels, inr (channel, message)) =>
        (Client.set_guildChannels c channels,
         Emitted (messageReactionAdd channel message (Wire.re_emoji data) user))
    end
  else
    match
      react_in (Client.dmChannels c) data (add_reaction (Client.user c) data)
    with
    | (channels, inl err) => (Client.set_dmChannels c channels, Threw err)
    | (channels, inr (channel, message)) =>
        (Client.set_dmChannels c channels,
         Emitted (messageReactionAdd channel message (Wire.re_emoji data) user))
    end.

Definition on_MESSAGE_REACTION_REMOVE (c : Client.t)
    (data : Wire.ReactionEvent) : Client.t * Outcome :=
  let user := Client.users c !! Wire.re_user_id data in
  if truthy (Wire.re_guild_id data) then
    match
      react_in (Client.guildChannels c) data
        (remove_reaction (Client.user c) data)
    with
    | (channels, inl err) => (Client.set_guildChannels c channels, Threw err)
    | (channels, inr (channel, message)) =>
        (Client.set_guildChannels c channels,
         Emitted
           (messageReactionRemove channel message (Wire.re_emoji data) user))
    end
  else
    match
      react_in (Client.dmChannels c) data
        (remove_reaction_dm (Client.user c) data)
    with
    | (channels, inl err) => (Client.set_dmChannels c channels, Threw err)
    | (channels, inr (channel, message)) =>
        (Client.set_dmChannels c channels,
         Emitted
           (messageReactionRemove channel message (Wire.re_emoji data) user))
    end.

(** *** The [switch (e.name)] *)

Definition handle (c : Client.t) (e : GatewayEvent) : Client.t * Outcome :=
  match e with
  | CHANNEL_UPDATE data => on_CHANNEL_UPDATE c data
  | GUILD_EMOJIS_UPDATE guild_id emojis =>
      on_GUILD_EMOJIS_UPDATE c guild_id emojis
  | GUILD_MEMBER_UPDATE data => on_GUILD_MEMBER_UPDATE c data
  | GUILD_MEMBERS_CHUNK guild_id members =>
      on_GUILD_MEMBERS_CHUNK c guild_id members
  | MESSAGE_UPDATE data => on_MESSAGE_UPDATE c data
  | MESSAGE_DELETE data => on_MESSAGE_DELETE c data
  | MESSAGE_REACTION_ADD data => on_MESSAGE_REACTION_ADD c data
  | MESSAGE_REACTION_REMOVE data => on_MESSAGE_REACTION_REMOVE c data
  end.

(** The listener runs once per raw event, each run on the store the
    previous one left: the stores after each event of a sequence. *)
Fixpoint stores_after (c : Client.t) (events : list GatewayEvent)
    : list Client.t :=
  match events with
  | [] => []
  | e :: rest => let c' := fst (handle c e) in c' :: stores_after c' rest
  end.

(** A channel lookup as the message handlers perform it. *)
Definition text_channels (c : Client.t) (guild_id : option Snowflake)
    : gmap Snowflake Channel.t :=
  if truthy guild_id then Client.guildChannels c else Client.dmChannels c.

(** The aggregate stored for [key] on message [message_id] of channel
    [channel_id]. *)
Definition stored_reaction (c : Client.t) (guild_id : option Snowflake)
    (channel_id message_id : Snowflake) (key : option string)
    : option Reaction.t :=
  channel ← text_channels c guild_id !! channel_id;
  message ← Channel.messages channel !! message_id;
  Message.reactions message !! key.

(** ** The other handlers of the listener

    The handlers of [Client.ts] that build a guild from a payload
    ([GUILD_CREATE], [GUILD_UPDATE]) or read the clock's format
    ([CHANNEL_PINS_UPDATE]) are not embedded; those that only break out of
    the [switch] change nothing. *)

Module Payload.

Record User : Type := { user_id : Snowflake; user_username : string }.

(** [READY]: [e.data.user] and [e.data.shard]. *)
Record Ready : Type := {
  ready_user_id : Snowflake;
  ready_shard : option (list Z)
}.

(** [guild.UnavailableGuild]. *)
Record UnavailableGuild : Type := {
  ug_id : Snowflake;
  ug_unavailable : option bool
}.

(** [GUILD_BAN_ADD] and [GUILD_BAN_REMOVE]. *)
Record Ban : Type := { ban_guild_id : Snowflake; ban_user : User }.

(** [GUILD_MEMBER_REMOVE]: [e.data.guild_id] and [e.data.user.id]. *)
Record MemberRemove : Type := {
  mr_guild_id : Snowflake;
  mr_user_id : Snowflake
}.

(** [GUILD_ROLE_CREATE] and [GUILD_ROLE_UPDATE]: [e.data.guild_id],
    [e.data.role.id] and [e.data.role]. *)
Record RoleEvent : Type := {
  role_guild_id : Snowflake;
  role_id : Snowflake;
  role_data : json
}.

(** [GUILD_ROLE_DELETE]. *)
Record RoleDelete : Type := {
  rd_guild_id : Snowflake;
  rd_role_id : Snowflake
}.

(** [MESSAGE_DELETE_BULK]. *)
Record MessageDeleteBulk : Type := {
  mdb_ids : list Snowflake;
  mdb_channel_id : Snowflake;
  mdb_guild_id : option Snowflake
}.

(** [MESSAGE_REACTION_REMOVE_ALL], and [MESSAGE_REACTION_REMOVE_EMOJI] with
    its [e.data.emoji]. *)
Record ReactionsRemoved : Type := {
  rr_channel_id : Snowflake;
  rr_message_id : Snowflake;
  rr_guild_id : option Snowflake
}.

(** [PRESENCE_UPDATE]: [e.data.guild_id], [e.data.user.id] and [e.data]. *)
Record PresenceUpdate : Type := {
  pu_guild_id : Snowflake;
  pu_user_id : Snowflake;
  pu_data : json
}.

(** [TYPING_START]: [e.data.member.user] when [e.data.member] is set. *)
Record TypingStart : Type := {
  ts_user_id : Snowflake;
  ts_channel_id : Snowflake;
  ts_guild_id : option Snowflake;
  ts_member_user : option User
}.

End Payload.

(** Modelled from the spec: the [User] and [PrivateUser] classes of
    [structures/User.ts] are not among the sources; pure payload-to-object
    constructors. *)
Definition new_User (data : Payload.User) : User.t :=
  {| User.id := Payload.user_id data;
     User.username := Payload.user_username data |}.

Definition new_PrivateUser (id : Snowflake) : PrivateUser.t :=
  {| PrivateUser.id := id |}.

(** Modelled from the spec: the [Role] class and [parsePresence] are not
    among the sources; a role and a presence are kept as the payload they
    are built from. *)
Definition new_Role (data : json) (guildId : Snowflake) : json := data.

Definition parsePresence (data : json) : json := data.

(** [shard.join("/")] for a shard of integers. *)
Definition join_shard (shard : list Z) : string :=
  String.concat "/" (map pretty shard).

Definition set_roles (g : GatewayGuild.t) (rs : gmap Snowflake json)
    : GatewayGuild.t :=
  {| GatewayGuild.id := GatewayGuild.id g;
     GatewayGuild.members := GatewayGuild.members g;
     GatewayGuild.roles := rs;
     GatewayGuild.presences := GatewayGuild.presences g;
     GatewayGuild.emojis := GatewayGuild.emojis g |}.

Definition set_presences (g : GatewayGuild.t) (ps : gmap Snowflake json)
    : GatewayGuild.t :=
  {| GatewayGuild.id := GatewayGuild.id g;
     GatewayGuild.members := GatewayGuild.members g;
     GatewayGuild.roles := GatewayGuild.roles g;
     GatewayGuild.presences := ps;
     GatewayGuild.emojis := GatewayGuild.emojis g |}.

Definition set_users (c : Client.t) (us : gmap Snowflake User.t) : Client.t :=
  {| Client.guildChannels := Client.guildChannels c;
     Client.dmChannels := Client.dmChannels c;
     Client.guilds := Client.guilds c;
     Client.users := us;
     Client.user := Client.user c |}.

Definition set_user (c : Client.t) (u : option PrivateUser.t) : Client.t :=
  {| Client.guildChannels := Client.guildChannels c;
     Client.dmChannels := Client.dmChannels c;
     Client.guilds := Client.guilds c;
     Client.users := Client.users c;
     Client.user := u |}.

Inductive OtherEvent : Type :=
  | READY (data : Payload.Ready)
  | CHANNEL_CREATE (data : Wire.Channel)
  | CHANNEL_DELETE (data : Wire.Channel)
  | GUILD_DELETE (data : Payload.UnavailableGuild)
  | GUILD_BAN_ADD (data : Payload.Ban)
  | GUILD_BAN_REMOVE (data : Payload.Ban)
  | GUILD_MEMBER_ADD (guild_id : Snowflake) (data : Wire.Member)
  | GUILD_MEMBER_REMOVE (data : Payload.MemberRemove)
  | GUILD_ROLE_CREATE (data : Payload.RoleEvent)
  | GUILD_ROLE_UPDATE (data : Payload.RoleEvent)
  | GUILD_ROLE_DELETE (data : Payload.RoleDelete)
  | MESSAGE_CREATE (data : Wire.Message)
  | MESSAGE_DELETE_BULK (data : Payload.MessageDeleteBulk)
  | MESSAGE_REACTION_REMOVE_ALL (data : Payload.ReactionsRemoved)
  | MESSAGE_REACTION_REMOVE_EMOJI (data : Payload.ReactionsRemoved)
      (emoji : Emoji.t)
  | PRESENCE_UPDATE (data : Payload.PresenceUpdate)
  | TYPING_START (data : Payload.TypingStart)
  | USER_UPDATE (id : Snowflake).

(** What these handlers emit; a value the handler reads with [!] and passes
    on without touching it may be [undefined]. *)
Inductive OtherNotification : Type :=
  | shardReady (shard : string)
  | channelCreate (channel : Channel.t)
  | channelDelete (channel : Channel.t)
  | guildDelete (data : Payload.UnavailableGuild)
  | guildBanAdd (guildId : Snowflake) (user : User.t)
  | guildBanRemove (guildId : Snowflake) (user : User.t)
  | guildMemberAdd (guild : GatewayGuild.t) (member : GuildMember.t)
  | guildMemberRemove (guild : GatewayGuild.t) (member : option GuildMember.t)
  | guildRoleCreate (guild : GatewayGuild.t) (role : json)
  | guildRoleUpdate (guild : GatewayGuild.t) (role : json)
  | guildRoleDelete (guild : GatewayGuild.t) (role : option json)
  | messageCreate (channel : Channel.t) (message : Message.t)
  | messageDeleteBulk (channel : Channel.t)
      (messages : list (Snowflake * (Message.t + Snowflake)))
  | messageReactionRemoveAll (channel : Channel.t)
      (message : Message.t + Snowflake)
  | messageReactionRemoveEmoji (channel : Channel.t)
      (message : Message.t + Snowflake) (emoji : Emoji.t)
  | presenceUpdate (guild : GatewayGuild.t) (old : option json) (new : json)
  | typingStart (user : option User.t) (channel_id : Snowflake)
      (guild_id : option Snowflake)
  | currentUserUpdate (old : option PrivateUser.t) (new : PrivateUser.t).

Inductive OtherOutcome : Type :=
  | Emits (n : OtherNotification)
  | Throws (e : JsError).

(** *** [READY] and [USER_UPDATE] (lines 162-165, 582-588)

    [this.user] is assigned before [e.data.shard!.join] is evaluated. *)

Definition on_READY (c : Client.t) (data : Payload.Ready)
    : Client.t * OtherOutcome :=
  let c' := set_user c (Some (new_PrivateUser (Payload.ready_user_id data))) in
  match Payload.ready_shard data with
  | Some shard => (c', Emits (shardReady (join_shard shard)))
  | None => (c', Throws (TypeError "e.data.shard.join"))
  end.

Definition on_USER_UPDATE (c : Client.t) (id : Snowflake)
    : Client.t * OtherOutcome :=
  let oldUser := Client.user c in
  let newUser := new_PrivateUser id in
  (set_user c (Some newUser), Emits (currentUserUpdate oldUser newUser)).

(** *** Channel create and delete (lines 171-180, 194-203) *)

Definition on_CHANNEL_CREATE (c : Client.t) (data : Wire.Channel)
    : Client.t * OtherOutcome :=
  match newChannelSwitch data with
  | None => (c, Throws (TypeError "channel.type"))
  | Some channel =>
      if is_dm_type (Channel.type channel) then
        (Client.set_dmChannels c
           (<[Channel.id channel := channel]> (Client.dmChannels c)),
         Emits (channelCreate channel))
      else
        (Client.set_guildChannels c
           (<[Channel.id channel := channel]> (Client.guildChannels c)),
         Emits (channelCreate channel))
  end.

Definition on_CHANNEL_DELETE (c : Client.t) (data : Wire.Channel)
    : Client.t * OtherOutcome :=
  match newChannelSwitch data with
  | None => (c, Throws (TypeError "channel.type"))
  | Some channel =>
      if is_dm_type (Channel.type channel) then
        (Client.set_dmChannels c
           (delete (Channel.id channel) (Client.dmChannels c)),
         Emits (channelDelete channel))
      else
        (Client.set_guildChannels c
           (delete (Channel.id channel) (Client.guildChannels c)),
         Emits (channelDelete channel))
  end.

(** *** Guild delete and bans (lines 228-250) *)

Definition on_GUILD_DELETE (c : Client.t) (data : Payload.UnavailableGuild)
    : Client.t * OtherOutcome :=
  (Client.set_guilds c (delete (Payload.ug_id data) (Client.guilds c)),
   Emits (guildDelete data)).

Definition on_GUILD_BAN_ADD (c : Client.t) (data : Payload.Ban)
    : Client.t * OtherOutcome :=
  let user := new_User (Payload.ban_user data) in
  (set_users c
     (<[Payload.user_id (Payload.ban_user data) := user]> (Client.users c)),
   Emits (guildBanAdd (Payload.ban_guild_id data) user)).

Definition on_GUILD_BAN_REMOVE (c : Client.t) (data : Payload.Ban)
    : Client.t * OtherOutcome :=
  let user := new_User (Payload.ban_user data) in
  (set_users c
     (<[Payload.user_id (Payload.ban_user data) := user]> (Client.users c)),
   Emits (guildBanRemove (Payload.ban_guild_id data) user)).

(** *** Member add and remove (lines 282-289, 302-309)

    [member.user.id] of the member just built is the [user.id] of its
    payload. *)

Definition on_GUILD_MEMBER_ADD (c : Client.t) (guild_id : Snowflake)
    (data : Wire.Member) : Client.t * OtherOutcome :=
  let member := new_GuildMember (Wire.member_fields data) guild_id in
  match Client.guilds c !! guild_id with
  | None => (c, Throws (TypeError "guild.members"))
  | Some guild =>
      let guild' :=
        GatewayGuild.set_members guild
          (<[Wire.member_user_id data := member]> (GatewayGuild.members guild)) in
      (Client.set_guilds c (<[guild_id := guild']> (Client.guilds c)),
       Emits (guildMemberAdd guild' member))
  end.

Definition on_GUILD_MEMBER_REMOVE (c : Client.t) (data : Payload.MemberRemove)
    : Client.t * OtherOutcome :=
  match Client.guilds c !! Payload.mr_guild_id data with
  | None => (c, Throws (TypeError "guild.members"))
  | Some guild =>
      let member := GatewayGuild.members guild !! Payload.mr_user_id data in
      let guild' :=
        GatewayGuild.set_members guild
          (delete (Payload.mr_user_id data) (GatewayGuild.members guild)) in
      (Client.set_guilds c
         (<[Payload.mr_guild_id data := guild']> (Client.guilds c)),
       Emits (guildMemberRemove guild' member))
  end.

(** *** Roles (lines 322-345) *)

Definition upsert_role (c : Client.t) (data : Payload.RoleEvent)
    (notify : GatewayGuild.t -> json -> OtherNotification)
    : Client.t * OtherOutcome :=
  match Client.guilds c !! Payload.role_guild_id data with
  | None => (c, Throws (TypeError "guild.roles"))
  | Some guild =>
      let role :=
        new_Role (Payload.role_data data) (Payload.role_guild_id data) in
      let guild' :=
        set_roles guild
          (<[Payload.role_id data := role]> (GatewayGuild.roles guild)) in
      (Client.set_guilds c
         (<[Payload.role_guild_id data := guild']> (Client.guilds c)),
       Emits (notify guild' role))
  end.

Definition on_GUILD_ROLE_CREATE (c : Client.t) (data : Payload.RoleEvent)
    : Client.t * OtherOutcome :=
  upsert_role c data guildRoleCreate.

Definition on_GUILD_ROLE_UPDATE (c : Client.t) (data : Payload.RoleEvent)
    : Client.t * OtherOutcome :=
  upsert_role c data guildRoleUpdate.

Definition on_GUILD_ROLE_DELETE (c : Client.t) (data : Payload.RoleDelete)
    : Client.t * OtherOutcome :=
  match Client.guilds c !! Payload.rd_guild_id data with
  | None => (c, Throws (TypeError "guild.roles"))
  | Some guild =>
      let role := GatewayGuild.roles guild !! Payload.rd_role_id data in
      let guild' :=
        set_roles guild
          (delete (Payload.rd_role_id data) (GatewayGuild.roles guild)) in
      (Client.set_guilds c
         (<[Payload.rd_guild_id data := guild']> (Client.guilds c)),
       Emits (guildRoleDelete guild' role))
  end.

(** *** Message create and bulk delete (lines 352-366, 406-428) *)

Definition create_message_in (channels : gmap Snowflake Channel.t)
    (channel_id : Snowflake) (message : Message.t)
    : gmap Snowflake Channel.t * OtherOutcome :=
  match channels !! channel_id with
  | None => (channels, Throws (TypeError "channel.messages"))
  | Some channel =>
      let channel' :=
        Channel.set_messages channel
          (<[Message.id message := message]> (Channel.messages channel)) in
      (refile channel_id (Channel.id channel') channel' channels,
       Emits (messageCreate channel' message))
  end.

Definition on_MESSAGE_CREATE (c : Client.t) (data : Wire.Message)
    : Client.t * OtherOutcome :=
  let message := new_Message data in
  if truthy (Wire.message_guild_id data) then
    let '(channels, out) :=
      create_message_in (Client.guildChannels c)
        (Wire.message_channel_id data) message in
    (Client.set_guildChannels c channels, out)
  else
    let '(channels, out) :=
      create_message_in (Client.dmChannels c)
        (Wire.message_channel_id data) message in
    (Client.set_dmChannels c channels, out).

(** One turn of the loop [for (const id of e.data.ids)]: the map that will
    be emitted and the channel's cache. *)
Definition bulk_step
    (acc : list (Snowflake * (Message.t + Snowflake))
           * gmap Snowflake Message.t)
    (id : Snowflake)
    : list (Snowflake * (Message.t + Snowflake)) * gmap Snowflake Message.t :=
  let message := snd acc !! id in
  (JsMap.set (fst acc) id
     match message with
     | Some m => inl m
     | None => inr id
     end,
   delete id (snd acc)).

(** With no channel the first turn of the loop throws on
    [channel.messages], and an empty loop is followed by a throw on
    [channel.id]. *)
Definition bulk_delete_in (channels : gmap Snowflake Channel.t)
    (data : Payload.MessageDeleteBulk)
    : gmap Snowflake Channel.t * OtherOutcome :=
  match channels !! Payload.mdb_channel_id data with
  | None =>
      (channels,
       Throws
         (TypeError
            match Payload.mdb_ids data with
            | [] => "channel.id"
            | _ :: _ => "channel.messages"
            end))
  | Some channel =>
      let '(messages, cache) :=
        fold_left bulk_step (Payload.mdb_ids data)
          ([], Channel.messages channel) in
      let channel' := Channel.set_messages channel cache in
      (refile (Payload.mdb_channel_id data) (Channel.id channel') channel'
         channels,
       Emits (messageDeleteBulk channel' messages))
  end.

Definition on_MESSAGE_DELETE_BULK (c : Client.t)
    (data : Payload.MessageDeleteBulk) : Client.t * OtherOutcome :=
  if truthy (Payload.mdb_guild_id data) then
    let '(channels, out) := bulk_delete_in (Client.guildChannels c) data in
    (Client.set_guildChannels c channels, out)
  else
    let '(channels, out) := bulk_delete_in (Client.dmChannels c) data in
    (Client.set_dmChannels c channels, out).

(** *** Removing all reactions, or those of one emoji (lines 515-560)

    The frame of the four branches: fetch the channel and the message, run
    [block] on a cached message, store message and channel again. *)

Definition clear_in (channels : gmap Snowflake Channel.t)
    (data : Payload.ReactionsRemoved) (block : Message.t -> Message.t)
    : gmap Snowflake Channel.t * (JsError + Channel.t * (Message.t + Snowflake)) :=
  match channels !! Payload.rr_channel_id data with
  | None => (channels, inl (TypeError "channel.messages"))
  | Some channel =>
      match Channel.messages channel !! Payload.rr_message_id data with
      | None => (channels, inr (channel, inr (Payload.rr_message_id data)))
      | Some message =>
          let message' := block message in
          let channel' :=
            Channel.set_messages channel
              (refile (Payload.rr_message_id data) (Message.id message')
                 message' (Channel.messages channel)) in
          (refile (Payload.rr_channel_id data) (Channel.id channel') channel'
             channels,
           inr (channel', inl message'))
      end
  end.

Definition clear_reactions (message : Message.t) : Message.t :=
  Message.set_reactions message ∅.

Definition delete_reaction (emoji : Emoji.t) (message : Message.t)
    : Message.t :=
  Message.set_reactions message
    (delete (reaction_key emoji) (Message.reactions message)).

Definition on_MESSAGE_REACTION_REMOVE_ALL (c : Client.t)
    (data : Payload.ReactionsRemoved) : Client.t * OtherOutcome :=
  if truthy (Payload.rr_guild_id data) then
    match clear_in (Client.guildChannels c) data clear_reactions with
    | (channels, inl err) => (Client.set_guildChannels c channels, Throws err)
    | (channels, inr (channel, message)) =>
        (Client.set_guildChannels c channels,
         Emits (messageReactionRemoveAll channel message))
    end
  else
    match clear_in (Client.dmChannels c) data clear_reactions with
    | (channels, inl err) => (Client.set_dmChannels c channels, Throws err)
    | (channels, inr (channel, message)) =>
        (Client.set_dmChannels c channels,
         Emits (messageReactionRemoveAll channel message))
    end.

Definition on_MESSAGE_REACTION_REMOVE_EMOJI (c : Client.t)
    (data : Payload.ReactionsRemoved) (emoji : Emoji.t)
    : Client.t * OtherOutcome :=
  if truthy (Payload.rr_guild_id data) then
    match clear_in (Client.guildChannels c) data (delete_reaction emoji) with
    | (channels, inl err) => (Client.set_guildChannels c channels, Throws err)
    | (channels, inr (channel, message)) =>
        (Client.set_guildChannels c channels,
         Emits (messageReactionRemoveEmoji channel message emoji))
    end
  else
    match clear_in (Client.dmChannels c) data (delete_reaction emoji) with
    | (channels, inl err) => (Client.set_dmChannels c channels, Throws err)
    | (channels, inr (channel, message)) =>
        (Client.set_dmChannels c channels,
         Emits (messageReactionRemoveEmoji channel message emoji))
    end.

(** *** Presence and typing (lines 562-581) *)

Definition on_PRESENCE_UPDATE (c : Client.t) (data : Payload.PresenceUpdate)
    : Client.t * OtherOutcome :=
  match Client.guilds c !! Payload.pu_guild_id data with
  | None => (c, Throws (TypeError "guild.presences"))
  | Some guild =>
      let oldPresence :=
        GatewayGuild.presences guild !! Payload.pu_user_id data in
      let newPresence := parsePresence (Payload.pu_data data) in
      let guild' :=
        set_presences guild
          (<[Payload.pu_user_id data := newPresence]>
             (GatewayGuild.presences guild)) in
      (Client.set_guilds c
         (<[Payload.pu_guild_id data := guild']> (Client.guilds c)),
       Emits (presenceUpdate guild' oldPresence newPresence))
  end.

Definition on_TYPING_START (c : Client.t) (data : Payload.TypingStart)
    : Client.t * OtherOutcome :=
  match Payload.ts_member_user data with
  | Some member_user =>
      let user := new_User member_user in
      (set_users c (<[Payload.ts_user_id data := user]> (Client.users c)),
       Emits
         (typingStart (Some user) (Payload.ts_channel_id data)
            (Payload.ts_guild_id data)))
  | None =>
      (c,
       Emits
         (typingStart (Client.users c !! Payload.ts_user_id data)
            (Payload.ts_channel_id data) (Payload.ts_guild_id data)))
  end.

(** *** The remaining cases of the [switch] *)

Definition handle_other (c : Client.t) (e : OtherEvent)
    : Client.t * OtherOutcome :=
  match e with
  | READY data => on_READY c data
  | CHANNEL_CREATE data => on_CHANNEL_CREATE c data
  | CHANNEL_DELETE data => on_CHANNEL_DELETE c data
  | GUILD_DELETE data => on_GUILD_DELETE c data
  | GUILD_BAN_ADD data => on_GUILD_BAN_ADD c data
  | GUILD_BAN_REMOVE data => on_GUILD_BAN_REMOVE c data
  | GUILD_MEMBER_ADD guild_id data => on_GUILD_MEMBER_ADD c guild_id data
  | GUILD_MEMBER_REMOVE data => on_GUILD_MEMBER_REMOVE c data
  | GUILD_ROLE_CREATE data => on_GUILD_ROLE_CREATE c data
  | GUILD_ROLE_UPDATE data => on_GUILD_ROLE_UPDATE c data
  | GUILD_ROLE_DELETE data => on_GUILD_ROLE_DELETE c data
  | MESSAGE_CREATE data => on_MESSAGE_CREATE c data
  | MESSAGE_DELETE_BULK data => on_MESSAGE_DELETE_BULK c data
  | MESSAGE_REACTION_REMOVE_ALL data => on_MESSAGE_REACTION_REMOVE_ALL c data
  | MESSAGE_REACTION_REMOVE_EMOJI data emoji =>
      on_MESSAGE_REACTION_REMOVE_EMOJI c data emoji
  | PRESENCE_UPDATE data => on_PRESENCE_UPDATE c data
  | TYPING_START data => on_TYPING_START c data
  | USER_UPDATE id => on_USER_UPDATE c id
  end.

(** The store after one raw event of either kind, and after a sequence: the
    listener runs once per raw event, on the store the previous run left,
    also when that run ended in a throw. *)
Definition step (c : Client.t) (e : GatewayEvent + OtherEvent) : Client.t :=
  match e with
  | inl e => fst (handle c e)
  | inr e => fst (handle_other c e)
  end.

Definition run (c : Client.t) (events : list (GatewayEvent + OtherEvent))
    : Client.t :=
  fold_left step events c.


(** ** [Client.sendMessage] ([Client.ts], lines 659-682) and
    [RestClient.createMessage] ([rest/RestClient.ts], lines 147-156) *)

Module Send.

(** The [SendMessage] argument; [file] is the attached file's name. *)
Record SendMessage (Embed : Type) : Type := {
  content : option string;
  file : option string;
  embed : option Embed;
  tts : option bool;
  allowedMentions : option json
}.
Arguments content {Embed} _.
Arguments file {Embed} _.
Arguments embed {Embed} _.
Arguments tts {Embed} _.
Arguments allowedMentions {Embed} _.

(** An object literal; a property whose value is [undefined] is left out,
    as [JSON.stringify] leaves it out. *)
Definition object_literal (props : list (string * option json)) : json :=
  JObj (omap (fun kv => pair (fst kv) <$> snd kv) props).

Section SendMessage.

Variable network : Rest.FetchCall -> option Rest.Response.
Variable REST : string.
Variable stringify : json -> string.

(** [unparseEmbed] and the [Message] constructor applied to the resolved
    value of the request are not among the sources; the constructor may
    throw. *)
Variable Embed : Type.
Variable unparseEmbed : Embed -> json.
Variable Built : Type.
Variable construct : option json -> Rest.Thrown + Built.

Definition createMessage (token : string) (channelId : Snowflake)
    (data : Rest.Data) : Rest.Http (option json) :=
  Rest.request network REST stringify token
    ("channels/" ++ channelId ++ "/messages")%string Rest.POST
    (Rest.Object data).

(** The value of [convertedData] handed to [createMessage]: the object that
    [request] will see, split into its [file] and its other properties. *)
Definition convertedData (data : SendMessage Embed) : Rest.Data :=
  let embed := unparseEmbed <$> embed data in
  let converted :=
    object_literal
      [("content", JStr <$> content data);
       ("tts", JBool <$> tts data);
       ("embed", embed);
       ("allowed_mentions", allowedMentions data)] in
  match file data with
  | Some f =>
      {| Rest.file := Some f;
         Rest.payload := JObj [("payload_json", JStr (stringify converted))] |}
  | None => {| Rest.file := None; Rest.payload := converted |}
  end.

Definition sendMessage (token : string) (channelId : Snowflake)
    (data : SendMessage Embed) : Rest.Http Built :=
  Rest.bind (createMessage token channelId (convertedData data))
    (fun message =>
       match construct message with
       | inl thrown => Rest.throw thrown
       | inr built => Rest.ret built
       end).

End SendMessage.

End Send.

(** ** Vocabulary of the properties *)

(** The flags of [intentsMap] whose entry in a record argument is [true]. *)
Definition selected (on : Intent.key -> bool) (l : list (Intent.key * Z))
    : list Z :=
  map snd (List.filter (fun kv : Intent.key * Z => on (fst kv)) l).

(** The response classes of the REST layer, and the class of each status. *)
Inductive StatusClass : Type :=
  | SuccessWithBody | SuccessNoBody | StructuredError | InvalidCredential
  | Forbidden | RateLimited | ServerFault | Unclassified.

Definition mem (z : Z) (l : list Z) : bool := existsb (Z.eqb z) l.

Definition class_of_status (st : Z) : StatusClass :=
  if mem st [200; 201] then SuccessWithBody
  else if mem st [204] then SuccessNoBody
  else if mem st [400; 404] then StructuredError
  else if mem st [401] then InvalidCredential
  else if mem st [403] then Forbidden
  else if mem st [429] then RateLimited
  else if mem st [500; 502; 503; 504; 507; 508] then ServerFault
  else Unclassified.

(** What an outcome of [request] must be to fall in a class, for the
    response [res] it was computed from. *)
Definition in_class (cl : StatusClass) (res : Rest.Response)
    (out : Rest.Thrown + option json) : Prop :=
  let st := Rest.status res in
  match cl with
  | SuccessWithBody => forall j, Rest.parsed res = Some j -> out = inr (Some j)
  | SuccessNoBody => out = inr None
  | StructuredError =>
      forall j,
        Rest.parsed res = Some j -> out = inl (Rest.DiscordJSONError st j)
  | InvalidCredential =>
      out = inl (Rest.HTTPError st "You supplied an invalid token")
  | Forbidden =>
      out = inl (Rest.HTTPError st "You don't have permission to do this")
  | RateLimited => out = inl (Rest.HTTPError st "You are getting rate-limited")
  | ServerFault =>
      out = inl (Rest.HTTPError st "Discord internal error")
      \/ out = inl (Rest.HTTPError st "Gateway unavailable. Wait and retry")
  | Unclassified => out = inl (Rest.HTTPError st "Unexpected response")
  end.

(** The stub a [messageDelete] carries for a message that was not cached. *)
Definition stub_of (data : Wire.MessageDelete) : UnknownMessage.t :=
  {| UnknownMessage.id := Wire.md_id data;
     UnknownMessage.channelId := Wire.md_channel_id data;
     UnknownMessage.guildId := Wire.md_guild_id data |}.

(** A member-update payload that changes only the nickname: it carries a
    [nick] that differs from the stored one, and every other property it
    carries (the [guild_id] of the event apart) repeats the stored value. *)
Definition changes_only_nickname (old_raw payload : gmap string json) : Prop :=
  (exists nick, payload !! "nick" = Some nick /\ old_raw !! "nick" <> Some nick)
  /\ forall key value,
       key <> "nick" -> key <> "guild_id" ->
       payload !! key = Some value -> old_raw !! key = Some value.

(** "The aggregate stored under the event's key has its count changed by
    [delta]", between the store [c] before and the store [c'] after. *)
Definition count_changes_by (delta : Z) (c c' : Client.t)
    (data : Wire.ReactionEvent) : Prop :=
  forall previous,
    stored_reaction c (Wire.re_guild_id data) (Wire.re_channel_id data)
      (Wire.re_message_id data) (reaction_key (Wire.re_emoji data))
    = Some previous ->
    exists current,
      stored_reaction c' (Wire.re_guild_id data) (Wire.re_channel_id data)
        (Wire.re_message_id data) (reaction_key (Wire.re_emoji data))
      = Some current
      /\ Reaction.count current = Reaction.count previous + delta.

(** "A numeric argument is passed through unchanged": the mask handed to
    the [ShardManager] is the number given. *)
Definition passed_through (n : JsNumber) : Prop :=
  Integer (newIntents (Some (IntentsNumber n))) = n.

(** The store with the channel map that [guild_id] selects replaced, and
    everything else as it is. *)
Definition set_text_channels (c : Client.t) (guild_id : option Snowflake)
    (channels : gmap Snowflake Channel.t) : Client.t :=
  if truthy guild_id then Client.set_guildChannels c channels
  else Client.set_dmChannels c channels.

(** A block of statements run on a cached message replaces its reaction
    map and nothing else, and leaves the other keys of the map as they
    are. *)
Definition only_aggregate (data : Wire.ReactionEvent)
    (block : Message.t -> Message.t * option JsError) : Prop :=
  forall message,
    exists reactions',
      fst (block message) = Message.set_reactions message reactions'
      /\ forall key,
           key <> reaction_key (Wire.re_emoji data) ->
           reactions' !! key = Message.reactions message !! key.

(** ** Sample stores and events *)

Module Sample.

Definition empty_guild : GatewayGuild.t :=
  {| GatewayGuild.id := "1"; GatewayGuild.members := ∅;
     GatewayGuild.roles := ∅; GatewayGuild.presences := ∅;
     GatewayGuild.emojis := [] |}.

(** One guild, without members or emojis. *)
Definition guild_store : Client.t :=
  {| Client.guildChannels := ∅; Client.dmChannels := ∅;
     Client.guilds := {[ "1" := empty_guild ]};
     Client.users := ∅;
     Client.user := Some {| PrivateUser.id := "99" |} |}.

Definition emoji_added : GatewayEvent :=
  GUILD_EMOJIS_UPDATE "1"
    [ {| Wire.emoji_id := "10"; Wire.emoji_name := Some "wave" |} ].

Definition member_renamed : Wire.MemberUpdate :=
  {| Wire.mu_guild_id := "1"; Wire.mu_user_id := "7";
     Wire.mu_fields :=
       {[ "nick" := JStr "neo"; "roles" := JArr [JStr "5"] ]} |}.

Definition chunk_of_one : GatewayEvent :=
  GUILD_MEMBERS_CHUNK "1"
    [ {| Wire.member_user_id := "7";
         Wire.member_fields := {[ "nick" := JStr "neo" ]} |} ].

(** The same guild with member [7], nickname [null] and one role. *)
Definition member_7 : GuildMember.t :=
  new_GuildMember
    {[ "nick" := JNull; "roles" := JArr [JStr "5"];
       "joined_at" := JStr "2020-07-01" ]} "1".

Definition guild_with_member : GatewayGuild.t :=
  GatewayGuild.set_members empty_guild {[ "7" := member_7 ]}.

Definition member_store : Client.t :=
  Client.set_guilds guild_store {[ "1" := guild_with_member ]}.

Definition thumbs_up : Emoji.t :=
  {| Emoji.id := None; Emoji.name := Some "thumbsup" |}.

(** A guild text channel caching one message without reactions. *)
Definition plain_message : Message.t :=
  {| Message.id := "50"; Message.channelId := "20";
     Message.guildId := Some "1"; Message.content := Some "hello";
     Message.reactions := ∅ |}.

Definition text_channel : Channel.t :=
  {| Channel.id := "20"; Channel.type := text;
     Channel.messages := {[ "50" := plain_message ]} |}.

(** A DM channel caching one message with three thumbs-up. *)
Definition three_thumbs : Reaction.t :=
  {| Reaction.count := 3; Reaction.emoji := thumbs_up; Reaction.me := true |}.

Definition liked_message : Message.t :=
  {| Message.id := "60"; Message.channelId := "30";
     Message.guildId := None; Message.content := Some "hi";
     Message.reactions := {[ reaction_key thumbs_up := three_thumbs ]} |}.

Definition dm_channel : Channel.t :=
  {| Channel.id := "30"; Channel.type := DM;
     Channel.messages := {[ "60" := liked_message ]} |}.

Definition channel_store : Client.t :=
  {| Client.guildChannels := {[ "20" := text_channel ]};
     Client.dmChannels := {[ "30" := dm_channel ]};
     Client.guilds := ∅;
     Client.users :=
       {[ "7" := {| User.id := "7"; User.username := "neo" |} ]};
     Client.user := Some {| PrivateUser.id := "99" |} |}.

Definition thumbs_up_in_guild : Wire.ReactionEvent :=
  {| Wire.re_user_id := "7"; Wire.re_channel_id := "20";
     Wire.re_message_id := "50"; Wire.re_guild_id := Some "1";
     Wire.re_emoji := thumbs_up |}.

Definition thumbs_up_in_dm : Wire.ReactionEvent :=
  {| Wire.re_user_id := "7"; Wire.re_channel_id := "30";
     Wire.re_message_id := "60"; Wire.re_guild_id := None;
     Wire.re_emoji := thumbs_up |}.

(** The same store with the three thumbs-up on the message of the guild
    text channel. *)
Definition liked_in_guild : Client.t :=
  Client.set_guildChannels channel_store
    {[ "20" :=
         Channel.set_messages text_channel
           {[ "50" :=
                Message.set_reactions plain_message
                  {[ reaction_key thumbs_up := three_thumbs ]} ]} ]}.

Definition delete_unknown : Wire.MessageDelete :=
  {| Wire.md_id := "51"; Wire.md_channel_id := "20";
     Wire.md_guild_id := Some "1" |}.


End Sample.

(** ** Vocabulary of the further properties *)

(** Every channel is stored under its own id, with every cached message
    under its own id. *)
Definition messages_filed (ms : gmap Snowflake Message.t) : Prop :=
  forall m message, ms !! m = Some message -> Message.id message = m.

Definition channels_filed (channels : gmap Snowflake Channel.t) : Prop :=
  forall k channel,
    channels !! k = Some channel ->
    Channel.id channel = k /\ messages_filed (Channel.messages channel).

Definition store_filed (c : Client.t) : Prop :=
  channels_filed (Client.guildChannels c)
  /\ channels_filed (Client.dmChannels c)
  /\ forall k guild,
       Client.guilds c !! k = Some guild -> GatewayGuild.id guild = k.

(** The error one run of the listener ends with, if it throws. *)
Definition thrown (c : Client.t) (e : GatewayEvent + OtherEvent)
    : option JsError :=
  match e with
  | inl e => match snd (handle c e) with Threw err => Some err | _ => None end
  | inr e =>
      match snd (handle_other c e) with Throws err => Some err | _ => None end
  end.

(** The guild an event's handler fetches from [this.guilds], for the
    handlers that dereference it. *)
Definition guild_of_event (e : GatewayEvent + OtherEvent) : option Snowflake :=
  match e with
  | inl (GUILD_EMOJIS_UPDATE guild_id _) => Some guild_id
  | inl (GUILD_MEMBER_UPDATE data) => Some (Wire.mu_guild_id data)
  | inl (GUILD_MEMBERS_CHUNK guild_id _) => Some guild_id
  | inr (GUILD_MEMBER_ADD guild_id _) => Some guild_id
  | inr (GUILD_MEMBER_REMOVE data) => Some (Payload.mr_guild_id data)
  | inr (GUILD_ROLE_CREATE data) => Some (Payload.role_guild_id data)
  | inr (GUILD_ROLE_UPDATE data) => Some (Payload.role_guild_id data)
  | inr (GUILD_ROLE_DELETE data) => Some (Payload.rd_guild_id data)
  | inr (PRESENCE_UPDATE data) => Some (Payload.pu_guild_id data)
  | _ => None
  end.

(** The channel an event's handler fetches, with the [guild_id] that
    selects the store, for the handlers that dereference it. *)
Definition channel_of_event (e : GatewayEvent + OtherEvent)
    : option (option Snowflake * Snowflake) :=
  match e with
  | inl (MESSAGE_UPDATE data) =>
      Some (Wire.message_guild_id data, Wire.message_channel_id data)
  | inl (MESSAGE_DELETE data) =>
      Some (Wire.md_guild_id data, Wire.md_channel_id data)
  | inl (MESSAGE_REACTION_ADD data) =>
      Some (Wire.re_guild_id data, Wire.re_channel_id data)
  | inl (MESSAGE_REACTION_REMOVE data) =>
      Some (Wire.re_guild_id data, Wire.re_channel_id data)
  | inr (MESSAGE_CREATE data) =>
      Some (Wire.message_guild_id data, Wire.message_channel_id data)
  | inr (MESSAGE_DELETE_BULK data) =>
      Some (Payload.mdb_guild_id data, Payload.mdb_channel_id data)
  | inr (MESSAGE_REACTION_REMOVE_ALL data) =>
      Some (Payload.rr_guild_id data, Payload.rr_channel_id data)
  | inr (MESSAGE_REACTION_REMOVE_EMOJI data _) =>
      Some (Payload.rr_guild_id data, Payload.rr_channel_id data)
  | _ => None
  end.

(** The parts of the store an event's handler assigns to. *)
Inductive StorePart : Type :=
  | ChannelStores | GuildStore | UserStore | SessionUser.

Definition writes (e : GatewayEvent + OtherEvent) : StorePart :=
  match e with
  | inl (CHANNEL_UPDATE _) | inl (MESSAGE_UPDATE _) | inl (MESSAGE_DELETE _)
  | inl (MESSAGE_REACTION_ADD _) | inl (MESSAGE_REACTION_REMOVE _) =>
      ChannelStores
  | inl (GUILD_EMOJIS_UPDATE _ _) | inl (GUILD_MEMBER_UPDATE _)
  | inl (GUILD_MEMBERS_CHUNK _ _) =>
      GuildStore
  | inr (READY _) | inr (USER_UPDATE _) => SessionUser
  | inr (CHANNEL_CREATE _) | inr (CHANNEL_DELETE _) | inr (MESSAGE_CREATE _)
  | inr (MESSAGE_DELETE_BULK _) | inr (MESSAGE_REACTION_REMOVE_ALL _)
  | inr (MESSAGE_REACTION_REMOVE_EMOJI _ _) =>
      ChannelStores
  | inr (GUILD_DELETE _) | inr (GUILD_MEMBER_ADD _ _)
  | inr (GUILD_MEMBER_REMOVE _) | inr (GUILD_ROLE_CREATE _)
  | inr (GUILD_ROLE_UPDATE _) | inr (GUILD_ROLE_DELETE _)
  | inr (PRESENCE_UPDATE _) =>
      GuildStore
  | inr (GUILD_BAN_ADD _) | inr (GUILD_BAN_REMOVE _) | inr (TYPING_START _) =>
      UserStore
  end.

(** The store with one part blanked out. *)
Definition without (part : StorePart) (c : Client.t) : Client.t :=
  match part with
  | ChannelStores =>
      Client.set_dmChannels (Client.set_guildChannels c ∅) ∅
  | GuildStore => Client.set_guilds c ∅
  | UserStore => set_users c ∅
  | SessionUser => set_user c None
  end.

(** [MESSAGE_DELETE] for one of the ids of a bulk delete. *)
Definition single_delete (data : Payload.MessageDeleteBulk) (id : Snowflake)
    : GatewayEvent + OtherEvent :=
  inl (MESSAGE_DELETE
         {| Wire.md_id := id;
            Wire.md_channel_id := Payload.mdb_channel_id data;
            Wire.md_guild_id := Payload.mdb_guild_id data |}).

(** The flag of an intent key: its bit in the mask. *)
Definition bit_of (k : Intent.key) : Z :=
  match k with
  | Intent.guilds => 0
  | Intent.guildMembers => 1
  | Intent.guildBans => 2
  | Intent.guildEmojis => 3
  | Intent.guildIntegrations => 4
  | Intent.guildWebhooks => 5
  | Intent.guildInvites => 6
  | Intent.guildVoiceStates => 7
  | Intent.guildPresences => 8
  | Intent.guildMessages => 9
  | Intent.guildMessageReactions => 10
  | Intent.guildMessageTyping => 11
  | Intent.directMessages => 12
  | Intent.directMessageReactions => 13
  | Intent.directMessageTyping => 14
  end.

(** ** Further sample payloads *)

Module Example.

Definition dm_payload : Wire.Channel :=
  {| Wire.channel_id := "41"; Wire.channel_type := 1 |}.

Definition odd_payload : Wire.Channel :=
  {| Wire.channel_id := "42"; Wire.channel_type := 7 |}.

Definition member_8 : Wire.Member :=
  {| Wire.member_user_id := "8";
     Wire.member_fields := {[ "nick" := JStr "trin" ]} |}.

Definition member_8_renamed : Wire.MemberUpdate :=
  {| Wire.mu_guild_id := "1"; Wire.mu_user_id := "8";
     Wire.mu_fields := {[ "nick" := JStr "trinity" ]} |}.

Definition remove_8 : Payload.MemberRemove :=
  {| Payload.mr_guild_id := "1"; Payload.mr_user_id := "8" |}.

Definition role_in_unknown_guild : Payload.RoleEvent :=
  {| Payload.role_guild_id := "2"; Payload.role_id := "5";
     Payload.role_data := JObj [("name", JStr "mod")] |}.

Definition second_message : Wire.Message :=
  {| Wire.message_id := "52"; Wire.message_channel_id := "20";
     Wire.message_guild_id := Some "1";
     Wire.message_content := Some "again";
     Wire.message_reactions := [] |}.

Definition message_elsewhere : Wire.Message :=
  {| Wire.message_id := "53"; Wire.message_channel_id := "21";
     Wire.message_guild_id := Some "1";
     Wire.message_content := Some "lost";
     Wire.message_reactions := [] |}.

Definition bulk : Payload.MessageDeleteBulk :=
  {| Payload.mdb_ids := ["50"; "51"];
     Payload.mdb_channel_id := "20";
     Payload.mdb_guild_id := Some "1" |}.

Definition reactions_removed : Payload.ReactionsRemoved :=
  {| Payload.rr_channel_id := "30"; Payload.rr_message_id := "60";
     Payload.rr_guild_id := None |}.

Definition created : Rest.Response :=
  {| Rest.status := 201; Rest.parsed := Some (JObj [("id", JStr "52")]) |}.

End Example.

(** ** Intents *)

Lemma ToInt32_small z : 0 <= z < 2 ^ 31 -> ToInt32 z = z.
Proof.
  intros Hz. unfold ToInt32.
  rewrite Z.mod_small by lia.
  destruct (Z.leb_spec (2 ^ 31) z); lia.
Qed.

Lemma lor_small a b :
  0 <= a < 2 ^ 31 -> 0 <= b < 2 ^ 31 -> 0 <= Z.lor a b < 2 ^ 31.
Proof.
  intros Ha Hb. split; [apply Z.lor_nonneg; lia |].
  destruct (Z.eq_dec a 0) as [-> | Hna]; [rewrite Z.lor_0_l; lia |].
  destruct (Z.eq_dec b 0) as [-> | Hnb]; [rewrite Z.lor_0_r; lia |].
  apply Z.log2_lt_pow2.
  - assert (0 <= Z.lor a b) by (apply Z.lor_nonneg; lia).
    assert (Z.lor a b <> 0) by (rewrite Z.lor_eq_0_iff; lia).
    lia.
  - rewrite Z.log2_lor by lia.
    apply Z.max_lub_lt; apply Z.log2_lt_pow2; lia.
Qed.

Lemma js_bor_small a b :
  0 <= a < 2 ^ 31 -> 0 <= b < 2 ^ 31 -> js_bor a b = Z.lor a b.
Proof.
  intros Ha Hb. unfold js_bor.
  rewrite (ToInt32_small a), (ToInt32_small b) by assumption.
  apply ToInt32_small, lor_small; assumption.
Qed.

Lemma intentsMap_small :
  Forall (fun kv : Intent.key * Z => 0 <= snd kv < 2 ^ 31) intentsMap.
Proof. repeat constructor; vm_compute; congruence. Qed.

(** The loop over [Object.entries(intentsMap)] accumulates the bitwise OR
    of the selected flags. *)
Lemma record_loop_is_lor (on : Intent.key -> bool) l :
  Forall (fun kv : Intent.key * Z => 0 <= snd kv < 2 ^ 31) l ->
  forall acc,
    0 <= acc < 2 ^ 31 ->
    fold_left
      (fun acc (kv : Intent.key * Z) =>
         if on (fst kv) then js_bor acc (snd kv) else acc) l acc
    = Z.lor acc (fold_right Z.lor 0 (selected on l)).
Proof.
  unfold selected.
  induction 1 as [| kv l Hkv Hl IH]; intros acc Hacc; simpl.
  - now rewrite Z.lor_0_r.
  - destruct (on (fst kv)); simpl.
    + rewrite js_bor_small by assumption.
      rewrite IH by (apply lor_small; assumption).
      now rewrite Z.lor_assoc.
    + now apply IH.
Qed.

(** C10, as written, fails for the number [NaN]: [if (intents)] takes it
    for falsy, so the mask handed to the [ShardManager] is 0, not the
    argument. *)
Lemma nan_intents_are_not_passed_through :
  newIntents (Some (IntentsNumber NaN)) = 0
  /\ ~ (forall n, passed_through n).
Proof.
  split; [reflexivity |].
  intros H. specialize (H NaN). unfold passed_through in H. discriminate H.
Qed.

(** C10, amended: with [intents] omitted or [true] the mask handed to the
    [ShardManager] is the OR of all fifteen flags of [intentsMap], which are
    the bits 0 to 14, i.e. 32767; a number is passed through unchanged,
    except [NaN], which gives 0; [false] gives 0; a record gives the OR of
    exactly the flags whose entries are [true]. *)
Theorem newIntents_by_argument :
  newIntents None = 32767
  /\ newIntents (Some (IntentsBoolean true)) = 32767
  /\ (map snd intentsMap = map (Z.pow 2) [0; 1; 2; 3; 4; 5; 6; 7; 8; 9; 10; 11; 12; 13; 14]
      /\ fold_right Z.lor 0 (map snd intentsMap) = 32767)
  /\ (forall n, newIntents (Some (IntentsNumber (Integer n))) = n)
  /\ (forall n, n <> NaN -> passed_through n)
  /\ newIntents (Some (IntentsNumber NaN)) = 0
  /\ newIntents (Some (IntentsBoolean false)) = 0
  /\ (forall on,
        newIntents (Some (IntentsRecord on))
        = fold_right Z.lor 0 (selected on intentsMap)).
Proof.
  assert (Hint : forall n, newIntents (Some (IntentsNumber (Integer n))) = n).
  { intros n. unfold newIntents; simpl.
    destruct (Z.eqb_spec n 0); simpl; congruence. }
  repeat split; try reflexivity.
  - exact Hint.
  - intros [| n] Hn; [congruence |]. unfold passed_through. now rewrite Hint.
  - intros on. unfold newIntents; simpl default; simpl truthy_intents; cbv iota.
    rewrite (record_loop_is_lor on intentsMap intentsMap_small) by lia.
    apply Z.lor_0_l.
Qed.

(** ** The REST status mapping *)

Lemma switch_status {A : Type}
    (a200 a204 a400 a401 a403 a429 a502 a500 other : A) (st : Z) :
  match st with
  | 200 | 201 => a200
  | 204 => a204
  | 400 | 404 => a400
  | 401 => a401
  | 403 => a403
  | 429 => a429
  | 502 => a502
  | 500 | 503 | 504 | 507 | 508 => a500
  | _ => other
  end
  = if mem st [200; 201] then a200
    else if mem st [204] then a204
    else if mem st [400; 404] then a400
    else if mem st [401] then a401
    else if mem st [403] then a403
    else if mem st [429] then a429
    else if mem st [502] then a502
    else if mem st [500; 503; 504; 507; 508] then a500
    else other.
Proof.
  destruct st as [| p | p]; try reflexivity.
  do 10 (try (destruct p as [p | p |]; try reflexivity)).
Qed.

Lemma respond_table res :
  Rest.respond res
  = if mem (Rest.status res) [200; 201]
    then Rest.bind (Rest.res_json res) (fun j => Rest.ret (Some j))
    else if mem (Rest.status res) [204] then Rest.ret None
    else if mem (Rest.status res) [400; 404]
    then Rest.bind (Rest.res_json res)
           (fun j => Rest.throw (Rest.DiscordJSONError (Rest.status res) j))
    else if mem (Rest.status res) [401]
    then Rest.throw
           (Rest.HTTPError (Rest.status res) "You supplied an invalid token")
    else if mem (Rest.status res) [403]
    then Rest.throw
           (Rest.HTTPError (Rest.status res)
              "You don't have permission to do this")
    else if mem (Rest.status res) [429]
    then Rest.throw
           (Rest.HTTPError (Rest.status res) "You are getting rate-limited")
    else if mem (Rest.status res) [502]
    then Rest.throw
           (Rest.HTTPError (Rest.status res)
              "Gateway unavailable. Wait and retry")
    else if mem (Rest.status res) [500; 503; 504; 507; 508]
    then Rest.throw (Rest.HTTPError (Rest.status res) "Discord internal error")
    else Rest.throw (Rest.HTTPError (Rest.status res) "Unexpected response").
Proof. unfold Rest.respond. apply switch_status. Qed.

(** The [switch] makes no call of its own, and its outcome is in the class
    of the status. *)
Lemma respond_in_class res log :
  fst (Rest.respond res log) = log
  /\ in_class (class_of_status (Rest.status res)) res
       (snd (Rest.respond res log)).
Proof.
  rewrite respond_table.
  unfold class_of_status, in_class, Rest.bind, Rest.res_json.
  repeat match goal with
         | |- context [if mem ?z ?l then _ else _] => destruct (mem z l) eqn:?
         end;
    cbv beta iota zeta;
    (split; [destruct (Rest.parsed res); reflexivity |]);
    first [ reflexivity
          | intros j Hj; rewrite Hj; reflexivity
          | left; reflexivity
          | right; reflexivity
          | exfalso; unfold mem in *; simpl existsb in *;
            rewrite ?orb_true_iff, ?orb_false_iff, ?Z.eqb_eq, ?Z.eqb_neq in *;
            intuition (try lia; try discriminate) ].
Qed.



(** ** Store lemmas *)

Lemma lookup_refile {V} (k i : string) (v : V) (m : gmap string V) :
  refile k i v m !! k = Some v.
Proof.
  unfold refile. destruct (decide (i = k)) as [-> | Hne].
  - apply lookup_insert_eq.
  - rewrite lookup_insert_ne by done. apply lookup_insert_eq.
Qed.

Lemma set_guildChannels_id c :
  Client.set_guildChannels c (Client.guildChannels c) = c.
Proof. now destruct c. Qed.

Lemma set_dmChannels_id c :
  Client.set_dmChannels c (Client.dmChannels c) = c.
Proof. now destruct c. Qed.

(** ** Emoji list replacement *)

(** Whatever the old and new emoji sets are, the handler takes the
    equal-size branch: the sizes it compares are those of one map. *)
Lemma emojis_update_always_emits_update c guild_id emojis guild :
  Client.guilds c !! guild_id = Some guild ->
  let guild' :=
    GatewayGuild.set_emojis guild
      (JsMap.of_entries
         (map (fun emoji => (Wire.emoji_id emoji, parseEmoji emoji)) emojis)) in
  handle c (GUILD_EMOJIS_UPDATE guild_id emojis)
  = (Client.set_guilds c
       (refile guild_id (GatewayGuild.id guild') guild' (Client.guilds c)),
     Emitted (guildEmojiUpdate guild')).
Proof.
  intros Hg guild'. simpl. unfold on_GUILD_EMOJIS_UPDATE. rewrite Hg.
  fold guild'. simpl GatewayGuild.emojis.
  rewrite Z.gtb_ltb, Z.ltb_irrefl, Z.eqb_refl. reflexivity.
Qed.

(** C1 (the code departs from it): a guild without emojis receives an emoji
    list of one entry.  The new set is strictly larger than the previous
    one, yet the handler emits [guildEmojiUpdate] and no [guildEmojiCreate]
    carrying the added emoji. *)
Theorem emojis_update_larger_set_emits_update :
  Client.guilds Sample.guild_store !! "1" = Some Sample.empty_guild
  /\ JsMap.size (GatewayGuild.emojis Sample.empty_guild) = 0
  /\ (GatewayGuild.emojis
        <$> Client.guilds (fst (handle Sample.guild_store Sample.emoji_added))
              !! "1")
     = Some [("10", {| GuildEmoji.id := "10"; GuildEmoji.name := Some "wave" |})]
  /\ snd (handle Sample.guild_store Sample.emoji_added)
     = Emitted
         (guildEmojiUpdate
            {| GatewayGuild.id := "1"; GatewayGuild.members := ∅;
               GatewayGuild.roles := ∅; GatewayGuild.presences := ∅;
               GatewayGuild.emojis :=
                 [("10", {| GuildEmoji.id := "10";
                            GuildEmoji.name := Some "wave" |})] |}).
Proof. repeat split; vm_compute; reflexivity. Qed.

(** ** Updates whose prior value is missing *)

Lemma channel_update_unknown_channel_degrades c data newChannel :
  newChannelSwitch data = Some newChannel ->
  (if is_dm_type (Channel.type newChannel) then Client.dmChannels c
   else Client.guildChannels c) !! Wire.channel_id data = None ->
  snd (handle c (CHANNEL_UPDATE data)) = Emitted (channelUpdate None newChannel).
Proof.
  intros Hn Hold. simpl. unfold on_CHANNEL_UPDATE. rewrite Hn.
  destruct (is_dm_type (Channel.type newChannel)); simpl; now rewrite Hold.
Qed.

Lemma message_update_unknown_message_degrades c data channel :
  text_channels c (Wire.message_guild_id data) !! Wire.message_channel_id data
  = Some channel ->
  Channel.messages channel !! Wire.message_id data = None ->
  exists channel',
    snd (handle c (MESSAGE_UPDATE data))
    = Emitted (messageUpdate channel' None (new_Message data))
    /\ Channel.messages channel' !! Wire.message_id data
       = Some (new_Message data).
Proof.
  intros Hch Hold. simpl. unfold on_MESSAGE_UPDATE, text_channels in *.
  destruct (truthy (Wire.message_guild_id data));
    unfold update_message_in; rewrite Hch; simpl; rewrite Hold;
    eexists; (split; [reflexivity |]); simpl; apply lookup_insert_eq.
Qed.

Lemma member_update_unknown_member_throws c data guild :
  Client.guilds c !! Wire.mu_guild_id data = Some guild ->
  GatewayGuild.members guild !! Wire.mu_user_id data = None ->
  handle c (GUILD_MEMBER_UPDATE data) = (c, Threw (TypeError "oldMember.raw")).
Proof.
  intros Hg Hm. simpl. unfold on_GUILD_MEMBER_UPDATE. now rewrite Hg, Hm.
Qed.

(** C2 (the code departs from it): a [GUILD_MEMBER_UPDATE] for a member the
    guild does not hold yet.  The handler dereferences the missing old
    member and throws; it emits no [guildMemberUpdate] and stores nothing. *)
Theorem member_update_before_member_known_throws :
  (Client.guilds Sample.guild_store !! "1"
     ≫= fun guild => GatewayGuild.members guild !! "7") = None
  /\ handle Sample.guild_store (GUILD_MEMBER_UPDATE Sample.member_renamed)
     = (Sample.guild_store, Threw (TypeError "oldMember.raw")).
Proof. split; vm_compute; reflexivity. Qed.

(** ** Member chunk *)

Lemma members_chunk_always_throws c guild_id data_members guild :
  Client.guilds c !! guild_id = Some guild ->
  handle c (GUILD_MEMBERS_CHUNK guild_id data_members)
  = (c, Threw (TypeError "object is not iterable")).
Proof.
  intros Hg. simpl. unfold on_GUILD_MEMBERS_CHUNK. now rewrite Hg.
Qed.

(** C5 (the code departs from it): a chunk carrying member [7] for a guild
    in the store.  [new Map] is handed an object that is not iterable and
    throws, so the member map is left as it was and member [7] is not in
    it. *)
Theorem members_chunk_adds_no_member :
  handle Sample.guild_store Sample.chunk_of_one
  = (Sample.guild_store, Threw (TypeError "object is not iterable"))
  /\ (Client.guilds (fst (handle Sample.guild_store Sample.chunk_of_one)) !! "1"
        ≫= fun guild => GatewayGuild.members guild !! "7") = None.
Proof. split; vm_compute; reflexivity. Qed.

(** ** Reactions *)

Lemma react_in_cached channels data block channel message message' err :
  channels !! Wire.re_channel_id data = Some channel ->
  Channel.messages channel !! Wire.re_message_id data = Some message ->
  block message = (message', err) ->
  (fst (react_in channels data block) !! Wire.re_channel_id data
     ≫= fun ch => Channel.messages ch !! Wire.re_message_id data)
  = Some message'.
Proof.
  intros Hch Hm Hb. unfold react_in. rewrite Hch, Hm, Hb.
  destruct err; simpl.
  - rewrite lookup_insert_eq. simpl. apply lookup_insert_eq.
  - rewrite lookup_refile. simpl. apply lookup_refile.
Qed.

Lemma react_in_uncached channels data block channel :
  channels !! Wire.re_channel_id data = Some channel ->
  Channel.messages channel !! Wire.re_message_id data = None ->
  react_in channels data block
  = (channels, inr (channel, inr (Wire.re_message_id data))).
Proof. intros Hch Hm. unfold react_in. now rewrite Hch, Hm. Qed.

(** After either handler the aggregates of a cached message are those the
    block of statements run on it has left. *)
Ltac read_back Hch Hm Hb :=
  let H := fresh "H" in
  pose proof (react_in_cached _ _ _ _ _ _ _ Hch Hm Hb) as H;
  match goal with
  | |- context [react_in ?chs ?d ?b] =>
      destruct (react_in chs d b) as [? [? | [? ?]]]
  end;
  simpl in *;
  match goal with
  | |- context [?chs !! ?k ≫= _] => destruct (chs !! k)
  end;
  simpl in *; try discriminate; now rewrite H.

Lemma stored_after_add c data channel message :
  text_channels c (Wire.re_guild_id data) !! Wire.re_channel_id data
  = Some channel ->
  Channel.messages channel !! Wire.re_message_id data = Some message ->
  forall key,
    stored_reaction (fst (handle c (MESSAGE_REACTION_ADD data)))
      (Wire.re_guild_id data) (Wire.re_channel_id data)
      (Wire.re_message_id data) key
    = Message.reactions (fst (add_reaction (Client.user c) data message)) !! key.
Proof.
  intros Hch Hm key. simpl. unfold on_MESSAGE_REACTION_ADD, stored_reaction.
  unfold text_channels in *.
  destruct (add_reaction (Client.user c) data message) as [message' err] eqn:Hb.
  destruct (truthy (Wire.re_guild_id data)); read_back Hch Hm Hb.
Qed.

Lemma stored_after_remove c data channel message :
  text_channels c (Wire.re_guild_id data) !! Wire.re_channel_id data
  = Some channel ->
  Channel.messages channel !! Wire.re_message_id data = Some message ->
  forall key,
    stored_reaction (fst (handle c (MESSAGE_REACTION_REMOVE data)))
      (Wire.re_guild_id data) (Wire.re_channel_id data)
      (Wire.re_message_id data) key
    = Message.reactions
        (fst ((if truthy (Wire.re_guild_id data)
               then remove_reaction (Client.user c) data
               else remove_reaction_dm (Client.user c) data) message)) !! key.
Proof.
  intros Hch Hm key. simpl. unfold on_MESSAGE_REACTION_REMOVE, stored_reaction.
  unfold text_channels in *.
  destruct (truthy (Wire.re_guild_id data)).
  - destruct (remove_reaction (Client.user c) data message)
      as [message' err] eqn:Hb.
    read_back Hch Hm Hb.
  - destruct (remove_reaction_dm (Client.user c) data message)
      as [message' err] eqn:Hb.
    read_back Hch Hm Hb.
Qed.

Lemma add_reaction_present self data message previous :
  Message.reactions message !! reaction_key (Wire.re_emoji data)
  = Some previous ->
  Message.reactions (fst (add_reaction (Some self) data message))
    !! reaction_key (Wire.re_emoji data)
  = Some {| Reaction.count := Reaction.count previous + 1;
            Reaction.emoji := Wire.re_emoji data;
            Reaction.me :=
              str_eqb (Wire.re_user_id data) (PrivateUser.id self)
              || Reaction.me previous |}.
Proof.
  intros Hp. unfold add_reaction. rewrite Hp. simpl. apply lookup_insert_eq.
Qed.

Lemma remove_reaction_present self data message previous :
  Message.reactions message !! reaction_key (Wire.re_emoji data)
  = Some previous ->
  Message.reactions (fst (remove_reaction (Some self) data message))
    !! reaction_key (Wire.re_emoji data)
  = Some {| Reaction.count := Reaction.count previous - 1;
            Reaction.emoji := Wire.re_emoji data;
            Reaction.me :=
              negb (str_eqb (Wire.re_user_id data) (PrivateUser.id self))
              && Reaction.me previous |}.
Proof.
  intros Hp. unfold remove_reaction. rewrite Hp. simpl.
  rewrite lookup_insert_eq. reflexivity.
Qed.

Lemma remove_reaction_dm_absent self data message :
  Message.reactions (fst (remove_reaction_dm (Some self) data message))
    !! reaction_key (Wire.re_emoji data)
  = None.
Proof.
  unfold remove_reaction_dm, remove_reaction.
  destruct (Message.reactions message !! reaction_key (Wire.re_emoji data))
    eqn:Hp; simpl; [apply lookup_delete_eq | exact Hp].
Qed.

(** C3 (the code departs from it): on a cached guild message without
    reactions, user [7] adds a thumbs-up and then removes it.  The first
    add stores the aggregate with count 0, and the remove decrements it to
    -1. *)
Theorem reaction_added_then_removed_counts_minus_one :
  map (fun c =>
         Reaction.count
           <$> stored_reaction c (Some "1") "20" "50"
                 (reaction_key Sample.thumbs_up))
    (stores_after Sample.channel_store
       [MESSAGE_REACTION_ADD Sample.thumbs_up_in_guild;
        MESSAGE_REACTION_REMOVE Sample.thumbs_up_in_guild])
  = [Some 0; Some (-1)]
  /\ stored_reaction Sample.channel_store (Some "1") "20" "50"
       (reaction_key Sample.thumbs_up)
     = None.
Proof. split; vm_compute; reflexivity. Qed.

(** C4 (the code departs from it): user [7] removes a thumbs-up from a
    cached DM message whose aggregate counts 3.  The DM branch stores the
    aggregate with count 2 and then deletes the entry, so the message is
    left without an aggregate under the key, where the claim has one that
    counts 2; nothing else in the store changes.  The guild branch, run on
    the same message cached in a guild channel, leaves the aggregate,
    counting 2. *)
Theorem reaction_remove_in_dm_drops_the_aggregate :
  stored_reaction Sample.channel_store None "30" "60"
    (reaction_key Sample.thumbs_up)
  = Some Sample.three_thumbs
  /\ (let message' := Message.set_reactions Sample.liked_message ∅ in
      let channel' := Channel.set_messages Sample.dm_channel {[ "60" := message' ]} in
      handle Sample.channel_store (MESSAGE_REACTION_REMOVE Sample.thumbs_up_in_dm)
      = (Client.set_dmChannels Sample.channel_store {[ "30" := channel' ]},
         Emitted
           (messageReactionRemove channel' (inl message') Sample.thumbs_up
              (Some {| User.id := "7"; User.username := "neo" |}))))
  /\ ~ count_changes_by (-1) Sample.channel_store
        (fst (handle Sample.channel_store
                (MESSAGE_REACTION_REMOVE Sample.thumbs_up_in_dm)))
        Sample.thumbs_up_in_dm
  /\ stored_reaction
       (fst (handle Sample.liked_in_guild
               (MESSAGE_REACTION_REMOVE Sample.thumbs_up_in_guild)))
       (Some "1") "20" "50" (reaction_key Sample.thumbs_up)
     = Some {| Reaction.count := 2; Reaction.emoji := Sample.thumbs_up;
               Reaction.me := true |}.
Proof.
  split; [vm_compute; reflexivity |].
  split; [vm_compute; reflexivity |].
  split; [| vm_compute; reflexivity].
  intros H.
  destruct (H Sample.three_thumbs) as [current [Hc _]].
  - vm_compute. reflexivity.
  - vm_compute in Hc. discriminate Hc.
Qed.

(** X24: with the session user known and the channel cached, a reaction
    event on a cached message that already holds an aggregate under the
    event's key replaces it as follows.  An add stores count + 1 and the
    flag "actor is the session user, or the previous flag"; a remove on a
    guild channel stores count - 1 and the flag "actor is not the session
    user, and the previous flag"; a remove on a DM channel leaves no
    aggregate under the key.  When the message is not cached the store is
    unchanged and the notification carries the bare message id. *)
Theorem reaction_adjusts_stored_aggregate c data self channel :
  Client.user c = Some self ->
  text_channels c (Wire.re_guild_id data) !! Wire.re_channel_id data
  = Some channel ->
  (forall message previous,
     Channel.messages channel !! Wire.re_message_id data = Some message ->
     Message.reactions message !! reaction_key (Wire.re_emoji data)
     = Some previous ->
     stored_reaction (fst (handle c (MESSAGE_REACTION_ADD data)))
       (Wire.re_guild_id data) (Wire.re_channel_id data)
       (Wire.re_message_id data) (reaction_key (Wire.re_emoji data))
     = Some {| Reaction.count := Reaction.count previous + 1;
               Reaction.emoji := Wire.re_emoji data;
               Reaction.me :=
                 str_eqb (Wire.re_user_id data) (PrivateUser.id self)
                 || Reaction.me previous |}
     /\ stored_reaction (fst (handle c (MESSAGE_REACTION_REMOVE data)))
          (Wire.re_guild_id data) (Wire.re_channel_id data)
          (Wire.re_message_id data) (reaction_key (Wire.re_emoji data))
        = if truthy (Wire.re_guild_id data)
          then Some {| Reaction.count := Reaction.count previous - 1;
                       Reaction.emoji := Wire.re_emoji data;
                       Reaction.me :=
                         negb (str_eqb (Wire.re_user_id data)
                                 (PrivateUser.id self))
                         && Reaction.me previous |}
          else None)
  /\ (Channel.messages channel !! Wire.re_message_id data = None ->
      handle c (MESSAGE_REACTION_ADD data)
      = (c, Emitted
              (messageReactionAdd channel (inr (Wire.re_message_id data))
                 (Wire.re_emoji data)
                 (Client.users c !! Wire.re_user_id data)))
      /\ handle c (MESSAGE_REACTION_REMOVE data)
         = (c, Emitted
                 (messageReactionRemove channel
                    (inr (Wire.re_message_id data)) (Wire.re_emoji data)
                    (Client.users c !! Wire.re_user_id data)))).
Proof.
  intros Hself Hch. split.
  - intros message previous Hm Hp. split.
    + rewrite (stored_after_add _ _ _ _ Hch Hm), Hself.
      now apply add_reaction_present.
    + rewrite (stored_after_remove _ _ _ _ Hch Hm), Hself.
      destruct (truthy (Wire.re_guild_id data)).
      * now apply remove_reaction_present.
      * apply remove_reaction_dm_absent.
  - intros Hm. unfold text_channels in Hch. simpl.
    unfold on_MESSAGE_REACTION_ADD, on_MESSAGE_REACTION_REMOVE.
    destruct (truthy (Wire.re_guild_id data));
      rewrite !(react_in_uncached _ _ _ _ Hch Hm);
      now rewrite ?set_guildChannels_id, ?set_dmChannels_id.
Qed.

Lemma reaction_adjusts_stored_aggregate_witness :
  (Client.user Sample.channel_store = Some {| PrivateUser.id := "99" |}
   /\ text_channels Sample.channel_store None !! "30" = Some Sample.dm_channel)
  /\ stored_reaction
       (fst (handle Sample.channel_store
               (MESSAGE_REACTION_ADD Sample.thumbs_up_in_dm)))
       None "30" "60" (reaction_key Sample.thumbs_up)
     = Some {| Reaction.count := 4; Reaction.emoji := Sample.thumbs_up;
               Reaction.me := true |}
  /\ stored_reaction
       (fst (handle Sample.channel_store
               (MESSAGE_REACTION_REMOVE Sample.thumbs_up_in_dm)))
       None "30" "60" (reaction_key Sample.thumbs_up)
     = None.
Proof.
  split; [split; vm_compute; reflexivity |].
  refine (proj1
            (reaction_adjusts_stored_aggregate Sample.channel_store
               Sample.thumbs_up_in_dm {| PrivateUser.id := "99" |}
               Sample.dm_channel _ _)
            Sample.liked_message Sample.three_thumbs _ _);
    vm_compute; reflexivity.
Defined.

(** C9: with the session user known, a [MESSAGE_REACTION_REMOVE] for a
    message cached in a DM or group-DM channel leaves no aggregate under
    the emoji's key, whatever was stored there; for a message cached in a
    guild channel the aggregate stays under the same key, with its count
    decremented. *)
Theorem reaction_remove_deletes_in_dm_keeps_in_guild
    c data self channel message :
  Client.user c = Some self ->
  text_channels c (Wire.re_guild_id data) !! Wire.re_channel_id data
  = Some channel ->
  Channel.messages channel !! Wire.re_message_id data = Some message ->
  (truthy (Wire.re_guild_id data) = false ->
   stored_reaction (fst (handle c (MESSAGE_REACTION_REMOVE data)))
     (Wire.re_guild_id data) (Wire.re_channel_id data)
     (Wire.re_message_id data) (reaction_key (Wire.re_emoji data))
   = None)
  /\ (truthy (Wire.re_guild_id data) = true ->
      forall previous,
        Message.reactions message !! reaction_key (Wire.re_emoji data)
        = Some previous ->
        stored_reaction (fst (handle c (MESSAGE_REACTION_REMOVE data)))
          (Wire.re_guild_id data) (Wire.re_channel_id data)
          (Wire.re_message_id data) (reaction_key (Wire.re_emoji data))
        = Some {| Reaction.count := Reaction.count previous - 1;
                  Reaction.emoji := Wire.re_emoji data;
                  Reaction.me :=
                    negb (str_eqb (Wire.re_user_id data)
                            (PrivateUser.id self))
                    && Reaction.me previous |}).
Proof.
  intros Hself Hch Hm.
  rewrite (stored_after_remove _ _ _ _ Hch Hm), Hself.
  split; intros ->.
  - apply remove_reaction_dm_absent.
  - intros previous Hp. now apply remove_reaction_present.
Qed.

Lemma reaction_remove_deletes_in_dm_keeps_in_guild_witness :
  (Client.user Sample.channel_store = Some {| PrivateUser.id := "99" |}
   /\ text_channels Sample.channel_store None !! "30" = Some Sample.dm_channel
   /\ Channel.messages Sample.dm_channel !! "60" = Some Sample.liked_message
   /\ Message.reactions Sample.liked_message !! reaction_key Sample.thumbs_up
      = Some Sample.three_thumbs)
  /\ stored_reaction
       (fst (handle Sample.channel_store
               (MESSAGE_REACTION_REMOVE Sample.thumbs_up_in_dm)))
       None "30" "60" (reaction_key Sample.thumbs_up)
     = None.
Proof.
  split; [repeat split; vm_compute; reflexivity |].
  refine (proj1
            (reaction_remove_deletes_in_dm_keeps_in_guild Sample.channel_store
               Sample.thumbs_up_in_dm {| PrivateUser.id := "99" |}
               Sample.dm_channel Sample.liked_message _ _ _) _);
    vm_compute; reflexivity.
Defined.

(** ** Message deletion *)

(** C7: a [MESSAGE_DELETE] whose channel is cached removes the message id
    from that channel's cache; the [messageDelete] notification carries the
    cached message when there was one, and otherwise the stub made of the
    id, the channel id and the guild id as they are on the wire. *)
Theorem message_delete_removes_and_reports c data channel :
  text_channels c (Wire.md_guild_id data) !! Wire.md_channel_id data
  = Some channel ->
  exists channel',
    text_channels (fst (handle c (MESSAGE_DELETE data))) (Wire.md_guild_id data)
      !! Wire.md_channel_id data
    = Some channel'
    /\ Channel.messages channel'
       = delete (Wire.md_id data) (Channel.messages channel)
    /\ Channel.messages channel' !! Wire.md_id data = None
    /\ snd (handle c (MESSAGE_DELETE data))
       = Emitted
           (messageDelete channel'
              match Channel.messages channel !! Wire.md_id data with
              | Some message => inl message
              | None => inr (stub_of data)
              end).
Proof.
  intros Hch. simpl. unfold on_MESSAGE_DELETE, text_channels in *.
  destruct (truthy (Wire.md_guild_id data)) eqn:Hg;
    unfold delete_message_in; rewrite Hch; simpl; rewrite ?Hg;
    eexists; (split; [apply lookup_refile |]); simpl;
    (split; [reflexivity |]); (split; [apply lookup_delete_eq | reflexivity]).
Qed.

Lemma message_delete_removes_and_reports_witness :
  text_channels Sample.channel_store (Some "1") !! "20"
  = Some Sample.text_channel
  /\ exists channel',
       Channel.messages channel' !! "51" = None
       /\ snd (handle Sample.channel_store (MESSAGE_DELETE Sample.delete_unknown))
          = Emitted
              (messageDelete channel'
                 (inr {| UnknownMessage.id := "51";
                         UnknownMessage.channelId := "20";
                         UnknownMessage.guildId := Some "1" |})).
Proof.
  assert (Hch : text_channels Sample.channel_store (Some "1") !! "20"
                = Some Sample.text_channel) by (vm_compute; reflexivity).
  split; [exact Hch |].
  destruct (message_delete_removes_and_reports Sample.channel_store
              Sample.delete_unknown Sample.text_channel Hch)
    as (channel' & _ & _ & Hgone & Hout).
  exists channel'. split; [exact Hgone | exact Hout].
Defined.

(** ** Member update *)

Lemma spread_lookup_kept old_raw payload key :
  (forall value, payload !! key = Some value -> old_raw !! key = Some value) ->
  spread old_raw payload !! key = old_raw !! key.
Proof.
  intros Hkeep. unfold spread.
  destruct (payload !! key) as [value |] eqn:Hp.
  - rewrite (lookup_union_Some_l _ _ _ _ Hp). symmetry. now apply Hkeep.
  - now rewrite lookup_union_r.
Qed.

(** C6: a [GUILD_MEMBER_UPDATE] for a member in the store whose payload
    changes only the nickname builds a new member with the same role list
    (and join time) as the old one and a different nickname, emits
    [guildMemberUpdate] with the old and the new member, and changes
    nothing in the store but that member's entry in its guild. *)
Theorem member_update_nickname_only c data guild oldMember :
  Client.guilds c !! Wire.mu_guild_id data = Some guild ->
  GatewayGuild.members guild !! Wire.mu_user_id data = Some oldMember ->
  oldMember
  = new_GuildMember (GuildMember.raw oldMember) (GuildMember.guildId oldMember) ->
  changes_only_nickname (GuildMember.raw oldMember) (Wire.mu_fields data) ->
  exists guild' newMember,
    handle c (GUILD_MEMBER_UPDATE data)
    = ({| Client.guildChannels := Client.guildChannels c;
          Client.dmChannels := Client.dmChannels c;
          Client.guilds := <[Wire.mu_guild_id data := guild']> (Client.guilds c);
          Client.users := Client.users c;
          Client.user := Client.user c |},
       Emitted (guildMemberUpdate guild' oldMember newMember))
    /\ guild'
       = {| GatewayGuild.id := GatewayGuild.id guild;
            GatewayGuild.members :=
              <[Wire.mu_user_id data := newMember]> (GatewayGuild.members guild);
            GatewayGuild.roles := GatewayGuild.roles guild;
            GatewayGuild.presences := GatewayGuild.presences guild;
            GatewayGuild.emojis := GatewayGuild.emojis guild |}
    /\ (forall other,
          other <> Wire.mu_guild_id data ->
          Client.guilds (fst (handle c (GUILD_MEMBER_UPDATE data))) !! other
          = Client.guilds c !! other)
    /\ (forall other,
          other <> Wire.mu_user_id data ->
          GatewayGuild.members guild' !! other
          = GatewayGuild.members guild !! other)
    /\ GuildMember.roles newMember = GuildMember.roles oldMember
    /\ GuildMember.joinedAt newMember = GuildMember.joinedAt oldMember
    /\ GuildMember.nickname newMember <> GuildMember.nickname oldMember.
Proof.
  intros Hg Hm Hbuilt [[nick [Hnick Hold]] Hkeep].
  simpl. unfold on_GUILD_MEMBER_UPDATE. rewrite Hg, Hm.
  eexists _, _. split; [reflexivity |]. split; [reflexivity |].
  split; [intros other Hne; simpl; now rewrite lookup_insert_ne |].
  split; [intros other Hne; simpl; now rewrite lookup_insert_ne |].
  rewrite Hbuilt. simpl.
  rewrite !spread_lookup_kept by (intros value; now apply Hkeep).
  repeat split.
  unfold spread. rewrite (lookup_union_Some_l _ _ _ _ Hnick). congruence.
Qed.

Lemma sample_payload_changes_only_nickname :
  changes_only_nickname (GuildMember.raw Sample.member_7)
    (Wire.mu_fields Sample.member_renamed).
Proof.
  split.
  - exists (JStr "neo"). split; vm_compute; [reflexivity | discriminate].
  - intros key value Hnick _ Hp. simpl in *.
    rewrite lookup_insert_ne in Hp by congruence.
    destruct (decide (key = "roles")) as [-> | Hroles].
    + rewrite lookup_singleton_eq in Hp. rewrite <- Hp. vm_compute. reflexivity.
    + rewrite lookup_singleton_ne in Hp by congruence. discriminate Hp.
Qed.

Lemma member_update_nickname_only_witness :
  (Client.guilds Sample.member_store !! "1" = Some Sample.guild_with_member
   /\ GatewayGuild.members Sample.guild_with_member !! "7"
      = Some Sample.member_7)
  /\ exists guild' newMember,
       snd (handle Sample.member_store
              (GUILD_MEMBER_UPDATE Sample.member_renamed))
       = Emitted (guildMemberUpdate guild' Sample.member_7 newMember)
       /\ GuildMember.roles newMember = Some (JArr [JStr "5"])
       /\ GuildMember.nickname newMember <> Some JNull.
Proof.
  assert (Hg : Client.guilds Sample.member_store !! "1"
               = Some Sample.guild_with_member) by (vm_compute; reflexivity).
  assert (Hm : GatewayGuild.members Sample.guild_with_member !! "7"
               = Some Sample.member_7) by (vm_compute; reflexivity).
  split; [split; assumption |].
  destruct (member_update_nickname_only Sample.member_store
              Sample.member_renamed Sample.guild_with_member Sample.member_7
              Hg Hm eq_refl sample_payload_changes_only_nickname)
    as (guild' & newMember & Hout & _ & _ & _ & Hroles & _ & Hnick).
  exists guild', newMember. rewrite Hout.
  split; [reflexivity |]. split; [exact Hroles | exact Hnick].
Defined.

(** * Further properties of the listener and the REST layer *)

(** ** Channels: create, delete and the type switch *)

Lemma newChannelSwitch_known data :
  0 <= Wire.channel_type data <= 6 ->
  exists kind,
    newChannelSwitch data = Some (new_Channel kind data)
    /\ is_dm_type kind
       = (Wire.channel_type data =? 1) || (Wire.channel_type data =? 3).
Proof.
  intros Hty. unfold newChannelSwitch.
  destruct (Wire.channel_type data) as [| p | p]; [| | lia].
  - exists text. split; reflexivity.
  - do 3 (try (destruct p as [p | p |]; try lia));
      eexists; split; reflexivity.
Qed.

Lemma newChannelSwitch_unknown data :
  ~ 0 <= Wire.channel_type data <= 6 -> newChannelSwitch data = None.
Proof.
  intros Hty. unfold newChannelSwitch.
  destruct (Wire.channel_type data) as [| p | p]; [lia | | reflexivity].
  do 3 (try (destruct p as [p | p |]; try lia)); reflexivity.
Qed.

(** X1: a [CHANNEL_CREATE] whose type is one of 0..6 builds the channel
    under the payload's id, emits [channelCreate] with it and files it in
    [dmChannels] when the type is 1 (DM) or 3 (group DM) and in
    [guildChannels] otherwise; the other store is untouched. *)
Theorem channel_create_files_by_type c data :
  0 <= Wire.channel_type data <= 6 ->
  exists channel,
    newChannelSwitch data = Some channel
    /\ Channel.id channel = Wire.channel_id data
    /\ snd (handle_other c (CHANNEL_CREATE data)) = Emits (channelCreate channel)
    /\ let c' := fst (handle_other c (CHANNEL_CREATE data)) in
       if (Wire.channel_type data =? 1) || (Wire.channel_type data =? 3)
       then Client.dmChannels c' !! Wire.channel_id data = Some channel
            /\ Client.guildChannels c' = Client.guildChannels c
       else Client.guildChannels c' !! Wire.channel_id data = Some channel
            /\ Client.dmChannels c' = Client.dmChannels c.
Proof.
  intros Hty. destruct (newChannelSwitch_known data Hty) as [kind [Hsw Hdm]].
  exists (new_Channel kind data). split; [exact Hsw |]. split; [reflexivity |].
  simpl. unfold on_CHANNEL_CREATE. rewrite Hsw. simpl Channel.type.
  rewrite Hdm.
  destruct ((Wire.channel_type data =? 1) || (Wire.channel_type data =? 3));
    simpl; (split; [reflexivity |]); (split; [apply lookup_insert_eq | reflexivity]).
Qed.

Lemma channel_create_files_by_type_witness :
  0 <= Wire.channel_type Example.dm_payload <= 6
  /\ exists channel,
       Channel.type channel = DM
       /\ Client.dmChannels
            (fst (handle_other Sample.guild_store
                    (CHANNEL_CREATE Example.dm_payload))) !! "41"
          = Some channel.
Proof.
  assert (Hty : 0 <= Wire.channel_type Example.dm_payload <= 6)
    by (vm_compute; split; discriminate).
  split; [exact Hty |].
  destruct (channel_create_files_by_type Sample.guild_store
              Example.dm_payload Hty)
    as (channel & Hsw & _ & _ & Hstore).
  exists channel. split.
  - vm_compute in Hsw. now injection Hsw as <-.
  - exact (proj1 Hstore).
Defined.

(** X2: for a channel payload whose type is not one of 0..6,
    [newChannelSwitch] yields [undefined], and [CHANNEL_CREATE],
    [CHANNEL_DELETE] and [CHANNEL_UPDATE] each throw a [TypeError] and
    leave the store as it was. *)
Theorem channel_event_of_unknown_type_throws c data :
  ~ 0 <= Wire.channel_type data <= 6 ->
  handle_other c (CHANNEL_CREATE data) = (c, Throws (TypeError "channel.type"))
  /\ handle_other c (CHANNEL_DELETE data)
     = (c, Throws (TypeError "channel.type"))
  /\ handle c (CHANNEL_UPDATE data) = (c, Threw (TypeError "newChannel.type")).
Proof.
  intros Hty. simpl.
  unfold on_CHANNEL_CREATE, on_CHANNEL_DELETE, on_CHANNEL_UPDATE.
  rewrite (newChannelSwitch_unknown data Hty). repeat split.
Qed.

Lemma channel_event_of_unknown_type_throws_witness :
  ~ 0 <= Wire.channel_type Example.odd_payload <= 6
  /\ handle_other Sample.guild_store (CHANNEL_CREATE Example.odd_payload)
     = (Sample.guild_store, Throws (TypeError "channel.type")).
Proof.
  assert (Hty : ~ 0 <= Wire.channel_type Example.odd_payload <= 6)
    by (vm_compute; intros [_ H]; now apply H).
  split; [exact Hty |].
  exact (proj1 (channel_event_of_unknown_type_throws Sample.guild_store
                  Example.odd_payload Hty)).
Defined.

Lemma set_guilds_id c : Client.set_guilds c (Client.guilds c) = c.
Proof. now destruct c. Qed.

(** X3: a [CHANNEL_CREATE] followed by a [CHANNEL_DELETE] for the same
    payload, for a channel id that was not stored, leaves the store exactly
    as it was before the two events. *)
Theorem channel_create_then_delete_restores c data :
  0 <= Wire.channel_type data <= 6 ->
  Client.guildChannels c !! Wire.channel_id data = None ->
  Client.dmChannels c !! Wire.channel_id data = None ->
  run c [inr (CHANNEL_CREATE data); inr (CHANNEL_DELETE data)] = c.
Proof.
  intros Hty Hg Hd. destruct (newChannelSwitch_known data Hty) as [kind [Hsw _]].
  simpl. unfold on_CHANNEL_CREATE, on_CHANNEL_DELETE. rewrite Hsw.
  simpl Channel.type. simpl Channel.id.
  destruct (is_dm_type kind); simpl;
    rewrite delete_insert_eq, delete_id by assumption;
    now destruct c.
Qed.

Lemma channel_create_then_delete_restores_witness :
  run Sample.guild_store
    [inr (CHANNEL_CREATE Example.dm_payload);
     inr (CHANNEL_DELETE Example.dm_payload)]
  = Sample.guild_store.
Proof.
  apply channel_create_then_delete_restores;
    vm_compute; first [reflexivity | split; discriminate].
Defined.

(** ** Events that refer to an entity the store does not hold *)

Ltac unfold_handlers :=
  unfold on_CHANNEL_UPDATE, on_GUILD_EMOJIS_UPDATE, on_GUILD_MEMBER_UPDATE,
    on_GUILD_MEMBERS_CHUNK, on_MESSAGE_UPDATE, on_MESSAGE_DELETE,
    on_MESSAGE_REACTION_ADD, on_MESSAGE_REACTION_REMOVE, on_READY,
    on_USER_UPDATE, on_CHANNEL_CREATE, on_CHANNEL_DELETE, on_GUILD_DELETE,
    on_GUILD_BAN_ADD, on_GUILD_BAN_REMOVE, on_GUILD_MEMBER_ADD,
    on_GUILD_MEMBER_REMOVE, on_GUILD_ROLE_CREATE, on_GUILD_ROLE_UPDATE,
    on_GUILD_ROLE_DELETE, upsert_role, on_MESSAGE_CREATE,
    on_MESSAGE_DELETE_BULK, on_MESSAGE_REACTION_REMOVE_ALL,
    on_MESSAGE_REACTION_REMOVE_EMOJI, on_PRESENCE_UPDATE, on_TYPING_START,
    update_message_in, delete_message_in, create_message_in, bulk_delete_in,
    react_in, clear_in in *.

(** X4: every handler that dereferences the guild it fetches (emoji
    update, member add, update, remove and chunk, role create, update and
    delete, presence update) throws a [TypeError] when the guild is not in
    the store, and leaves the store as it was. *)
Theorem event_on_unknown_guild_throws c e guild_id :
  guild_of_event e = Some guild_id ->
  Client.guilds c !! guild_id = None ->
  step c e = c /\ exists what, thrown c e = Some (TypeError what).
Proof.
  intros He Hg.
  destruct e as [[] | []]; simpl in He; try discriminate;
    injection He as <-; unfold step, thrown; simpl; unfold_handlers;
    rewrite Hg; simpl; (split; [reflexivity | eexists; reflexivity]).
Qed.

Lemma event_on_unknown_guild_throws_witness :
  Client.guilds Sample.guild_store !! "2" = None
  /\ step Sample.guild_store
       (inr (GUILD_ROLE_CREATE Example.role_in_unknown_guild))
     = Sample.guild_store.
Proof.
  assert (Hg : Client.guilds Sample.guild_store !! "2" = None)
    by (vm_compute; reflexivity).
  split; [exact Hg |].
  exact (proj1 (event_on_unknown_guild_throws Sample.guild_store
                  (inr (GUILD_ROLE_CREATE Example.role_in_unknown_guild))
                  "2" eq_refl Hg)).
Defined.

(** X5: every message and reaction handler (message create, update,
    delete and bulk delete; reaction add, remove, remove-all and
    remove-emoji) throws a [TypeError] when the channel is not in the store
    selected by the event's [guild_id], and leaves the store as it was. *)
Theorem event_on_unknown_channel_throws c e guild_id channel_id :
  channel_of_event e = Some (guild_id, channel_id) ->
  text_channels c guild_id !! channel_id = None ->
  step c e = c /\ exists what, thrown c e = Some (TypeError what).
Proof.
  intros He Hch. unfold text_channels in Hch.
  destruct e as [[] | []]; simpl in He; try discriminate;
    injection He as <- <-; unfold step, thrown; simpl; unfold_handlers;
    destruct (truthy _); rewrite Hch; simpl;
    rewrite ?set_guildChannels_id, ?set_dmChannels_id;
    (split; [reflexivity | eexists; reflexivity]).
Qed.

Lemma event_on_unknown_channel_throws_witness :
  text_channels Sample.channel_store (Some "1") !! "21" = None
  /\ step Sample.channel_store (inr (MESSAGE_CREATE Example.message_elsewhere))
     = Sample.channel_store.
Proof.
  assert (Hch : text_channels Sample.channel_store (Some "1") !! "21" = None)
    by (vm_compute; reflexivity).
  split; [exact Hch |].
  exact (proj1 (event_on_unknown_channel_throws Sample.channel_store
                  (inr (MESSAGE_CREATE Example.message_elsewhere))
                  (Some "1") "21" eq_refl Hch)).
Defined.

Lemma handler_frame c e :
  without (writes e) (step c e) = without (writes e) c.
Proof.
  destruct e as [[] | []]; unfold step; simpl; unfold_handlers;
    repeat match goal with
           | |- context [match ?x with _ => _ end] =>
               match x with
               | context [match _ with _ => _ end] => fail 1
               | _ => destruct x eqn:?
               end
           end;
    simpl; try reflexivity.
Qed.

(** X6: each handler assigns to one part of the store only: channel,
    message and reaction events to the two channel stores; guild, member,
    role, emoji and presence events to the guild store; bans and typing to
    the user store; [READY] and [USER_UPDATE] to the session user.  The
    rest of the store is the same after the event, whether the handler
    emits or throws. *)
Theorem handler_writes_one_part c e :
  without (writes e) (step c e) = without (writes e) c.
Proof.
  destruct e as [[] | []]; unfold step; simpl; unfold_handlers;
    repeat match goal with
           | |- context [match ?x with _ => _ end] =>
               match x with
               | context [match _ with _ => _ end] => fail 1
               | _ => destruct x eqn:?
               end
           end;
    simpl; reflexivity.
Qed.

(** ** The session user *)

Lemma step_keeps_other_parts c e :
  writes e <> SessionUser -> Client.user (step c e) = Client.user c.
Proof.
  intros Hw. pose proof (handler_frame c e) as H.
  destruct (writes e); try congruence;
    apply (f_equal Client.user) in H; exact H.
Qed.

Lemma step_keeps_session_user c e :
  is_Some (Client.user c) -> is_Some (Client.user (step c e)).
Proof.
  intros Hu. destruct e as [e | e].
  - now rewrite step_keeps_other_parts by (destruct e; discriminate).
  - destruct e;
      try (rewrite step_keeps_other_parts by discriminate; exact Hu).
    + simpl. unfold on_READY. destruct (Payload.ready_shard data); simpl; eauto.
    + simpl. eauto.
Qed.

Lemma run_keeps_session_user events :
  forall c, is_Some (Client.user c) -> is_Some (Client.user (run c events)).
Proof.
  induction events as [| e events IH]; intros c Hu; [exact Hu |].
  apply IH, step_keeps_session_user, Hu.
Qed.

Lemma ready_sets_session_user c data :
  Client.user (step c (inr (READY data)))
  = Some (new_PrivateUser (Payload.ready_user_id data)).
Proof.
  simpl. unfold on_READY. now destruct (Payload.ready_shard data).
Qed.

(** X7: once a [READY] has been handled the session user is known after
    any further sequence of events, and it is the user of that [READY] as
    long as no later [READY] or [USER_UPDATE] replaces it. *)
Theorem session_user_known_after_ready c data events :
  is_Some (Client.user (run (step c (inr (READY data))) events))
  /\ (Forall (fun e => writes e <> SessionUser) events ->
      Client.user (run (step c (inr (READY data))) events)
      = Some (new_PrivateUser (Payload.ready_user_id data))).
Proof.
  split.
  - apply run_keeps_session_user. rewrite ready_sets_session_user. eauto.
  - rewrite <- (ready_sets_session_user c data).
    generalize (step c (inr (READY data))). intros c0 Hall. revert c0.
    induction Hall as [| e events He _ IH]; intros c0; [reflexivity |].
    change (run c0 (e :: events)) with (run (step c0 e) events).
    now rewrite IH, step_keeps_other_parts.
Qed.

(** ** Entities stay filed under their own id *)

Lemma channels_filed_lookup channels k channel :
  channels_filed channels ->
  channels !! k = Some channel ->
  Channel.id channel = k /\ messages_filed (Channel.messages channel).
Proof. intros Hf Hk. exact (Hf k channel Hk). Qed.

Lemma messages_filed_insert ms message :
  messages_filed ms -> messages_filed (<[Message.id message := message]> ms).
Proof.
  intros Hf m message' Hm.
  destruct (decide (Message.id message = m)) as [<- | Hne].
  - rewrite lookup_insert_eq in Hm. now injection Hm as <-.
  - rewrite lookup_insert_ne in Hm by done. now apply Hf.
Qed.

Lemma messages_filed_delete ms m :
  messages_filed ms -> messages_filed (delete m ms).
Proof.
  intros Hf m' message Hm.
  apply lookup_delete_Some in Hm as [_ Hm]. now apply Hf.
Qed.

Lemma messages_filed_refile ms m message message' :
  messages_filed ms ->
  ms !! m = Some message ->
  Message.id message' = Message.id message ->
  messages_filed (refile m (Message.id message') message' ms).
Proof.
  intros Hf Hm Hid. rewrite Hid, (Hf m message Hm).
  unfold refile. rewrite insert_insert_eq.
  rewrite <- (Hf m message Hm), <- Hid. now apply messages_filed_insert.
Qed.

Lemma channels_filed_insert channels channel :
  channels_filed channels ->
  messages_filed (Channel.messages channel) ->
  channels_filed (<[Channel.id channel := channel]> channels).
Proof.
  intros Hf Hms k channel' Hk.
  destruct (decide (Channel.id channel = k)) as [<- | Hne].
  - rewrite lookup_insert_eq in Hk. injection Hk as <-. now split.
  - rewrite lookup_insert_ne in Hk by done. now apply Hf.
Qed.

Lemma channels_filed_delete channels k :
  channels_filed channels -> channels_filed (delete k channels).
Proof.
  intros Hf k' channel Hk.
  apply lookup_delete_Some in Hk as [_ Hk]. now apply Hf.
Qed.

(** Storing a channel again after its cache changed. *)
Lemma channels_filed_restore channels k channel ms :
  channels_filed channels ->
  channels !! k = Some channel ->
  messages_filed ms ->
  channels_filed
    (refile k (Channel.id (Channel.set_messages channel ms))
       (Channel.set_messages channel ms) channels).
Proof.
  intros Hf Hk Hms.
  destruct (channels_filed_lookup _ _ _ Hf Hk) as [Hid _].
  simpl Channel.id. rewrite Hid. unfold refile. rewrite insert_insert_eq.
  replace k with (Channel.id (Channel.set_messages channel ms)) at 1
    by exact Hid.
  now apply channels_filed_insert.
Qed.

Lemma channels_filed_mutated channels k channel ms :
  channels_filed channels ->
  channels !! k = Some channel ->
  messages_filed ms ->
  channels_filed (<[k := Channel.set_messages channel ms]> channels).
Proof.
  intros Hf Hk Hms.
  destruct (channels_filed_lookup _ _ _ Hf Hk) as [Hid _].
  replace k with (Channel.id (Channel.set_messages channel ms)) at 1
    by exact Hid.
  now apply channels_filed_insert.
Qed.

Lemma add_reaction_keeps_id self data message :
  Message.id (fst (add_reaction self data message)) = Message.id message.
Proof.
  unfold add_reaction.
  destruct (Message.reactions message !! _), self; reflexivity.
Qed.

Lemma remove_reaction_keeps_id self data message :
  Message.id (fst (remove_reaction self data message)) = Message.id message.
Proof.
  unfold remove_reaction.
  destruct (Message.reactions message !! _), self; reflexivity.
Qed.

Lemma remove_reaction_dm_keeps_id self data message :
  Message.id (fst (remove_reaction_dm self data message)) = Message.id message.
Proof.
  unfold remove_reaction_dm.
  pose proof (remove_reaction_keeps_id self data message) as H.
  destruct (remove_reaction self data message) as [m [e |]]; exact H.
Qed.

Lemma react_in_filed channels data block :
  (forall message, Message.id (fst (block message)) = Message.id message) ->
  channels_filed channels ->
  channels_filed (fst (react_in channels data block)).
Proof.
  intros Hid Hf. unfold react_in.
  destruct (channels !! Wire.re_channel_id data) as [channel |] eqn:Hch;
    [| exact Hf].
  destruct (channels_filed_lookup _ _ _ Hf Hch) as [_ Hms].
  destruct (Channel.messages channel !! Wire.re_message_id data)
    as [message |] eqn:Hm; [| exact Hf].
  specialize (Hid message).
  destruct (block message) as [message' [err |]]; simpl in *.
  - apply channels_filed_mutated; try assumption.
    rewrite <- (Hms _ _ Hm), <- Hid. now apply messages_filed_insert.
  - apply channels_filed_restore; try assumption.
    now apply (messages_filed_refile _ _ message).
Qed.

Lemma clear_in_filed channels data block :
  (forall message, Message.id (block message) = Message.id message) ->
  channels_filed channels ->
  channels_filed (fst (clear_in channels data block)).
Proof.
  intros Hid Hf. unfold clear_in.
  destruct (channels !! Payload.rr_channel_id data) as [channel |] eqn:Hch;
    [| exact Hf].
  destruct (channels_filed_lookup _ _ _ Hf Hch) as [_ Hms].
  destruct (Channel.messages channel !! Payload.rr_message_id data)
    as [message |] eqn:Hm; [| exact Hf].
  simpl. apply channels_filed_restore; try assumption.
  now apply (messages_filed_refile _ _ message).
Qed.

Lemma bulk_cache_filed ids :
  forall acc,
    messages_filed (snd acc) ->
    messages_filed (snd (fold_left bulk_step ids acc)).
Proof.
  induction ids as [| id ids IH]; intros acc Hf; [exact Hf |].
  simpl. apply IH. simpl. now apply messages_filed_delete.
Qed.

Lemma message_branches_filed c guild_id
    (f : gmap Snowflake Channel.t -> gmap Snowflake Channel.t) :
  (forall channels, channels_filed channels -> channels_filed (f channels)) ->
  store_filed c ->
  store_filed
    (if truthy guild_id
     then Client.set_guildChannels c (f (Client.guildChannels c))
     else Client.set_dmChannels c (f (Client.dmChannels c))).
Proof.
  intros Hf (Hg & Hd & Hguilds).
  destruct (truthy guild_id); (split; [| split]); simpl;
    first [now apply Hf | assumption].
Qed.

Lemma guilds_filed_insert (guilds : gmap Snowflake GatewayGuild.t) k guild guild' :
  (forall k guild, guilds !! k = Some guild -> GatewayGuild.id guild = k) ->
  guilds !! k = Some guild ->
  GatewayGuild.id guild' = GatewayGuild.id guild ->
  forall k' g, <[k := guild']> guilds !! k' = Some g -> GatewayGuild.id g = k'.
Proof.
  intros Hf Hk Hid k' g Hg.
  destruct (decide (k = k')) as [<- | Hne].
  - rewrite lookup_insert_eq in Hg. injection Hg as <-.
    rewrite Hid. now apply Hf.
  - rewrite lookup_insert_ne in Hg by done. now apply Hf.
Qed.

Lemma guild_branch_filed c k guild guild' :
  store_filed c ->
  Client.guilds c !! k = Some guild ->
  GatewayGuild.id guild' = GatewayGuild.id guild ->
  store_filed (Client.set_guilds c (<[k := guild']> (Client.guilds c))).
Proof.
  intros (Hg & Hd & Hguilds) Hk Hid.
  split; [exact Hg |]. split; [exact Hd |].
  simpl. now apply (guilds_filed_insert _ _ guild).
Qed.

Lemma new_Channel_filed kind data :
  messages_filed (Channel.messages (new_Channel kind data)).
Proof. intros m message Hm. simpl in Hm. now rewrite lookup_empty in Hm. Qed.

Lemma newChannelSwitch_filed data channel :
  newChannelSwitch data = Some channel ->
  messages_filed (Channel.messages channel).
Proof.
  unfold newChannelSwitch. intros H.
  repeat match type of H with
         | match ?x with _ => _ end = _ => destruct x
         end;
    try discriminate; injection H as <-; apply new_Channel_filed.
Qed.

Lemma fst_message_branches {O} c guild_id
    (F : gmap Snowflake Channel.t -> gmap Snowflake Channel.t * O) :
  fst (if truthy guild_id
       then let '(channels, out) := F (Client.guildChannels c) in
            (Client.set_guildChannels c channels, out)
       else let '(channels, out) := F (Client.dmChannels c) in
            (Client.set_dmChannels c channels, out))
  = if truthy guild_id
    then Client.set_guildChannels c (fst (F (Client.guildChannels c)))
    else Client.set_dmChannels c (fst (F (Client.dmChannels c))).
Proof. destruct (truthy guild_id); destruct (F _); reflexivity. Qed.

Ltac branch_fst c g F :=
  let E := fresh "E" in
  pose proof (fst_message_branches c g F) as E;
  cbv beta in E; rewrite E; clear E.

Lemma step_keeps_filed c e : store_filed c -> store_filed (step c e).
Proof.
  intros Hc. pose proof Hc as (Hg & Hd & Hguilds).
  destruct e as [[] | []]; unfold step; simpl.
  - (* CHANNEL_UPDATE *)
    unfold on_CHANNEL_UPDATE.
    destruct (newChannelSwitch data) as [channel |] eqn:Hsw; [| exact Hc].
    pose proof (newChannelSwitch_filed _ _ Hsw).
    destruct (is_dm_type (Channel.type channel)); (split; [| split]); simpl;
      first [now apply channels_filed_insert | assumption].
  - (* GUILD_EMOJIS_UPDATE *)
    unfold on_GUILD_EMOJIS_UPDATE.
    destruct (Client.guilds c !! guild_id) as [guild |] eqn:Hgd; [| exact Hc].
    assert (store_filed
              (Client.set_guilds c
                 (refile guild_id
                    (GatewayGuild.id (GatewayGuild.set_emojis guild
                       (JsMap.of_entries
                          (map (fun emoji =>
                                  (Wire.emoji_id emoji, parseEmoji emoji))
                             emojis))))
                    (GatewayGuild.set_emojis guild
                       (JsMap.of_entries
                          (map (fun emoji =>
                                  (Wire.emoji_id emoji, parseEmoji emoji))
                             emojis)))
                    (Client.guilds c)))) as Hres.
    { simpl GatewayGuild.id. rewrite (Hguilds _ _ Hgd).
      unfold refile. rewrite insert_insert_eq.
      now apply (guild_branch_filed _ _ guild). }
    repeat match goal with
           | |- context [if ?b then _ else _] => destruct b
           end; exact Hres.
  - (* GUILD_MEMBER_UPDATE *)
    unfold on_GUILD_MEMBER_UPDATE.
    destruct (Client.guilds c !! _) as [guild |] eqn:Hgd; [| exact Hc].
    destruct (GatewayGuild.members guild !! _); [| exact Hc].
    now apply (guild_branch_filed _ _ guild).
  - (* GUILD_MEMBERS_CHUNK *)
    unfold on_GUILD_MEMBERS_CHUNK.
    destruct (Client.guilds c !! _) as [guild |] eqn:Hgd; exact Hc.
  - (* MESSAGE_UPDATE *)
    unfold on_MESSAGE_UPDATE.
    branch_fst c (Wire.message_guild_id data) (fun chs => update_message_in chs (Wire.message_channel_id data) (new_Message data)).
    apply (message_branches_filed c (Wire.message_guild_id data)
             (fun chs => fst (update_message_in chs (Wire.message_channel_id data) (new_Message data)))); [| exact Hc].
    intros chs Hf. unfold update_message_in.
    destruct (chs !! _) as [channel |] eqn:Hch; [| exact Hf]. simpl.
    destruct (channels_filed_lookup _ _ _ Hf Hch) as [_ Hms].
    apply (channels_filed_restore chs); try assumption.
    now apply messages_filed_insert.
  - (* MESSAGE_DELETE *)
    unfold on_MESSAGE_DELETE.
    branch_fst c (Wire.md_guild_id data) (fun chs => delete_message_in chs data).
    apply (message_branches_filed c (Wire.md_guild_id data)
             (fun chs => fst (delete_message_in chs data))); [| exact Hc].
    intros chs Hf. unfold delete_message_in.
    destruct (chs !! _) as [channel |] eqn:Hch; [| exact Hf]. simpl.
    destruct (channels_filed_lookup _ _ _ Hf Hch) as [_ Hms].
    apply (channels_filed_restore chs); try assumption.
    now apply messages_filed_delete.
  - (* MESSAGE_REACTION_ADD *)
    unfold on_MESSAGE_REACTION_ADD.
    pose proof (message_branches_filed c (Wire.re_guild_id data)
                  (fun chs => fst (react_in chs data
                                     (add_reaction (Client.user c) data)))
                  (fun chs => react_in_filed chs data _ (add_reaction_keeps_id (Client.user c) data)) Hc) as H.
    destruct (truthy (Wire.re_guild_id data));
      destruct (react_in _ data _) as [chs [err | [ch m]]]; exact H.
  - (* MESSAGE_REACTION_REMOVE *)
    unfold on_MESSAGE_REACTION_REMOVE.
    destruct (truthy (Wire.re_guild_id data)) eqn:Ht.
    + pose proof (message_branches_filed c (Wire.re_guild_id data)
                    (fun chs => fst (react_in chs data
                                       (remove_reaction (Client.user c) data)))
                    (fun chs => react_in_filed chs data _ (remove_reaction_keeps_id (Client.user c) data)) Hc) as H.
      rewrite Ht in H.
      destruct (react_in _ data _) as [chs [err | [ch m]]]; exact H.
    + pose proof (message_branches_filed c (Wire.re_guild_id data)
                    (fun chs => fst (react_in chs data
                                       (remove_reaction_dm (Client.user c) data)))
                    (fun chs => react_in_filed chs data _ (remove_reaction_dm_keeps_id (Client.user c) data)) Hc)
        as H.
      rewrite Ht in H.
      destruct (react_in _ data _) as [chs [err | [ch m]]]; exact H.
  - (* READY *)
    unfold on_READY. destruct (Payload.ready_shard data); exact Hc.
  - (* CHANNEL_CREATE *)
    unfold on_CHANNEL_CREATE.
    destruct (newChannelSwitch data) as [channel |] eqn:Hsw; [| exact Hc].
    pose proof (newChannelSwitch_filed _ _ Hsw).
    destruct (is_dm_type (Channel.type channel)); (split; [| split]); simpl;
      first [now apply channels_filed_insert | assumption].
  - (* CHANNEL_DELETE *)
    unfold on_CHANNEL_DELETE.
    destruct (newChannelSwitch data) as [channel |] eqn:Hsw; [| exact Hc].
    destruct (is_dm_type (Channel.type channel)); (split; [| split]); simpl;
      first [now apply channels_filed_delete | assumption].
  - (* GUILD_DELETE *)
    split; [exact Hg |]. split; [exact Hd |]. simpl. intros k guild Hk.
    apply lookup_delete_Some in Hk as [_ Hk]. now apply Hguilds.
  - (* GUILD_BAN_ADD *) exact Hc.
  - (* GUILD_BAN_REMOVE *) exact Hc.
  - (* GUILD_MEMBER_ADD *)
    unfold on_GUILD_MEMBER_ADD.
    destruct (Client.guilds c !! _) as [guild |] eqn:Hgd; [| exact Hc].
    now apply (guild_branch_filed _ _ guild).
  - (* GUILD_MEMBER_REMOVE *)
    unfold on_GUILD_MEMBER_REMOVE.
    destruct (Client.guilds c !! _) as [guild |] eqn:Hgd; [| exact Hc].
    now apply (guild_branch_filed _ _ guild).
  - (* GUILD_ROLE_CREATE *)
    unfold on_GUILD_ROLE_CREATE, upsert_role.
    destruct (Client.guilds c !! _) as [guild |] eqn:Hgd; [| exact Hc].
    now apply (guild_branch_filed _ _ guild).
  - (* GUILD_ROLE_UPDATE *)
    unfold on_GUILD_ROLE_UPDATE, upsert_role.
    destruct (Client.guilds c !! _) as [guild |] eqn:Hgd; [| exact Hc].
    now apply (guild_branch_filed _ _ guild).
  - (* GUILD_ROLE_DELETE *)
    unfold on_GUILD_ROLE_DELETE.
    destruct (Client.guilds c !! _) as [guild |] eqn:Hgd; [| exact Hc].
    now apply (guild_branch_filed _ _ guild).
  - (* MESSAGE_CREATE *)
    unfold on_MESSAGE_CREATE.
    branch_fst c (Wire.message_guild_id data) (fun chs => create_message_in chs (Wire.message_channel_id data) (new_Message data)).
    apply (message_branches_filed c (Wire.message_guild_id data)
             (fun chs => fst (create_message_in chs (Wire.message_channel_id data) (new_Message data)))); [| exact Hc].
    intros chs Hf. unfold create_message_in.
    destruct (chs !! _) as [channel |] eqn:Hch; [| exact Hf]. simpl.
    destruct (channels_filed_lookup _ _ _ Hf Hch) as [_ Hms].
    apply (channels_filed_restore chs); try assumption.
    now apply messages_filed_insert.
  - (* MESSAGE_DELETE_BULK *)
    unfold on_MESSAGE_DELETE_BULK.
    branch_fst c (Payload.mdb_guild_id data) (fun chs => bulk_delete_in chs data).
    apply (message_branches_filed c (Payload.mdb_guild_id data)
             (fun chs => fst (bulk_delete_in chs data))); [| exact Hc].
    intros chs Hf. unfold bulk_delete_in.
    destruct (chs !! _) as [channel |] eqn:Hch; [| exact Hf].
    destruct (channels_filed_lookup _ _ _ Hf Hch) as [_ Hms].
    pose proof (bulk_cache_filed (Payload.mdb_ids data)
                  ([], Channel.messages channel) Hms) as Hcache.
    destruct (fold_left bulk_step _ _) as [messages cache]. simpl in *.
    now apply (channels_filed_restore chs).
  - (* MESSAGE_REACTION_REMOVE_ALL *)
    unfold on_MESSAGE_REACTION_REMOVE_ALL.
    pose proof (message_branches_filed c (Payload.rr_guild_id data)
                  (fun chs => fst (clear_in chs data clear_reactions))
                  (fun chs => clear_in_filed chs data clear_reactions
                                (fun m => eq_refl)) Hc) as H.
    destruct (truthy (Payload.rr_guild_id data));
      destruct (clear_in _ data _) as [chs [err | [ch m]]]; exact H.
  - (* MESSAGE_REACTION_REMOVE_EMOJI *)
    unfold on_MESSAGE_REACTION_REMOVE_EMOJI.
    pose proof (message_branches_filed c (Payload.rr_guild_id data)
                  (fun chs => fst (clear_in chs data (delete_reaction emoji)))
                  (fun chs => clear_in_filed chs data (delete_reaction emoji)
                                (fun m => eq_refl)) Hc) as H.
    destruct (truthy (Payload.rr_guild_id data));
      destruct (clear_in _ data _) as [chs [err | [ch m]]]; exact H.
  - (* PRESENCE_UPDATE *)
    unfold on_PRESENCE_UPDATE.
    destruct (Client.guilds c !! _) as [guild |] eqn:Hgd; [| exact Hc].
    now apply (guild_branch_filed _ _ guild).
  - (* TYPING_START *)
    unfold on_TYPING_START. destruct (Payload.ts_member_user data); exact Hc.
  - (* USER_UPDATE *) exact Hc.
Qed.

Lemma sample_store_filed : store_filed Sample.channel_store.
Proof.
  split; [| split].
  - intros k channel Hk. simpl in Hk.
    apply lookup_singleton_Some in Hk as [<- <-]. split; [reflexivity |].
    intros m message Hm. simpl in Hm.
    now apply lookup_singleton_Some in Hm as [<- <-].
  - intros k channel Hk. simpl in Hk.
    apply lookup_singleton_Some in Hk as [<- <-]. split; [reflexivity |].
    intros m message Hm. simpl in Hm.
    now apply lookup_singleton_Some in Hm as [<- <-].
  - intros k guild Hk. simpl in Hk. now rewrite lookup_empty in Hk.
Qed.

(** X8: if every channel is stored under its own id, every cached
    message under its own id and every guild under its own id, the same
    holds after any sequence of events. *)
Theorem filed_under_own_id_is_kept events :
  forall c, store_filed c -> store_filed (run c events).
Proof.
  induction events as [| e events IH]; intros c Hc; [exact Hc |].
  apply IH, step_keeps_filed, Hc.
Qed.

Lemma filed_under_own_id_is_kept_witness :
  store_filed
    (run Sample.channel_store
       [inr (MESSAGE_CREATE Example.second_message);
        inl (MESSAGE_REACTION_ADD Sample.thumbs_up_in_guild);
        inr (MESSAGE_DELETE_BULK Example.bulk)]).
Proof.
  exact (filed_under_own_id_is_kept _ Sample.channel_store sample_store_filed).
Defined.

(** ** Members *)

Lemma set_members_id guild :
  GatewayGuild.set_members guild (GatewayGuild.members guild) = guild.
Proof. now destruct guild. Qed.

Lemma set_members_twice guild ms ms' :
  GatewayGuild.set_members (GatewayGuild.set_members guild ms) ms'
  = GatewayGuild.set_members guild ms'.
Proof. reflexivity. Qed.

(** X9: after a [GUILD_MEMBER_ADD] on a stored guild, a
    [GUILD_MEMBER_UPDATE] for the same user does not throw: it emits
    [guildMemberUpdate] with the added member as the old value and a member
    built from the added payload overridden by the update's properties,
    which is the one stored afterwards. *)
Theorem member_add_then_update_emits c guild_id member update guild :
  Client.guilds c !! guild_id = Some guild ->
  Wire.mu_guild_id update = guild_id ->
  Wire.mu_user_id update = Wire.member_user_id member ->
  exists guild',
    handle (step c (inr (GUILD_MEMBER_ADD guild_id member)))
      (GUILD_MEMBER_UPDATE update)
    = (Client.set_guilds c (<[guild_id := guild']> (Client.guilds c)),
       Emitted
         (guildMemberUpdate guild'
            (new_GuildMember (Wire.member_fields member) guild_id)
            (new_GuildMember
               (spread (Wire.member_fields member) (Wire.mu_fields update))
               guild_id)))
    /\ GatewayGuild.members guild' !! Wire.member_user_id member
       = Some (new_GuildMember
                 (spread (Wire.member_fields member) (Wire.mu_fields update))
                 guild_id).
Proof.
  intros Hg Hgid Huid. simpl. unfold on_GUILD_MEMBER_ADD. rewrite Hg. simpl.
  unfold on_GUILD_MEMBER_UPDATE. rewrite Hgid, Huid. simpl.
  rewrite lookup_insert_eq. simpl. rewrite lookup_insert_eq. simpl.
  eexists. split.
  - unfold Client.set_guilds. simpl. rewrite insert_insert_eq. reflexivity.
  - simpl. apply lookup_insert_eq.
Qed.

Lemma member_add_then_update_emits_witness :
  Client.guilds Sample.guild_store !! "1" = Some Sample.empty_guild
  /\ exists guild',
       snd (handle
              (step Sample.guild_store
                 (inr (GUILD_MEMBER_ADD "1" Example.member_8)))
              (GUILD_MEMBER_UPDATE Example.member_8_renamed))
       = Emitted
           (guildMemberUpdate guild'
              (new_GuildMember {[ "nick" := JStr "trin" ]} "1")
              (new_GuildMember
                 (spread {[ "nick" := JStr "trin" ]}
                    {[ "nick" := JStr "trinity" ]}) "1")).
Proof.
  assert (Hg : Client.guilds Sample.guild_store !! "1"
               = Some Sample.empty_guild) by (vm_compute; reflexivity).
  split; [exact Hg |].
  destruct (member_add_then_update_emits Sample.guild_store "1"
              Example.member_8 Example.member_8_renamed Sample.empty_guild
              Hg eq_refl eq_refl) as (guild' & Hout & _).
  exists guild'. now rewrite Hout.
Defined.

(** X10: a [GUILD_MEMBER_ADD] followed by a [GUILD_MEMBER_REMOVE] for the
    same user, who was not a stored member, reports the added member as
    removed and leaves the store exactly as it was. *)
Theorem member_add_then_remove_restores c guild_id member guild :
  Client.guilds c !! guild_id = Some guild ->
  GatewayGuild.members guild !! Wire.member_user_id member = None ->
  let remove :=
    GUILD_MEMBER_REMOVE
      {| Payload.mr_guild_id := guild_id;
         Payload.mr_user_id := Wire.member_user_id member |} in
  handle_other (step c (inr (GUILD_MEMBER_ADD guild_id member))) remove
  = (c, Emits
          (guildMemberRemove guild
             (Some (new_GuildMember (Wire.member_fields member) guild_id)))).
Proof.
  intros Hg Hm remove. subst remove. simpl.
  unfold on_GUILD_MEMBER_ADD. rewrite Hg. simpl.
  unfold on_GUILD_MEMBER_REMOVE. simpl.
  rewrite lookup_insert_eq. simpl. rewrite lookup_insert_eq.
  rewrite delete_insert_eq, (delete_id _ _ Hm).
  rewrite set_members_twice, set_members_id.
  unfold Client.set_guilds. simpl.
  rewrite insert_insert_eq, (insert_id _ _ _ Hg). now destruct c.
Qed.

Lemma member_add_then_remove_restores_witness :
  GatewayGuild.members Sample.empty_guild !! "8" = None
  /\ handle_other
       (step Sample.guild_store (inr (GUILD_MEMBER_ADD "1" Example.member_8)))
       (GUILD_MEMBER_REMOVE Example.remove_8)
     = (Sample.guild_store,
        Emits
          (guildMemberRemove Sample.empty_guild
             (Some (new_GuildMember {[ "nick" := JStr "trin" ]} "1")))).
Proof.
  split; [vm_compute; reflexivity |].
  apply (member_add_then_remove_restores Sample.guild_store "1"
           Example.member_8 Sample.empty_guild); vm_compute; reflexivity.
Defined.

(** X11: a [GUILD_MEMBER_REMOVE] for a member, or a [GUILD_ROLE_DELETE]
    for a role, that the stored guild does not hold does not throw: it
    emits the notification with the removed value absent and leaves the
    store as it was. *)
Theorem remove_of_unknown_member_or_role_emits_absent c guild_id id guild :
  Client.guilds c !! guild_id = Some guild ->
  (GatewayGuild.members guild !! id = None ->
   handle_other c
     (GUILD_MEMBER_REMOVE
        {| Payload.mr_guild_id := guild_id; Payload.mr_user_id := id |})
   = (c, Emits (guildMemberRemove guild None)))
  /\ (GatewayGuild.roles guild !! id = None ->
      handle_other c
        (GUILD_ROLE_DELETE
           {| Payload.rd_guild_id := guild_id; Payload.rd_role_id := id |})
      = (c, Emits (guildRoleDelete guild None))).
Proof.
  intros Hg. split; intros Hm; simpl;
    unfold on_GUILD_MEMBER_REMOVE, on_GUILD_ROLE_DELETE; simpl;
    rewrite Hg, Hm, (delete_id _ _ Hm).
  - rewrite set_members_id. unfold Client.set_guilds.
    rewrite (insert_id _ _ _ Hg). now destruct c.
  - replace (set_roles guild (GatewayGuild.roles guild)) with guild
      by now destruct guild.
    unfold Client.set_guilds. rewrite (insert_id _ _ _ Hg). now destruct c.
Qed.

Lemma remove_of_unknown_member_or_role_emits_absent_witness :
  handle_other Sample.guild_store (GUILD_MEMBER_REMOVE Example.remove_8)
  = (Sample.guild_store, Emits (guildMemberRemove Sample.empty_guild None)).
Proof.
  refine (proj1 (remove_of_unknown_member_or_role_emits_absent
                   Sample.guild_store "1" "8" Sample.empty_guild _) _);
    vm_compute; reflexivity.
Defined.

(** ** Messages *)

Lemma set_messages_id channel :
  Channel.set_messages channel (Channel.messages channel) = channel.
Proof. now destruct channel. Qed.

Lemma set_messages_twice channel ms ms' :
  Channel.set_messages (Channel.set_messages channel ms) ms'
  = Channel.set_messages channel ms'.
Proof. reflexivity. Qed.

Lemma create_then_delete_in channels channel_id message channel :
  channels !! channel_id = Some channel ->
  Channel.id channel = channel_id ->
  Channel.messages channel !! Message.id message = None ->
  forall guild_id,
    delete_message_in (fst (create_message_in channels channel_id message))
      {| Wire.md_id := Message.id message;
         Wire.md_channel_id := channel_id;
         Wire.md_guild_id := guild_id |}
    = (channels, Emitted (messageDelete channel (inl message))).
Proof.
  intros Hch Hid Hm guild_id.
  unfold create_message_in. rewrite Hch. simpl.
  unfold delete_message_in. simpl. rewrite lookup_refile. simpl.
  rewrite lookup_insert_eq, delete_insert_eq, (delete_id _ _ Hm).
  rewrite set_messages_twice, set_messages_id.
  unfold refile. rewrite Hid, !insert_insert_eq, (insert_id _ _ _ Hch).
  reflexivity.
Qed.

(** X12: a [MESSAGE_CREATE] followed by the [MESSAGE_DELETE] of the same
    message, in a cached channel stored under its own id that did not hold
    the message, emits [messageDelete] with the full message just created
    (no stub) and leaves the store exactly as it was. *)
Theorem message_create_then_delete_round_trip c data channel :
  text_channels c (Wire.message_guild_id data) !! Wire.message_channel_id data
  = Some channel ->
  Channel.id channel = Wire.message_channel_id data ->
  Channel.messages channel !! Wire.message_id data = None ->
  handle (step c (inr (MESSAGE_CREATE data)))
    (MESSAGE_DELETE
       {| Wire.md_id := Wire.message_id data;
          Wire.md_channel_id := Wire.message_channel_id data;
          Wire.md_guild_id := Wire.message_guild_id data |})
  = (c, Emitted (messageDelete channel (inl (new_Message data)))).
Proof.
  intros Hch Hid Hm. unfold text_channels in Hch. simpl.
  unfold on_MESSAGE_CREATE, on_MESSAGE_DELETE. simpl.
  pose proof (fun chs H => create_then_delete_in chs
                (Wire.message_channel_id data) (new_Message data) channel
                H Hid Hm (Wire.message_guild_id data)) as Hrt.
  simpl in Hrt.
  destruct (truthy (Wire.message_guild_id data));
    specialize (Hrt _ Hch);
    destruct (create_message_in _ _ _) as [chs out]; simpl in *;
    rewrite Hrt; now destruct c.
Qed.

Lemma message_create_then_delete_round_trip_witness :
  Channel.messages Sample.text_channel !! "52" = None
  /\ handle (step Sample.channel_store
               (inr (MESSAGE_CREATE Example.second_message)))
       (MESSAGE_DELETE
          {| Wire.md_id := "52"; Wire.md_channel_id := "20";
             Wire.md_guild_id := Some "1" |})
     = (Sample.channel_store,
        Emitted
          (messageDelete Sample.text_channel
             (inl (new_Message Example.second_message)))).
Proof.
  split; [vm_compute; reflexivity |].
  apply (message_create_then_delete_round_trip Sample.channel_store
           Example.second_message Sample.text_channel);
    vm_compute; reflexivity.
Defined.

(** ** Bulk deletion *)

Lemma JsMap_get_set_eq {V} (m : list (string * V)) k v :
  JsMap.get (JsMap.set m k v) k = Some v.
Proof.
  induction m as [| [k' v'] m IH]; cbn [JsMap.get JsMap.set].
  - destruct (decide (k = k)); [reflexivity | congruence].
  - destruct (decide (k' = k)) as [-> | Hne]; cbn [JsMap.get].
    + destruct (decide (k = k)); [reflexivity | congruence].
    + destruct (decide (k' = k)); [congruence | exact IH].
Qed.

Lemma JsMap_get_set_ne {V} (m : list (string * V)) k k' v :
  k <> k' -> JsMap.get (JsMap.set m k v) k' = JsMap.get m k'.
Proof.
  intros Hne. induction m as [| [k0 v0] m IH]; cbn [JsMap.get JsMap.set].
  - destruct (decide (k = k')); [congruence | reflexivity].
  - destruct (decide (k0 = k)) as [-> | Hne0]; cbn [JsMap.get].
    + destruct (decide (k = k')); [congruence | reflexivity].
    + destruct (decide (k0 = k')); [reflexivity | exact IH].
Qed.

Lemma bulk_cache ids :
  forall acc id,
    snd (fold_left bulk_step ids acc) !! id
    = if decide (id ∈ ids) then None else snd acc !! id.
Proof.
  induction ids as [| x ids IH]; intros acc id; cbn [fold_left].
  - destruct (decide (id ∈ [])) as [Hin | _]; [| reflexivity].
    now apply not_elem_of_nil in Hin.
  - rewrite IH. unfold bulk_step. cbn [snd].
    destruct (decide (id ∈ ids)) as [Hin | Hnin];
      destruct (decide (id ∈ x :: ids)) as [Hin' | Hnin']; try reflexivity.
    + exfalso. apply Hnin'. now right.
    + apply elem_of_cons in Hin' as [-> | Hin']; [| contradiction].
      apply lookup_delete_eq.
    + apply lookup_delete_ne. intros ->. apply Hnin'. left.
Qed.

Lemma bulk_cache_is_deletes ids :
  forall acc,
    snd (fold_left bulk_step ids acc)
    = fold_left (fun cache id => delete id cache) ids (snd acc).
Proof.
  induction ids as [| x ids IH]; intros acc; simpl; [reflexivity |].
  now rewrite IH.
Qed.

Lemma bulk_emitted ids :
  forall acc id,
    JsMap.get (fst (fold_left bulk_step ids acc)) id
    = if decide (id ∈ ids)
      then Some match snd acc !! id with
                | Some m =>
                    if decide (count_occ String.string_dec ids id = 1%nat)
                    then inl m else inr id
                | None => inr id
                end
      else JsMap.get (fst acc) id.
Proof.
  induction ids as [| x ids IH]; intros acc id; cbn [fold_left].
  - destruct (decide (id ∈ [])) as [Hin | _]; [| reflexivity].
    now apply not_elem_of_nil in Hin.
  - rewrite IH. unfold bulk_step. cbn [fst snd count_occ].
    destruct (String.string_dec x id) as [-> | Hne].
    + rewrite lookup_delete_eq, JsMap_get_set_eq.
      destruct (decide (id ∈ id :: ids)) as [_ | Hnin'];
        [| exfalso; apply Hnin'; left].
      destruct (decide (id ∈ ids)) as [Hin | Hnin].
      * destruct (snd acc !! id); [| reflexivity].
        destruct (decide (S (count_occ String.string_dec ids id) = 1%nat)) as [Hc | _];
          [| reflexivity].
        rewrite list_elem_of_In in Hin.
        apply (count_occ_In String.string_dec) in Hin. lia.
      * destruct (snd acc !! id); [| reflexivity].
        destruct (decide (S (count_occ String.string_dec ids id) = 1%nat)) as [_ | Hc];
          [reflexivity |].
        rewrite list_elem_of_In in Hnin.
        apply (count_occ_not_In String.string_dec) in Hnin. lia.
    + rewrite lookup_delete_ne by done.
      rewrite JsMap_get_set_ne by done.
      destruct (decide (id ∈ ids)) as [Hin | Hnin];
        destruct (decide (id ∈ x :: ids)) as [Hin' | Hnin']; try reflexivity.
      * exfalso. apply Hnin'. now right.
      * apply elem_of_cons in Hin' as [-> | Hin']; congruence.
Qed.

(** X13: a [MESSAGE_DELETE_BULK] on a cached channel removes exactly the
    listed ids from the cache.  The emitted map has an entry for exactly
    the listed ids: the cached message for an id listed once, and the bare
    id for an id that was not cached or that is listed more than once. *)
Theorem bulk_delete_removes_listed_only c data channel :
  text_channels c (Payload.mdb_guild_id data) !! Payload.mdb_channel_id data
  = Some channel ->
  exists channel' messages,
    snd (handle_other c (MESSAGE_DELETE_BULK data))
    = Emits (messageDeleteBulk channel' messages)
    /\ text_channels (fst (handle_other c (MESSAGE_DELETE_BULK data)))
         (Payload.mdb_guild_id data) !! Payload.mdb_channel_id data
       = Some channel'
    /\ (forall id,
          Channel.messages channel' !! id
          = if decide (id ∈ Payload.mdb_ids data) then None
            else Channel.messages channel !! id)
    /\ (forall id,
          JsMap.get messages id
          = if decide (id ∈ Payload.mdb_ids data)
            then Some match Channel.messages channel !! id with
                      | Some m =>
                          if decide (count_occ String.string_dec
                                       (Payload.mdb_ids data) id = 1%nat)
                          then inl m else inr id
                      | None => inr id
                      end
            else None).
Proof.
  intros Hch. unfold text_channels in *. simpl.
  unfold on_MESSAGE_DELETE_BULK.
  pose proof (bulk_cache (Payload.mdb_ids data)
                ([], Channel.messages channel)) as Hcache.
  pose proof (bulk_emitted (Payload.mdb_ids data)
                ([], Channel.messages channel)) as Hout.
  destruct (truthy (Payload.mdb_guild_id data)) eqn:Ht;
    unfold bulk_delete_in; rewrite Hch;
    destruct (fold_left bulk_step _ _) as [messages cache];
    simpl in *; rewrite ?Ht;
    eexists _, messages; (split; [reflexivity |]);
    (split; [apply lookup_refile |]); simpl; split; assumption.
Qed.

Lemma bulk_delete_removes_listed_only_witness :
  text_channels Sample.channel_store (Some "1") !! "20"
  = Some Sample.text_channel
  /\ exists channel' messages,
       snd (handle_other Sample.channel_store
              (MESSAGE_DELETE_BULK Example.bulk))
       = Emits (messageDeleteBulk channel' messages)
       /\ Channel.messages channel' !! "50" = None
       /\ JsMap.get messages "50" = Some (inl Sample.plain_message)
       /\ JsMap.get messages "51" = Some (inr "51").
Proof.
  assert (Hch : text_channels Sample.channel_store (Some "1") !! "20"
                = Some Sample.text_channel) by (vm_compute; reflexivity).
  split; [exact Hch |].
  destruct (bulk_delete_removes_listed_only Sample.channel_store Example.bulk
              Sample.text_channel Hch)
    as (channel' & messages & Hout & _ & Hcache & Hmap).
  exists channel', messages. split; [exact Hout |].
  split; [exact (Hcache "50") |].
  split; [exact (Hmap "50") | exact (Hmap "51")].
Defined.

Lemma delete_in_filed_channel channels d channel :
  channels !! Wire.md_channel_id d = Some channel ->
  Channel.id channel = Wire.md_channel_id d ->
  fst (delete_message_in channels d)
  = <[Wire.md_channel_id d :=
        Channel.set_messages channel
          (delete (Wire.md_id d) (Channel.messages channel))]> channels.
Proof.
  intros Hch Hid. unfold delete_message_in. rewrite Hch. simpl.
  unfold refile. now rewrite Hid, insert_insert_eq.
Qed.

Lemma bulk_in_filed_channel channels data channel :
  channels !! Payload.mdb_channel_id data = Some channel ->
  Channel.id channel = Payload.mdb_channel_id data ->
  fst (bulk_delete_in channels data)
  = <[Payload.mdb_channel_id data :=
        Channel.set_messages channel
          (fold_left (fun cache id => delete id cache) (Payload.mdb_ids data)
             (Channel.messages channel))]> channels.
Proof.
  intros Hch Hid. unfold bulk_delete_in. rewrite Hch.
  pose proof (bulk_cache_is_deletes (Payload.mdb_ids data)
                ([], Channel.messages channel)) as H.
  destruct (fold_left bulk_step _ _) as [messages cache]. simpl in *.
  unfold refile. now rewrite Hid, insert_insert_eq, H.
Qed.

(** The channel store an event with this [guild_id] works on, replaced. *)
Lemma single_deletes_in_filed_channel data ids :
  forall c channel,
    text_channels c (Payload.mdb_guild_id data) !! Payload.mdb_channel_id data
    = Some channel ->
    Channel.id channel = Payload.mdb_channel_id data ->
    run c (map (single_delete data) ids)
    = let channels :=
        <[Payload.mdb_channel_id data :=
            Channel.set_messages channel
              (fold_left (fun cache id => delete id cache) ids
                 (Channel.messages channel))]>
          (text_channels c (Payload.mdb_guild_id data)) in
      if truthy (Payload.mdb_guild_id data)
      then Client.set_guildChannels c channels
      else Client.set_dmChannels c channels.
Proof.
  induction ids as [| id ids IH]; intros c channel Hch Hid.
  - simpl. rewrite set_messages_id, (insert_id _ _ _ Hch).
    unfold text_channels.
    destruct (truthy (Payload.mdb_guild_id data)); now destruct c.
  - cbn [map]. change (run c (?e :: ?es)) with (run (step c e) es).
    assert (Hstep :
              step c (single_delete data id)
              = let channels :=
                  <[Payload.mdb_channel_id data :=
                      Channel.set_messages channel
                        (delete id (Channel.messages channel))]>
                    (text_channels c (Payload.mdb_guild_id data)) in
                if truthy (Payload.mdb_guild_id data)
                then Client.set_guildChannels c channels
                else Client.set_dmChannels c channels).
    { unfold single_delete, step. simpl. unfold on_MESSAGE_DELETE. simpl.
      unfold text_channels in *.
      destruct (truthy (Payload.mdb_guild_id data));
        pose proof (delete_in_filed_channel _
                      {| Wire.md_id := id;
                         Wire.md_channel_id := Payload.mdb_channel_id data;
                         Wire.md_guild_id := Payload.mdb_guild_id data |}
                      channel Hch Hid) as H;
        destruct (delete_message_in _ _) as [chs out]; simpl in *;
        now rewrite H. }
    rewrite Hstep.
    rewrite (IH _ (Channel.set_messages channel
                     (delete id (Channel.messages channel)))).
    + unfold text_channels. cbn [fold_left].
      destruct (truthy (Payload.mdb_guild_id data)); simpl;
        rewrite insert_insert_eq; reflexivity.
    + unfold text_channels.
      destruct (truthy (Payload.mdb_guild_id data)); simpl;
        apply lookup_insert_eq.
    + exact Hid.
Qed.

(** X14: on a cached channel stored under its own id, a
    [MESSAGE_DELETE_BULK] leaves the same store as handling one
    [MESSAGE_DELETE] per listed id, in order. *)
Theorem bulk_delete_is_repeated_delete c data channel :
  text_channels c (Payload.mdb_guild_id data) !! Payload.mdb_channel_id data
  = Some channel ->
  Channel.id channel = Payload.mdb_channel_id data ->
  fst (handle_other c (MESSAGE_DELETE_BULK data))
  = run c (map (single_delete data) (Payload.mdb_ids data)).
Proof.
  intros Hch Hid.
  rewrite (single_deletes_in_filed_channel data _ c channel Hch Hid).
  simpl. unfold on_MESSAGE_DELETE_BULK. unfold text_channels in *.
  destruct (truthy (Payload.mdb_guild_id data));
    pose proof (bulk_in_filed_channel _ data channel Hch Hid) as H;
    destruct (bulk_delete_in _ data) as [chs out]; simpl in *; now rewrite H.
Qed.

Lemma bulk_delete_is_repeated_delete_witness :
  Channel.id Sample.text_channel = "20"
  /\ fst (handle_other Sample.channel_store (MESSAGE_DELETE_BULK Example.bulk))
     = run Sample.channel_store
         [single_delete Example.bulk "50"; single_delete Example.bulk "51"].
Proof.
  split; [reflexivity |].
  apply (bulk_delete_is_repeated_delete Sample.channel_store Example.bulk
           Sample.text_channel); vm_compute; reflexivity.
Defined.

(** ** Clearing reactions *)

Lemma clear_in_cached channels data block channel message :
  channels !! Payload.rr_channel_id data = Some channel ->
  Channel.messages channel !! Payload.rr_message_id data = Some message ->
  (fst (clear_in channels data block) !! Payload.rr_channel_id data
     ≫= fun ch => Channel.messages ch !! Payload.rr_message_id data)
  = Some (block message)
  /\ exists channel',
       snd (clear_in channels data block)
       = inr (channel', inl (block message)).
Proof.
  intros Hch Hm. unfold clear_in. rewrite Hch, Hm. simpl. split.
  - rewrite lookup_refile. simpl. apply lookup_refile.
  - eexists. reflexivity.
Qed.

(** X15: on a cached message, [MESSAGE_REACTION_REMOVE_ALL] leaves no
    aggregate at all and [MESSAGE_REACTION_REMOVE_EMOJI] removes the
    emoji's aggregate and keeps every other one.  Neither throws, whether
    or not the session user is known or an aggregate was stored. *)
Theorem reactions_removed_without_session_user c data emoji channel message :
  text_channels c (Payload.rr_guild_id data) !! Payload.rr_channel_id data
  = Some channel ->
  Channel.messages channel !! Payload.rr_message_id data = Some message ->
  (thrown c (inr (MESSAGE_REACTION_REMOVE_ALL data)) = None
   /\ forall key,
        stored_reaction (step c (inr (MESSAGE_REACTION_REMOVE_ALL data)))
          (Payload.rr_guild_id data) (Payload.rr_channel_id data)
          (Payload.rr_message_id data) key
        = None)
  /\ (thrown c (inr (MESSAGE_REACTION_REMOVE_EMOJI data emoji)) = None
      /\ forall key,
           stored_reaction
             (step c (inr (MESSAGE_REACTION_REMOVE_EMOJI data emoji)))
             (Payload.rr_guild_id data) (Payload.rr_channel_id data)
             (Payload.rr_message_id data) key
           = if decide (key = reaction_key emoji) then None
             else Message.reactions message !! key).
Proof.
  intros Hch Hm. unfold text_channels, stored_reaction, thrown, step in *.
  simpl.
  unfold on_MESSAGE_REACTION_REMOVE_ALL, on_MESSAGE_REACTION_REMOVE_EMOJI.
  unfold text_channels.
  destruct (truthy (Payload.rr_guild_id data)); split.
  all: match goal with
       | |- context [clear_in ?chs ?d ?b] =>
           destruct (clear_in_cached chs d b channel message Hch Hm)
             as [Hread [channel' Hout]];
           destruct (clear_in chs d b) as [chs' res]
       end; simpl in *; subst res; (split; [reflexivity |]); intros key;
    simpl; destruct (chs' !! Payload.rr_channel_id data); simpl in *;
    try discriminate; rewrite Hread; simpl.
  all: first [ apply lookup_empty
             | destruct (decide (key = reaction_key emoji)) as [-> | Hne];
               [apply lookup_delete_eq | now apply lookup_delete_ne] ].
Qed.

Lemma reactions_removed_without_session_user_witness :
  Client.user (set_user Sample.channel_store None) = None
  /\ stored_reaction
       (step (set_user Sample.channel_store None)
          (inr (MESSAGE_REACTION_REMOVE_ALL Example.reactions_removed)))
       None "30" "60" (reaction_key Sample.thumbs_up)
     = None.
Proof.
  split; [reflexivity |].
  refine (proj2 (proj1 (reactions_removed_without_session_user
                          (set_user Sample.channel_store None)
                          Example.reactions_removed Sample.thumbs_up
                          Sample.dm_channel Sample.liked_message _ _))
            (reaction_key Sample.thumbs_up));
    vm_compute; reflexivity.
Defined.

(** ** A reaction event touches one aggregate *)

Lemma set_reactions_id message :
  Message.set_reactions message (Message.reactions message) = message.
Proof. now destruct message. Qed.

Lemma add_reaction_only_aggregate self data :
  only_aggregate data (add_reaction self data).
Proof.
  intros message. unfold add_reaction.
  destruct (Message.reactions message !! reaction_key _), self; simpl;
    first [ eexists; split; [reflexivity |];
            intros key Hne; now rewrite lookup_insert_ne
          | exists (Message.reactions message);
            split; [now rewrite set_reactions_id | reflexivity] ].
Qed.

Lemma remove_reaction_only_aggregate self data :
  only_aggregate data (remove_reaction self data).
Proof.
  intros message. unfold remove_reaction.
  destruct (Message.reactions message !! reaction_key _), self; simpl;
    first [ eexists; split; [reflexivity |];
            intros key Hne; now rewrite lookup_insert_ne
          | exists (Message.reactions message);
            split; [now rewrite set_reactions_id | reflexivity] ].
Qed.

Lemma remove_reaction_dm_only_aggregate self data :
  only_aggregate data (remove_reaction_dm self data).
Proof.
  intros message. unfold remove_reaction_dm.
  destruct (remove_reaction_only_aggregate self data message)
    as (reactions' & Hset & Hkeys).
  destruct (remove_reaction self data message) as [m [e |]]; simpl in *.
  - now exists reactions'.
  - subst m. eexists. split; [reflexivity |].
    intros key Hne. simpl. rewrite lookup_delete_ne by done. now apply Hkeys.
Qed.

(** In a map filed under own ids, the frame of the reaction branches stores
    the message its block has left, in place of the cached one. *)
Lemma react_in_stores channels data block channel message :
  channels_filed channels ->
  channels !! Wire.re_channel_id data = Some channel ->
  Channel.messages channel !! Wire.re_message_id data = Some message ->
  Message.id (fst (block message)) = Message.id message ->
  fst (react_in channels data block)
  = <[Wire.re_channel_id data :=
        Channel.set_messages channel
          (<[Wire.re_message_id data := fst (block message)]>
             (Channel.messages channel))]> channels.
Proof.
  intros Hf Hch Hm Hid. unfold react_in. rewrite Hch, Hm.
  destruct (channels_filed_lookup _ _ _ Hf Hch) as [Hcid Hms].
  rewrite (Hms _ _ Hm) in Hid.
  destruct (block message) as [message' [e |]]; simpl in *; [reflexivity |].
  unfold refile. rewrite Hid, Hcid, !insert_insert_eq. reflexivity.
Qed.

Lemma react_in_absent channels data block :
  channels !! Wire.re_channel_id data = None ->
  fst (react_in channels data block) = channels.
Proof. intros Hch. unfold react_in. now rewrite Hch. Qed.

Lemma set_text_channels_id c guild_id :
  set_text_channels c guild_id (text_channels c guild_id) = c.
Proof.
  unfold set_text_channels, text_channels.
  destruct (truthy guild_id); now destruct c.
Qed.

(** X16: in a store where entities are filed under their own ids, a
    [MESSAGE_REACTION_ADD] or [MESSAGE_REACTION_REMOVE] changes at most the
    aggregate under the event's key on the event's message, also when the
    handler throws.  With the channel and the message cached, the store
    afterwards is the store before with the reaction map of that message
    replaced by one that agrees with it on every other key: every other
    property of the message, every other message, every other channel and
    the rest of the store are as before.  With the channel not stored or
    the message not cached, the store is unchanged. *)
Theorem reaction_event_touches_one_aggregate c data e :
  store_filed c ->
  e = MESSAGE_REACTION_ADD data \/ e = MESSAGE_REACTION_REMOVE data ->
  match
    text_channels c (Wire.re_guild_id data) !! Wire.re_channel_id data
  with
  | None => fst (handle c e) = c
  | Some channel =>
      match Channel.messages channel !! Wire.re_message_id data with
      | None => fst (handle c e) = c
      | Some message =>
          exists reactions',
            fst (handle c e)
            = set_text_channels c (Wire.re_guild_id data)
                (<[Wire.re_channel_id data :=
                     Channel.set_messages channel
                       (<[Wire.re_message_id data :=
                            Message.set_reactions message reactions']>
                          (Channel.messages channel))]>
                   (text_channels c (Wire.re_guild_id data)))
            /\ forall key,
                 key <> reaction_key (Wire.re_emoji data) ->
                 reactions' !! key = Message.reactions message !! key
      end
  end.
Proof.
  intros (Hg & Hd & _) He.
  assert (Hf : channels_filed (text_channels c (Wire.re_guild_id data)))
    by (unfold text_channels; now destruct (truthy (Wire.re_guild_id data))).
  assert (Hfst :
    exists block,
      fst (handle c e)
      = set_text_channels c (Wire.re_guild_id data)
          (fst (react_in (text_channels c (Wire.re_guild_id data)) data block))
      /\ only_aggregate data block
      /\ forall message,
           Message.id (fst (block message)) = Message.id message).
  { unfold set_text_channels, text_channels.
    destruct He as [-> | ->]; simpl;
      unfold on_MESSAGE_REACTION_ADD, on_MESSAGE_REACTION_REMOVE;
      destruct (truthy (Wire.re_guild_id data));
      match goal with
      | |- context [react_in ?chs ?d ?b] =>
          exists b; destruct (react_in chs d b) as [chs' [err | [ch m]]]
      end;
      (split; [reflexivity |]);
      first [ split; [apply add_reaction_only_aggregate
                     | apply add_reaction_keeps_id]
            | split; [apply remove_reaction_only_aggregate
                     | apply remove_reaction_keeps_id]
            | split; [apply remove_reaction_dm_only_aggregate
                     | apply remove_reaction_dm_keeps_id] ]. }
  destruct Hfst as (block & -> & Honly & Hid).
  destruct (text_channels c (Wire.re_guild_id data) !! Wire.re_channel_id data)
    as [channel |] eqn:Hch.
  - destruct (Channel.messages channel !! Wire.re_message_id data)
      as [message |] eqn:Hm.
    + destruct (Honly message) as (reactions' & Hset & Hkeys).
      exists reactions'. split; [| exact Hkeys].
      rewrite (react_in_stores _ _ _ _ _ Hf Hch Hm (Hid message)).
      now rewrite Hset.
    + rewrite (react_in_uncached _ _ _ _ Hch Hm). simpl.
      apply set_text_channels_id.
  - rewrite (react_in_absent _ _ _ Hch). apply set_text_channels_id.
Qed.

Lemma reaction_event_touches_one_aggregate_witness :
  store_filed Sample.channel_store
  /\ exists reactions',
       fst (handle Sample.channel_store
              (MESSAGE_REACTION_ADD Sample.thumbs_up_in_dm))
       = Client.set_dmChannels Sample.channel_store
           {[ "30" :=
                Channel.set_messages Sample.dm_channel
                  {[ "60" :=
                       Message.set_reactions Sample.liked_message reactions' ]} ]}
       /\ reactions' !! Some "heart" = None.
Proof.
  split; [exact sample_store_filed |].
  pose proof (reaction_event_touches_one_aggregate Sample.channel_store
                Sample.thumbs_up_in_dm
                (MESSAGE_REACTION_ADD Sample.thumbs_up_in_dm)
                sample_store_filed (or_introl eq_refl)) as H.
  change (text_channels Sample.channel_store
            (Wire.re_guild_id Sample.thumbs_up_in_dm)
            !! Wire.re_channel_id Sample.thumbs_up_in_dm)
    with (Some Sample.dm_channel) in H.
  change (Channel.messages Sample.dm_channel
            !! Wire.re_message_id Sample.thumbs_up_in_dm)
    with (Some Sample.liked_message) in H.
  cbv beta iota in H.
  destruct H as (reactions' & Hstore & Hkeys).
  exists reactions'. split.
  - rewrite Hstore. reflexivity.
  - rewrite Hkeys by discriminate. reflexivity.
Defined.

(** ** Intents, bit by bit *)

Lemma lor_below n a b :
  0 <= n -> 0 <= a < 2 ^ n -> 0 <= b < 2 ^ n -> 0 <= Z.lor a b < 2 ^ n.
Proof.
  intros Hn Ha Hb. split; [apply Z.lor_nonneg; lia |].
  destruct (Z.eq_dec a 0) as [-> | Hna]; [rewrite Z.lor_0_l; lia |].
  destruct (Z.eq_dec b 0) as [-> | Hnb]; [rewrite Z.lor_0_r; lia |].
  apply Z.log2_lt_pow2.
  - assert (0 <= Z.lor a b) by (apply Z.lor_nonneg; lia).
    assert (Z.lor a b <> 0) by (rewrite Z.lor_eq_0_iff; lia).
    lia.
  - rewrite Z.log2_lor by lia.
    apply Z.max_lub_lt; apply Z.log2_lt_pow2; lia.
Qed.

Lemma selected_below (on : Intent.key -> bool) l :
  Forall (fun kv : Intent.key * Z => 0 <= snd kv < 2 ^ 15) l ->
  0 <= fold_right Z.lor 0 (selected on l) < 2 ^ 15.
Proof.
  unfold selected. induction 1 as [| kv l Hkv _ IH]; simpl; [lia |].
  destruct (on (fst kv)); simpl; [| exact IH].
  apply lor_below; [lia | assumption | exact IH].
Qed.

Lemma selected_as_terms (on : Intent.key -> bool) l :
  fold_right Z.lor 0 (selected on l)
  = fold_right
      (fun (kv : Intent.key * Z) acc =>
         Z.lor (if on (fst kv) then snd kv else 0) acc) 0 l.
Proof.
  unfold selected. induction l as [| kv l IH]; simpl; [reflexivity |].
  destruct (on (fst kv)); simpl; now rewrite IH.
Qed.

Lemma testbit_if (b : bool) v n :
  Z.testbit (if b then v else 0) n = b && Z.testbit v n.
Proof. destruct b; [reflexivity | apply Z.testbit_0_l]. Qed.

Lemma record_mask (on : Intent.key -> bool) :
  newIntents (Some (IntentsRecord on))
  = fold_right Z.lor 0 (selected on intentsMap).
Proof.
  unfold newIntents; simpl default; simpl truthy_intents; cbv iota.
  rewrite (record_loop_is_lor on intentsMap intentsMap_small) by lia.
  apply Z.lor_0_l.
Qed.

(** X17: for a record argument the intent mask lies between 0 and
    32767, and for each key of [intentsMap], whose flag is the bit
    [bit_of], that bit of the mask is set exactly when the record's entry
    is [true]. *)
Theorem record_mask_bit_by_bit (on : Intent.key -> bool) :
  0 <= newIntents (Some (IntentsRecord on)) <= 32767
  /\ forall k,
       In (k, 2 ^ bit_of k) intentsMap
       /\ Z.testbit (newIntents (Some (IntentsRecord on))) (bit_of k) = on k.
Proof.
  rewrite record_mask. split.
  - assert (0 <= fold_right Z.lor 0 (selected on intentsMap) < 2 ^ 15); [| lia].
    apply selected_below. repeat constructor; vm_compute; congruence.
  - intros k. split.
    + destruct k; vm_compute; tauto.
    + rewrite selected_as_terms.
      unfold intentsMap. cbn [fold_right fst snd].
      rewrite !Z.lor_spec, !testbit_if, Z.testbit_0_l.
      destruct k; vm_compute Z.testbit;
        rewrite ?andb_false_r, ?andb_true_r, ?orb_false_r, ?orb_false_l;
        reflexivity.
Qed.

(** ** What [request] returns, and [sendMessage] *)

Lemma respond_returns res log v :
  snd (Rest.respond res log) = inr v ->
  ((Rest.status res = 200 \/ Rest.status res = 201)
   /\ is_Some v /\ Rest.parsed res = v)
  \/ (Rest.status res = 204 /\ v = None).
Proof.
  rewrite respond_table. unfold Rest.bind, Rest.res_json.
  repeat match goal with
         | |- context [if mem ?z ?l then _ else _] => destruct (mem z l) eqn:?
         end;
    try (destruct (Rest.parsed res) eqn:Hp); simpl; intros Hv;
    try discriminate; injection Hv as <-;
    unfold mem in *; simpl existsb in *;
    rewrite ?orb_false_r in *;
    rewrite ?orb_true_iff, ?orb_false_iff, ?Z.eqb_eq, ?Z.eqb_neq in *.
  all: first [ left; split; [tauto |]; split; [eauto | reflexivity]
             | right; split; [tauto | reflexivity] ].
Qed.

(** With [data] equal to [null], [request] throws on [data.file] and makes
    no call. *)
Lemma request_null_data_throws_before_fetch network REST stringify token
    endpoint method :
  Rest.request network REST stringify token endpoint method Rest.Null []
  = ([], inl (Rest.Rejected (TypeError "data.file"))).
Proof. reflexivity. Qed.

Lemma request_runs network REST stringify token endpoint method data :
  exists call,
    Rest.run_request network REST stringify token endpoint method data
    = match network call with
      | Some res => Rest.respond res [call]
      | None => ([call], inl (Rest.Rejected (TypeError "fetch failed")))
      end
    /\ Rest.url call = (REST ++ endpoint)%string
    /\ Rest.method call = method
    /\ Rest.body call
       = match data with
         | Some d =>
             Some match Rest.file d with
                  | Some f => Rest.FormBody f "[object Object]"
                  | None => Rest.JsonBody (stringify (Rest.payload d))
                  end
         | None => None
         end
    /\ (In ("Content-Type", "application/json") (Rest.headers call)
        <-> exists d, data = Some d /\ Rest.file d = None).
Proof.
  unfold Rest.run_request, Rest.request.
  destruct data as [d |]; [destruct (Rest.file d) eqn:Hfile |];
    unfold Rest.bind, Rest.ret; cbv beta iota zeta; cbn [fst snd];
    match goal with
    | |- context [Rest.fetch _ ?c] => exists c
    end;
    (split; [unfold Rest.fetch; simpl app;
             destruct (network _); reflexivity |]);
    (split; [reflexivity |]); (split; [reflexivity |]);
    (split; [reflexivity |]); simpl Rest.headers;
    destruct (truthy_string token); simpl; split;
    try (intros [d' [Hd Hf]]); try (intros H);
    try discriminate; try congruence;
    try (exists d; split; [reflexivity | assumption]);
    try (intuition congruence); try tauto.
Qed.

(** X18: [request] returns a value only when [fetch] resolved with status
    200, 201 or 204: for 200 and 201 the value is the parsed body, for 204
    it is [undefined].  Every other status, a body that does not parse and
    a failed [fetch] end in a throw. *)
Theorem request_returns_only_on_success network REST stringify token endpoint
    method data v :
  snd (Rest.run_request network REST stringify token endpoint method data)
  = inr v ->
  exists call res,
    fst (Rest.run_request network REST stringify token endpoint method data)
    = [call]
    /\ network call = Some res
    /\ (((Rest.status res = 200 \/ Rest.status res = 201)
         /\ is_Some v /\ Rest.parsed res = v)
        \/ (Rest.status res = 204 /\ v = None)).
Proof.
  intros Hv.
  destruct (request_runs network REST stringify token endpoint method data)
    as (call & Hrun & _).
  rewrite Hrun in *. exists call.
  destruct (network call) as [res |]; [| discriminate Hv].
  exists res. split; [apply respond_in_class |]. split; [reflexivity |].
  now apply (respond_returns res [call]).
Qed.

Lemma request_returns_only_on_success_witness :
  snd (Rest.run_request (fun _ => Some Example.created) "https://api/"
         (fun _ => "{}") "token" "channels/20/messages" Rest.POST None)
  = inr (Some (JObj [("id", JStr "52")]))
  /\ exists call res,
       fst (Rest.run_request (fun _ => Some Example.created) "https://api/"
              (fun _ => "{}") "token" "channels/20/messages" Rest.POST None)
       = [call]
       /\ Rest.status res = 201.
Proof.
  assert (Hv : snd (Rest.run_request (fun _ => Some Example.created)
                      "https://api/" (fun _ => "{}") "token"
                      "channels/20/messages" Rest.POST None)
               = inr (Some (JObj [("id", JStr "52")])))
    by reflexivity.
  split; [exact Hv |].
  destruct (request_returns_only_on_success _ _ _ _ _ _ _ _ Hv)
    as (call & res & Hlog & Hnet & _).
  exists call, res. split; [exact Hlog |]. now injection Hnet as <-.
Defined.

Section SendFacts.

Variable network : Rest.FetchCall -> option Rest.Response.
Variable REST : string.
Variable stringify : json -> string.
Variable Embed : Type.
Variable unparseEmbed : Embed -> json.
Variable Built : Type.
Variable construct : option json -> Rest.Thrown + Built.

(** X19: [sendMessage] makes exactly one call, a POST to
    [channels/<id>/messages].  Without a file the body is the JSON text of
    the converted message and the call carries the JSON content type.  With
    a file no content type is set and the body is a form of the file and,
    as [payload_json], the string "[object Object]": the content, the
    embed and the other properties of the message are not in it.  An error
    of the request is rethrown without building a [Message]. *)
Theorem sendMessage_makes_one_post token channelId
    (data : Send.SendMessage Embed) :
  let converted :=
    Send.object_literal
      [("content", JStr <$> Send.content data);
       ("tts", JBool <$> Send.tts data);
       ("embed", unparseEmbed <$> Send.embed data);
       ("allowed_mentions", Send.allowedMentions data)] in
  let sent :=
    Send.sendMessage network REST stringify Embed unparseEmbed Built construct
      token channelId data [] in
  exists call,
    fst sent = [call]
    /\ Rest.url call = (REST ++ "channels/" ++ channelId ++ "/messages")%string
    /\ Rest.method call = Rest.POST
    /\ Rest.body call
       = Some match Send.file data with
              | Some f => Rest.FormBody f "[object Object]"
              | None => Rest.JsonBody (stringify converted)
              end
    /\ (In ("Content-Type", "application/json") (Rest.headers call)
        <-> Send.file data = None)
    /\ snd sent
       = match network call with
         | None => inl (Rest.Rejected (TypeError "fetch failed"))
         | Some res =>
             match snd (Rest.respond res [call]) with
             | inl thrown => inl thrown
             | inr message => construct message
             end
         end.
Proof.
  intros converted sent. subst sent.
  unfold Send.sendMessage, Send.createMessage.
  destruct (request_runs network REST stringify token
              ("channels/" ++ channelId ++ "/messages")%string Rest.POST
              (Some (Send.convertedData stringify Embed unparseEmbed data)))
    as (call & Hrun & Hurl & Hmethod & Hbody & Hct).
  unfold Rest.run_request in Hrun.
  exists call. unfold Rest.bind. rewrite Hrun.
  assert (Hfile :
            Rest.file (Send.convertedData stringify Embed unparseEmbed data)
            = Send.file data)
    by (unfold Send.convertedData; now destruct (Send.file data)).
  split.
  { destruct (network call) as [res |]; [| reflexivity].
    pose proof (proj1 (respond_in_class res [call])) as Hlog.
    destruct (Rest.respond res [call]) as [log [t | m]]; simpl in *;
      [exact Hlog |].
    destruct (construct m); exact Hlog. }
  split; [exact Hurl |]. split; [exact Hmethod |].
  split.
  { rewrite Hbody. unfold Send.convertedData.
    destruct (Send.file data); reflexivity. }
  split.
  { rewrite Hct. split.
    - intros [d [[= <-] Hf]]. now rewrite <- Hfile.
    - intros Hf. eexists. split; [reflexivity |]. now rewrite Hfile. }
  destruct (network call) as [res |]; [| reflexivity].
  destruct (Rest.respond res [call]) as [log [t | m]]; simpl; [reflexivity |].
  destruct (construct m); reflexivity.
Qed.

End SendFacts.

(** X20: a [GUILD_EMOJIS_UPDATE] for a stored guild always emits
    [guildEmojiUpdate], whatever the sizes of the old and new emoji sets;
    the guild stored and emitted carries the new emoji map, and its
    members, roles and presences are unchanged. *)
Theorem emoji_list_replace_always_reports_update c guild_id emojis guild :
  Client.guilds c !! guild_id = Some guild ->
  exists guild',
    snd (handle c (GUILD_EMOJIS_UPDATE guild_id emojis))
    = Emitted (guildEmojiUpdate guild')
    /\ Client.guilds (fst (handle c (GUILD_EMOJIS_UPDATE guild_id emojis)))
         !! guild_id
       = Some guild'
    /\ GatewayGuild.emojis guild'
       = JsMap.of_entries
           (map (fun emoji => (Wire.emoji_id emoji, parseEmoji emoji)) emojis)
    /\ GatewayGuild.members guild' = GatewayGuild.members guild
    /\ GatewayGuild.roles guild' = GatewayGuild.roles guild
    /\ GatewayGuild.presences guild' = GatewayGuild.presences guild.
Proof.
  intros Hg. rewrite (emojis_update_always_emits_update c guild_id emojis guild Hg).
  eexists. split; [reflexivity |]. split; [apply lookup_refile |].
  repeat split.
Qed.

Lemma emoji_list_replace_always_reports_update_witness :
  Client.guilds Sample.member_store !! "1" = Some Sample.guild_with_member
  /\ exists guild',
       snd (handle Sample.member_store (GUILD_EMOJIS_UPDATE "1" []))
       = Emitted (guildEmojiUpdate guild')
       /\ GatewayGuild.emojis guild' = [].
Proof.
  assert (Hg : Client.guilds Sample.member_store !! "1"
               = Some Sample.guild_with_member) by (vm_compute; reflexivity).
  split; [exact Hg |].
  destruct (emoji_list_replace_always_reports_update Sample.member_store "1"
              [] Sample.guild_with_member Hg)
    as (guild' & Hout & _ & Hemojis & _).
  exists guild'. split; [exact Hout | exact Hemojis].
Defined.

(** X21: a [GUILD_MEMBERS_CHUNK] for a stored guild always throws
    ("object is not iterable"), whatever members it carries: nothing is
    emitted and the store is left as it was. *)
Theorem member_chunk_always_throws c guild_id data_members guild :
  Client.guilds c !! guild_id = Some guild ->
  handle c (GUILD_MEMBERS_CHUNK guild_id data_members)
  = (c, Threw (TypeError "object is not iterable")).
Proof.
  intros Hg. simpl. unfold on_GUILD_MEMBERS_CHUNK. rewrite Hg.
  unfold entries, object_spread, new_Map. simpl. reflexivity.
Qed.

Lemma member_chunk_always_throws_witness :
  handle Sample.member_store (GUILD_MEMBERS_CHUNK "1" [])
  = (Sample.member_store, Threw (TypeError "object is not iterable")).
Proof.
  apply (member_chunk_always_throws Sample.member_store "1" []
           Sample.guild_with_member).
  vm_compute. reflexivity.
Defined.

(** X22: a [GUILD_MEMBER_UPDATE] for a user who is not a member of the
    stored guild throws on [oldMember.raw] and leaves the store as it
    was. *)
Theorem member_update_needs_the_member c data guild :
  Client.guilds c !! Wire.mu_guild_id data = Some guild ->
  GatewayGuild.members guild !! Wire.mu_user_id data = None ->
  handle c (GUILD_MEMBER_UPDATE data) = (c, Threw (TypeError "oldMember.raw")).
Proof.
  intros Hg Hm. simpl. unfold on_GUILD_MEMBER_UPDATE.
  rewrite Hg, Hm. reflexivity.
Qed.

Lemma member_update_needs_the_member_witness :
  handle Sample.member_store (GUILD_MEMBER_UPDATE Example.member_8_renamed)
  = (Sample.member_store, Threw (TypeError "oldMember.raw")).
Proof.
  apply (member_update_needs_the_member Sample.member_store
           Example.member_8_renamed Sample.guild_with_member);
    vm_compute; reflexivity.
Defined.

(** X23: a [CHANNEL_UPDATE] for a channel that is not stored, and a
    [MESSAGE_UPDATE] for a message that is not cached in its cached
    channel, do not throw.  Each emits its update with the old value
    absent, and the new value is in the store afterwards: the channel under
    its id in the map its type selects, the message under its id in the
    cache of the channel, which is stored again under the key it was
    fetched from and under its own id.  Nothing else in the store
    changes. *)
Theorem update_without_prior_value_emits_absent c :
  (forall data newChannel,
     newChannelSwitch data = Some newChannel ->
     (if is_dm_type (Channel.type newChannel) then Client.dmChannels c
      else Client.guildChannels c) !! Wire.channel_id data = None ->
     handle c (CHANNEL_UPDATE data)
     = (if is_dm_type (Channel.type newChannel)
        then Client.set_dmChannels c
               (<[Channel.id newChannel := newChannel]> (Client.dmChannels c))
        else Client.set_guildChannels c
               (<[Channel.id newChannel := newChannel]>
                  (Client.guildChannels c)),
        Emitted (channelUpdate None newChannel)))
  /\ (forall data channel,
        text_channels c (Wire.message_guild_id data)
          !! Wire.message_channel_id data
        = Some channel ->
        Channel.messages channel !! Wire.message_id data = None ->
        let channel' :=
          Channel.set_messages channel
            (<[Wire.message_id data := new_Message data]>
               (Channel.messages channel)) in
        handle c (MESSAGE_UPDATE data)
        = (set_text_channels c (Wire.message_guild_id data)
             (refile (Wire.message_channel_id data) (Channel.id channel)
                channel' (text_channels c (Wire.message_guild_id data))),
           Emitted (messageUpdate channel' None (new_Message data)))
        /\ text_channels (fst (handle c (MESSAGE_UPDATE data)))
             (Wire.message_guild_id data) !! Wire.message_channel_id data
           = Some channel'
        /\ Channel.messages channel' !! Wire.message_id data
           = Some (new_Message data)).
Proof.
  split.
  - intros data newChannel Hn Hold. simpl. unfold on_CHANNEL_UPDATE.
    rewrite Hn.
    destruct (is_dm_type (Channel.type newChannel)); now rewrite Hold.
  - intros data channel Hch Hold channel'. subst channel'.
    simpl. unfold on_MESSAGE_UPDATE, set_text_channels, text_channels in *.
    destruct (truthy (Wire.message_guild_id data));
      unfold update_message_in; rewrite Hch; simpl; rewrite Hold;
      (split; [reflexivity |]); (split; [apply lookup_refile |]);
      apply lookup_insert_eq.
Qed.

Lemma update_without_prior_value_emits_absent_witness :
  handle Sample.channel_store (CHANNEL_UPDATE Example.dm_payload)
  = (Client.set_dmChannels Sample.channel_store
       (<["41" := new_Channel DM Example.dm_payload]>
          (Client.dmChannels Sample.channel_store)),
     Emitted (channelUpdate None (new_Channel DM Example.dm_payload))).
Proof.
  apply (proj1 (update_without_prior_value_emits_absent Sample.channel_store)
           Example.dm_payload (new_Channel DM Example.dm_payload));
    vm_compute; reflexivity.
Defined.
